(** * DUNE: vehicle supervisor, path controller and bottom tracker

    A shallow embedding of three components of DUNE (Unified Navigation
    Environment) and the properties their specification states about them:

    - [Supervisor]: the task [Supervisors::Vehicle::Task];
    - [BottomTracker]: [DUNE::Control::BottomTracker];
    - [PathController]: [DUNE::Control::PathController].

    Conventions.  Unsigned machine integers are values of [Z] with the
    wrap-around written where the code can overflow.  Values of type
    [float] and [double] that are only stored, compared, added or divided
    are exact rationals ([Q]).  Member functions become computations in a
    small state-and-output monad: the state is the object, the output is
    the list of messages handed to [dispatch], in order.  Calls that only
    log ([debug], [trace], [inf], [war], [err]) are left out. *)

From Stdlib Require Import ZArith QArith Qabs Qminmax Qround Bool List String Ascii Lia Lqa.
From Stdlib Require Import DecimalString.
Import ListNotations.

#[local] Open Scope string_scope.
#[local] Open Scope list_scope.
#[local] Open Scope Z_scope.

(** ** Machine integers and clock values *)

Definition uint8_wrap (z : Z) : Z := z mod 256.
Definition uint16_max : Z := 65535.
Definition uint32_mask : Z := 4294967295.

(** [~m] on a [uint32_t]. *)
Definition not32 (m : Z) : Z := Z.lxor m uint32_mask.

Definition is_uint32 (z : Z) : Prop := 0 <= z < 4294967296.

Definition Qlt_bool (a b : Q) : bool := negb (Qle_bool b a).

(** [String::str("%u", n)]. *)
Definition str_u (n : Z) : string :=
  NilZero.string_of_uint (N.to_uint (Z.to_N n)).

(** Conversion of a [uint32_t] to [float] (24-bit significand, round to
    nearest, ties to even); the result is an integer, returned as such. *)
Definition float_of_uint32 (z : Z) : Z :=
  if z <? 16777216 then z
  else
    let e := Z.log2 z - 23 in
    let q := Z.shiftr z e in
    let r := z - Z.shiftl q e in
    let half := Z.shiftl 1 (e - 1) in
    let q' := if r <? half then q
              else if half <? r then q + 1
              else if Z.even q then q else q + 1 in
    Z.shiftl q' e.

(** ** The message catalogue *)

(** Modelled from the spec: the message catalogue of section 6
    ([DUNE/IMC/Definitions.hpp] is not among the sources).  Only the
    fields the three components read or write are kept; enumerators are
    numbered in the order the catalogue lists them and the bits of masks
    and flags are those of IMC. *)
Module IMC.

(** [VehicleState::OperationModeEnum], in the order of [c_state_desc]. *)
Inductive OperationMode : Type :=
| VS_SERVICE | VS_CALIBRATION | VS_ERROR | VS_MANEUVER | VS_EXTERNAL.

Definition OperationMode_eqb (a b : OperationMode) : bool :=
  match a, b with
  | VS_SERVICE, VS_SERVICE | VS_CALIBRATION, VS_CALIBRATION
  | VS_ERROR, VS_ERROR | VS_MANEUVER, VS_MANEUVER
  | VS_EXTERNAL, VS_EXTERNAL => true
  | _, _ => false
  end.

Definition VFLG_MANEUVER_DONE : Z := 1.

(** [VehicleCommand::TypeEnum] and [VehicleCommand::CommandEnum]. *)
Definition VC_REQUEST : Z := 0.
Definition VC_SUCCESS : Z := 1.
Definition VC_FAILURE : Z := 2.
Definition VC_EXEC_MANEUVER : Z := 0.
Definition VC_STOP_MANEUVER : Z := 1.
Definition VC_START_CALIBRATION : Z := 2.
Definition VC_STOP_CALIBRATION : Z := 3.

(** [ControlLoops::EnableEnum] and the control loop bits. *)
Definition CL_DISABLE : Z := 0.
Definition CL_ENABLE : Z := 1.
Definition CL_PATH : Z := 1.
Definition CL_TELEOPERATION : Z := 2.
Definition CL_ALTITUDE : Z := 4.
Definition CL_DEPTH : Z := 8.
Definition CL_SPEED : Z := 128.
Definition CL_NO_OVERRIDE : Z := 2147483648.

(** [ManeuverControlState::StateEnum]. *)
Definition MCS_EXECUTING : Z := 0.
Definition MCS_DONE : Z := 1.
Definition MCS_ERROR : Z := 2.

(** [PlanControl]. *)
Definition PC_REQUEST : Z := 0.
Definition PC_START : Z := 0.
Definition FLG_IGNORE_ERRORS : Z := 2.

(** Message identifier of [Teleoperation]. *)
Definition DUNE_IMC_TELEOPERATION : Z := 452.

(** [Brake::OpEnum]; a [Brake] carries nothing else. *)
Inductive BrakeOp : Type := OP_STOP | OP_START.

Definition BrakeOp_eqb (a b : BrakeOp) : bool :=
  match a, b with
  | OP_STOP, OP_STOP | OP_START, OP_START => true
  | _, _ => false
  end.

(** [ZUnits]. *)
Inductive ZUnits : Type := Z_NONE | Z_DEPTH | Z_ALTITUDE | Z_HEIGHT.

Definition ZUnits_eqb (a b : ZUnits) : bool :=
  match a, b with
  | Z_NONE, Z_NONE | Z_DEPTH, Z_DEPTH
  | Z_ALTITUDE, Z_ALTITUDE | Z_HEIGHT, Z_HEIGHT => true
  | _, _ => false
  end.

(** [EntityState::StateEnum]. *)
Inductive EntityStateEnum : Type :=
| ESTA_BOOT | ESTA_NORMAL | ESTA_FAULT | ESTA_ERROR | ESTA_FAILURE.

(** [DesiredPath] and [PathControlState] flags. *)
Definition FL_START : Z := 1.
Definition FL_DIRECT : Z := 2.
Definition FL_NO_Z : Z := 4.
Definition FL_CCLOCKW : Z := 16.
Definition FL_LOITER_CURR : Z := 32.
Definition PFL_NEAR : Z := 1.
Definition PFL_LOITERING : Z := 2.
Definition PFL_NO_Z : Z := 4.

(** An inline message (the maneuver carried by a [VehicleCommand]). *)
Record Message : Type := mkMessage {
  msg_id : Z;
  msg_name : string
}.

Record VehicleCommand : Type := mkVehicleCommand {
  vc_source : Z;
  vc_source_entity : Z;
  vc_destination : Z;
  vc_destination_entity : Z;
  vc_type : Z;
  vc_command : Z;
  vc_request_id : Z;
  vc_maneuver : option Message;
  vc_calib_time : Z;
  vc_info : string
}.

Record VehicleState : Type := mkVehicleState {
  op_mode : OperationMode;
  maneuver_type : Z;
  maneuver_stime : Q;
  maneuver_eta : Z;
  flags : Z;
  last_error : string;
  last_error_time : Q;
  control_loops : Z;
  error_count : Z;
  error_ents : string
}.

Record ControlLoops : Type := mkControlLoops {
  cl_enable : Z;
  cl_mask : Z;
  cl_scope_ref : Z
}.

Record EntityMonitoringState : Type := mkEntityMonitoringState {
  ems_ccount : Z;
  ems_cnames : string;
  ems_ecount : Z;
  ems_enames : string;
  ems_last_error : string;
  ems_last_error_time : Q
}.

Record ManeuverControlState : Type := mkManeuverControlState {
  mcs_source : Z;
  mcs_timestamp : Q;
  mcs_state : Z;
  mcs_eta : Z;
  mcs_info : string
}.

Record PlanControl : Type := mkPlanControl {
  pc_type : Z;
  pc_op : Z;
  pc_flags : Z
}.

Record EstimatedState : Type := mkEstimatedState {
  es_lat : Q;
  es_lon : Q;
  es_height : Q;
  es_x : Q;
  es_y : Q;
  es_z : Q;
  es_psi : Q;
  es_theta : Q;
  es_u : Q;
  es_vx : Q;
  es_vy : Q;
  es_vz : Q;
  es_depth : Q;
  es_alt : Q
}.

Record DesiredZ : Type := mkDesiredZ {
  dz_value : Q;
  dz_units : ZUnits
}.

Record DesiredSpeed : Type := mkDesiredSpeed {
  ds_value : Q;
  ds_units : Z
}.

Record DesiredPath : Type := mkDesiredPath {
  dp_start_lat : Q;
  dp_start_lon : Q;
  dp_start_z : Q;
  dp_start_z_units : ZUnits;
  dp_end_lat : Q;
  dp_end_lon : Q;
  dp_end_z : Q;
  dp_end_z_units : ZUnits;
  dp_speed : Q;
  dp_speed_units : Z;
  dp_lradius : Q;
  dp_flags : Z
}.

(** [pcs_eta] is a [uint16_t]; it is [None] when the conversion that
    produced it was given a value outside the range of the type. *)
Record PathControlState : Type := mkPathControlState {
  pcs_start_lat : Q;
  pcs_start_lon : Q;
  pcs_start_z : Q;
  pcs_start_z_units : ZUnits;
  pcs_end_lat : Q;
  pcs_end_lon : Q;
  pcs_end_z : Q;
  pcs_end_z_units : ZUnits;
  pcs_lradius : Q;
  pcs_flags : Z;
  pcs_x : Q;
  pcs_y : Q;
  pcs_z : Q;
  pcs_vx : Q;
  pcs_vy : Q;
  pcs_vz : Q;
  pcs_course_error : Q;
  pcs_eta : option Z
}.

Record Distance : Type := mkDistance {
  dist_value : Q;
  dist_validity : Z
}.

Record NavigationUncertainty : Type := mkNavigationUncertainty {
  nu_x : Q;
  nu_y : Q
}.

End IMC.

(** ** Handlers as computations

    A member function that reads and writes the object and calls
    [dispatch] is a function from the object to a result, the new object
    and the messages dispatched, oldest first. *)

Definition M (S O A : Type) : Type := S -> A * S * list O.

Definition ret {S O A : Type} (a : A) : M S O A :=
  fun s => (a, s, []).

Definition bind {S O A B : Type} (m : M S O A) (f : A -> M S O B) : M S O B :=
  fun s =>
    let '(a, s1, o1) := m s in
    let '(b, s2, o2) := f a s1 in
    (b, s2, o1 ++ o2).

Definition get {S O : Type} : M S O S :=
  fun s => (s, s, []).

Definition modify {S O : Type} (f : S -> S) : M S O unit :=
  fun s => (tt, f s, []).

Definition dispatch {S O : Type} (m : O) : M S O unit :=
  fun s => (tt, s, [m]).

Definition when {S O : Type} (b : bool) (m : M S O unit) : M S O unit :=
  if b then m else ret tt.

Definition state_of {S O A : Type} (r : A * S * list O) : S := snd (fst r).
Definition output_of {S O A : Type} (r : A * S * list O) : list O := snd r.

Declare Scope handler_scope.
Delimit Scope handler_scope with handler.
Notation "x <- c ;; k" := (bind c (fun x => k))
  (at level 61, c at next level, right associativity) : handler_scope.
Notation "c ;; k" := (bind c (fun _ => k))
  (at level 61, right associativity) : handler_scope.

(** * The vehicle supervisor ([Supervisors::Vehicle::Task]) *)
Module Supervisor.
Import IMC.

#[local] Open Scope handler_scope.

(** [c_cmd_desc]: four entries, indexed by the command of a request. *)
Definition c_cmd_desc : list string :=
  ["maneuver start"; "maneuver stop"; "calibration start"; "calibration stop"].

(** [c_man_timeout]. *)
Definition c_man_timeout : Q := 1%Q.

(** What the task hands to [dispatch]. *)
Inductive Msg : Type :=
| OutVehicleState (vs : VehicleState)
| OutVehicleCommand (reply : VehicleCommand)
| OutStopManeuver
| OutIdleManeuver (duration : Z)
| OutCalibration (duration : Z)
| OutManeuver (m : Message) (timestamp : Q).

(** The members of [Task] that the handlers read or write.  [m_err_timer]
    only paces a log line and is left out; [m_vc_reply], [m_stop] and
    [m_idle] are rebuilt where they are dispatched. *)
Record Task : Type := mkTask {
  m_switch_time : Q;
  m_in_safe_plan : bool;
  m_calibration_duration : Z;
  m_vs : VehicleState;
  m_scope_ref : Z;
  safe_ents : list string;
  system_id : Z
}.

Definition Sup (A : Type) : Type := M Task Msg A.

(** *** Field updates *)

Definition set_switch_time (x : Q) (t : Task) : Task :=
  mkTask x (m_in_safe_plan t) (m_calibration_duration t) (m_vs t)
         (m_scope_ref t) (safe_ents t) (system_id t).

Definition set_in_safe_plan (x : bool) (t : Task) : Task :=
  mkTask (m_switch_time t) x (m_calibration_duration t) (m_vs t)
         (m_scope_ref t) (safe_ents t) (system_id t).

Definition set_calibration_duration (x : Z) (t : Task) : Task :=
  mkTask (m_switch_time t) (m_in_safe_plan t) x (m_vs t)
         (m_scope_ref t) (safe_ents t) (system_id t).

Definition set_vs (x : VehicleState) (t : Task) : Task :=
  mkTask (m_switch_time t) (m_in_safe_plan t) (m_calibration_duration t) x
         (m_scope_ref t) (safe_ents t) (system_id t).

Definition set_scope_ref (x : Z) (t : Task) : Task :=
  mkTask (m_switch_time t) (m_in_safe_plan t) (m_calibration_duration t)
         (m_vs t) x (safe_ents t) (system_id t).

Definition upd_vs (f : VehicleState -> VehicleState) (t : Task) : Task :=
  set_vs (f (m_vs t)) t.

Definition set_op_mode (x : OperationMode) (v : VehicleState) : VehicleState :=
  mkVehicleState x (maneuver_type v) (maneuver_stime v) (maneuver_eta v)
    (flags v) (last_error v) (last_error_time v) (control_loops v)
    (error_count v) (error_ents v).

Definition set_maneuver (ty : Z) (stime : Q) (eta : Z) (v : VehicleState)
  : VehicleState :=
  mkVehicleState (op_mode v) ty stime eta
    (flags v) (last_error v) (last_error_time v) (control_loops v)
    (error_count v) (error_ents v).

Definition set_maneuver_eta (eta : Z) (v : VehicleState) : VehicleState :=
  set_maneuver (maneuver_type v) (maneuver_stime v) eta v.

Definition set_flags (x : Z) (v : VehicleState) : VehicleState :=
  mkVehicleState (op_mode v) (maneuver_type v) (maneuver_stime v)
    (maneuver_eta v) x (last_error v) (last_error_time v) (control_loops v)
    (error_count v) (error_ents v).

Definition set_last_error (e : string) (time : Q) (v : VehicleState)
  : VehicleState :=
  mkVehicleState (op_mode v) (maneuver_type v) (maneuver_stime v)
    (maneuver_eta v) (flags v) e time (control_loops v)
    (error_count v) (error_ents v).

Definition set_control_loops (x : Z) (v : VehicleState) : VehicleState :=
  mkVehicleState (op_mode v) (maneuver_type v) (maneuver_stime v)
    (maneuver_eta v) (flags v) (last_error v) (last_error_time v) x
    (error_count v) (error_ents v).

Definition set_error_count (x : Z) (v : VehicleState) : VehicleState :=
  mkVehicleState (op_mode v) (maneuver_type v) (maneuver_stime v)
    (maneuver_eta v) (flags v) (last_error v) (last_error_time v)
    (control_loops v) x (error_ents v).

Definition set_error_ents (x : string) (v : VehicleState) : VehicleState :=
  mkVehicleState (op_mode v) (maneuver_type v) (maneuver_stime v)
    (maneuver_eta v) (flags v) (last_error v) (last_error_time v)
    (control_loops v) (error_count v) x.

(** [m_vs.flags &= ~VFLG_MANEUVER_DONE]. *)
Definition clear_done (v : VehicleState) : VehicleState :=
  set_flags (Z.land (flags v) (Z.lnot VFLG_MANEUVER_DONE)) v.

(** *** Mode predicates *)

Definition modeIs (mode : OperationMode) (t : Task) : bool :=
  OperationMode_eqb (op_mode (m_vs t)) mode.

Definition serviceMode : Task -> bool := modeIs VS_SERVICE.
Definition maneuverMode : Task -> bool := modeIs VS_MANEUVER.
Definition errorMode : Task -> bool := modeIs VS_ERROR.
Definition externalMode : Task -> bool := modeIs VS_EXTERNAL.
Definition calibrationMode : Task -> bool := modeIs VS_CALIBRATION.

Definition maneuverIs (id : Z) (t : Task) : bool :=
  maneuver_type (m_vs t) =? id.

Definition teleoperationOn : Task -> bool := maneuverIs DUNE_IMC_TELEOPERATION.

Definition nonOverridableLoops (t : Task) : bool :=
  negb (Z.land (control_loops (m_vs t)) (Z.lor CL_TELEOPERATION CL_NO_OVERRIDE) =? 0).

(** Modelled from the spec: [Utils::String::split] is not among the
    sources.  The names in [error_ents] are separated by commas (section
    4.3, safe-plan filter); [split] returns the fields between the
    separators, none for the empty string. *)
Fixpoint split_from (sep : ascii) (cur : string) (s : string) : list string :=
  match s with
  | EmptyString => [cur]
  | String c rest =>
      if Ascii.eqb c sep then cur :: split_from sep EmptyString rest
      else split_from sep (cur ++ String c EmptyString)%string rest
  end.

(** Modelled from the spec: [Utils::String::split], see [split_from]. *)
Definition split (s : string) (sep : ascii) : list string :=
  match s with
  | EmptyString => []
  | _ => split_from sep EmptyString s
  end.

(** [entityError]: with errors reported, and inside a safe plan with a
    configured list of safe entities, only an entity of that list counts. *)
Definition entityError (t : Task) : bool :=
  if negb (error_count (m_vs t) =? 0) then
    if negb (Nat.eqb (List.length (safe_ents t)) 0) && m_in_safe_plan t then
      existsb (fun ent => existsb (String.eqb ent) (safe_ents t))
              (split (error_ents (m_vs t)) ","%char)
    else true
  else false.

(** *** State changes *)

Definition setInitialState (t : Task) : Task :=
  set_vs (mkVehicleState VS_SERVICE 65535 (-1)%Q 65535 0 "" (-1)%Q 0 0 "") t.

(** The task after construction and [onResourceInitialization]. *)
Definition initial (ents : list string) (sys : Z) : Task :=
  setInitialState
    (mkTask (-1)%Q false 0
            (mkVehicleState VS_SERVICE 0 0%Q 0 0 "" 0%Q 0 0 "")
            0 ents sys).

Definition reset : Sup unit :=
  t <- get ;;
  when (maneuverMode t) (dispatch OutStopManeuver) ;;
  modify (set_in_safe_plan false) ;;
  modify (upd_vs (set_control_loops 0)) ;;
  dispatch (OutIdleManeuver 0).

(** [changeMode(s, maneuver)].  [now] is the time stamp [dispatch] gives
    the maneuver.  Every call with [s = VS_MANEUVER] passes a maneuver;
    a call without one leaves the maneuver fields alone. *)
Definition changeMode (now : Q) (s : OperationMode) (maneuver : option Message)
  : Sup unit :=
  t <- get ;;
  when (negb (OperationMode_eqb (op_mode (m_vs t)) s))
    (let s' := if OperationMode_eqb s VS_SERVICE && entityError t
               then VS_ERROR else s in
     modify (upd_vs (set_op_mode s')) ;;
     t1 <- get ;;
     when (negb (maneuverMode t1))
       (modify (upd_vs (fun v => clear_done (set_maneuver 65535 (-1)%Q 65535 v))))) ;;
  t2 <- get ;;
  when (maneuverMode t2)
    (match maneuver with
     | Some m =>
         dispatch (OutManeuver m now) ;;
         modify (upd_vs (fun v =>
           clear_done (set_last_error "" (-1)%Q
                         (set_maneuver (msg_id m) now 65535 v))))
     | None => ret tt
     end) ;;
  modify (set_switch_time (-1)%Q) ;;
  t3 <- get ;;
  dispatch (OutVehicleState (m_vs t3)).

(** *** Consumers *)

Definition consume_Abort (now : Q) : Sup unit :=
  modify (upd_vs (set_last_error "got abort request" now)) ;;
  t <- get ;;
  when (negb (errorMode t))
    (reset ;;
     t1 <- get ;;
     when (negb (externalMode t1) || negb (nonOverridableLoops t1))
       (changeMode now VS_SERVICE None)).

Definition onEnabledControlLoops (now : Q) : Sup unit :=
  t <- get ;;
  match op_mode (m_vs t) with
  | VS_SERVICE => changeMode now VS_EXTERNAL None
  | VS_ERROR =>
      if nonOverridableLoops t then changeMode now VS_EXTERNAL None
      else reset
  | _ => ret tt
  end.

Definition onDisabledControlLoops (now : Q) : Sup unit :=
  t <- get ;;
  when (externalMode t) (changeMode now VS_SERVICE None).

Definition consume_ControlLoops (now : Q) (msg : ControlLoops) : Sup unit :=
  t <- get ;;
  if float_of_uint32 (cl_scope_ref msg) <? m_scope_ref t then ret tt
  else
    modify (set_scope_ref (float_of_uint32 (cl_scope_ref msg))) ;;
    let was := control_loops (m_vs t) in
    if cl_enable msg =? CL_ENABLE then
      modify (upd_vs (set_control_loops (Z.lor was (cl_mask msg)))) ;;
      t1 <- get ;;
      when ((was =? 0) && negb (control_loops (m_vs t1) =? 0))
        (onEnabledControlLoops now)
    else
      modify (upd_vs (set_control_loops (Z.land was (not32 (cl_mask msg))))) ;;
      t1 <- get ;;
      when (negb (was =? 0) && (control_loops (m_vs t1) =? 0))
        (onDisabledControlLoops now).

Definition consume_EntityMonitoringState (now : Q)
  (msg : EntityMonitoringState) : Sup unit :=
  modify (upd_vs (set_error_count (uint8_wrap (ems_ccount msg + ems_ecount msg)))) ;;
  t <- get ;;
  when (negb (error_count (m_vs t) =? 0)
        && Qlt_bool (last_error_time (m_vs t)) (ems_last_error_time msg))
    (modify (upd_vs (set_last_error (ems_last_error msg) (ems_last_error_time msg)))) ;;
  modify (upd_vs (set_error_ents "")) ;;
  when (negb (ems_ccount msg =? 0))
    (modify (upd_vs (set_error_ents (ems_cnames msg)))) ;;
  when (negb (ems_ecount msg =? 0))
    (modify (upd_vs (fun v =>
       set_error_ents
         (String.append (error_ents v)
            (String.append (if ems_ccount msg =? 0 then "" else ",")
                           (ems_enames msg))) v))) ;;
  t1 <- get ;;
  if errorMode t1 then
    when (error_count (m_vs t1) =? 0) (changeMode now VS_SERVICE None)
  else if externalMode t1 || maneuverMode t1 then
    when (entityError t1 && negb (nonOverridableLoops t1)
          && negb (teleoperationOn t1))
      (reset ;; changeMode now VS_ERROR None)
  else
    when (entityError t1 && negb (calibrationMode t1))
      (reset ;; changeMode now VS_ERROR None).

(** [IMC::Factory::getAbbrevFromId] is kept abstract as the decimal id. *)
Definition getAbbrevFromId (id : Z) : string := str_u id.

Definition consume_ManeuverControlState (now : Q)
  (msg : ManeuverControlState) : Sup unit :=
  t <- get ;;
  if negb (mcs_source msg =? system_id t) then ret tt
  else if negb (maneuverMode t) then ret tt
  else if mcs_state msg =? MCS_EXECUTING then
    when (negb (mcs_eta msg =? maneuver_eta (m_vs t)))
      (modify (upd_vs (set_maneuver_eta (mcs_eta msg))) ;;
       t1 <- get ;;
       dispatch (OutVehicleState (m_vs t1)))
  else if mcs_state msg =? MCS_DONE then
    modify (upd_vs (fun v =>
      set_flags (Z.lor (flags v) VFLG_MANEUVER_DONE) (set_maneuver_eta 0 v))) ;;
    t1 <- get ;;
    dispatch (OutVehicleState (m_vs t1)) ;;
    modify (set_switch_time now)
  else if mcs_state msg =? MCS_ERROR then
    modify (upd_vs (set_last_error
      (getAbbrevFromId (maneuver_type (m_vs t)) ++ " maneuver error: "
         ++ mcs_info msg)%string
      (mcs_timestamp msg))) ;;
    changeMode now VS_SERVICE None ;;
    reset
  else ret tt.

Definition consume_PlanControl (msg : PlanControl) : Sup unit :=
  when ((pc_type msg =? PC_REQUEST) && (pc_op msg =? PC_START))
    (if negb (Z.land (pc_flags msg) FLG_IGNORE_ERRORS =? 0)
     then modify (set_in_safe_plan true)
     else modify (set_in_safe_plan false)).

(** [answer]: the reply goes back to the sender of the request, with the
    request's command and identifier. *)
Definition answer (cmd : VehicleCommand) (type : Z) (desc : string) : Sup unit :=
  t <- get ;;
  dispatch (OutVehicleCommand
    (mkVehicleCommand (system_id t) 0 (vc_source cmd) (vc_source_entity cmd)
       type (vc_command cmd) (vc_request_id cmd) None 0 desc)).

Definition requestOK (cmd : VehicleCommand) (desc : string) : Sup unit :=
  answer cmd VC_SUCCESS desc.

Definition requestFailed (cmd : VehicleCommand) (desc : string) : Sup unit :=
  answer cmd VC_FAILURE desc.

Definition startCalibration (now : Q) (msg : VehicleCommand) : Sup unit :=
  t <- get ;;
  if externalMode t then
    requestFailed msg "cannot calibrate: vehicle is in external mode"
  else
    when (maneuverMode t) reset ;;
    changeMode now VS_CALIBRATION None ;;
    modify (set_calibration_duration (vc_calib_time msg)) ;;
    dispatch (OutCalibration (vc_calib_time msg)) ;;
    modify (set_switch_time now) ;;
    requestOK msg (String.append "calibrating vehicle for "
                     (String.append (str_u (vc_calib_time msg)) " seconds")).

Definition stopCalibration (now : Q) (msg : VehicleCommand) : Sup unit :=
  t <- get ;;
  if negb (calibrationMode t) then
    requestOK msg "cannot stop calibration: vehicle is not calibrating"
  else
    requestOK msg "stopped calibration" ;;
    changeMode now VS_SERVICE None.

Definition startManeuver (now : Q) (cmd : VehicleCommand) : Sup unit :=
  match vc_maneuver cmd with
  | None => requestFailed cmd "no maneuver specified"
  | Some m =>
      let mtype := msg_name m in
      t <- get ;;
      if externalMode t then
        requestFailed cmd
          (String.append mtype " maneuver cannot be started in current mode")
      else
        dispatch OutStopManeuver ;;
        changeMode now VS_MANEUVER (Some m) ;;
        requestOK cmd (String.append mtype " maneuver started")
  end.

Definition stopManeuver (now : Q) (cmd : VehicleCommand) : Sup unit :=
  t <- get ;;
  when (negb (errorMode t))
    (reset ;;
     t1 <- get ;;
     when (negb (externalMode t1) || negb (nonOverridableLoops t1))
       (changeMode now VS_SERVICE None)) ;;
  requestOK cmd "OK".

(** The result of evaluating [c_cmd_desc[cmd->command]]: [Some] of the
    entry, or [None] when the index is not one of the array. *)
Definition cmd_desc (command : Z) : option string :=
  if command <? 0 then None else nth_error c_cmd_desc (Z.to_nat command).

(** [consume] of a [VehicleCommand].  The value returned is what the
    handler read from [c_cmd_desc] for its [trace] call: [None] when it
    returned before the read, [Some r] with [r] the result of the read. *)
Definition consume_VehicleCommand (now : Q) (cmd : VehicleCommand)
  : Sup (option (option string)) :=
  if negb (vc_type cmd =? VC_REQUEST) then ret None
  else
    let desc := cmd_desc (vc_command cmd) in
    (if vc_command cmd =? VC_EXEC_MANEUVER then startManeuver now cmd
     else if vc_command cmd =? VC_STOP_MANEUVER then stopManeuver now cmd
     else if vc_command cmd =? VC_START_CALIBRATION then startCalibration now cmd
     else if vc_command cmd =? VC_STOP_CALIBRATION then stopCalibration now cmd
     else ret tt) ;;
    ret (Some desc).

(** The periodic [task]. *)
Definition task (now : Q) : Sup unit :=
  t <- get ;;
  dispatch (OutVehicleState (m_vs t)) ;;
  if Qlt_bool (m_switch_time t) 0 then ret tt
  else
    let delta := (now - m_switch_time t)%Q in
    if calibrationMode t
       && Qlt_bool (inject_Z (m_calibration_duration t)) delta then
      changeMode now VS_SERVICE None ;;
      modify (set_switch_time (-1)%Q)
    else if maneuverMode t && Qlt_bool c_man_timeout delta then
      reset ;;
      changeMode now VS_SERVICE None ;;
      modify (set_switch_time (-1)%Q)
    else ret tt.

(** *** The task as a transition system *)

(** What the task's thread can be given: a message it is bound to, or a
    tick of its period. *)
Inductive Event : Type :=
| EvAbort
| EvControlLoops (msg : ControlLoops)
| EvEntityMonitoringState (msg : EntityMonitoringState)
| EvManeuverControlState (msg : ManeuverControlState)
| EvPlanControl (msg : PlanControl)
| EvVehicleCommand (cmd : VehicleCommand)
| EvTask.

(** One handler invocation; [now] is the clock reading during it. *)
Definition handle (now : Q) (ev : Event) : Sup unit :=
  match ev with
  | EvAbort => consume_Abort now
  | EvControlLoops msg => consume_ControlLoops now msg
  | EvEntityMonitoringState msg => consume_EntityMonitoringState now msg
  | EvManeuverControlState msg => consume_ManeuverControlState now msg
  | EvPlanControl msg => consume_PlanControl msg
  | EvVehicleCommand cmd => consume_VehicleCommand now cmd ;; ret tt
  | EvTask => task now
  end.

Definition step (t : Task) (e : Q * Event) : Task :=
  state_of (handle (fst e) (snd e) t).

Definition emitted (t : Task) (e : Q * Event) : list Msg :=
  output_of (handle (fst e) (snd e) t).

(** The task after a sequence of invocations, and everything dispatched. *)
Definition run (t : Task) (es : list (Q * Event)) : Task :=
  fold_left step es t.

Fixpoint trace (t : Task) (es : list (Q * Event)) : list Msg :=
  match es with
  | [] => []
  | e :: es' => emitted t e ++ trace (step t e) es'
  end.

(** States the task can be in: those a sequence of invocations leads to
    from the initial one. *)
Definition reachable (t : Task) : Prop :=
  exists ents sys es, t = run (initial ents sys) es.

Definition mode (t : Task) : OperationMode := op_mode (m_vs t).

(** The replies among dispatched messages. *)
Definition replies (out : list Msg) : list VehicleCommand :=
  flat_map (fun m => match m with OutVehicleCommand r => [r] | _ => [] end) out.

End Supervisor.

(** * The path controller and its bottom tracker: shared types *)
Module Control.
Import IMC.

(** [TrackingState::Coord]. *)
Record Coord : Type := mkCoord {
  cx : Q;
  cy : Q;
  cz : Q
}.

(** [TrackingState::LoiterData]. *)
Record LoiterData : Type := mkLoiterData {
  lo_center : Coord;
  lo_radius : Q;
  lo_clockwise : bool
}.

(** [TrackingState], the type of [m_ts]. *)
Record TrackingState : Type := mkTrackingState {
  ts_start : Coord;
  ts_end : Coord;
  ts_track_bearing : Q;
  ts_track_length : Q;
  ts_track_pos : Coord;
  ts_track_vel : Coord;
  ts_los_angle : Q;
  ts_range : Q;
  ts_course : Q;
  ts_speed : Q;
  ts_course_error : Q;
  ts_eta : Q;
  ts_start_time : Q;
  ts_end_time : Q;
  ts_now : Q;
  ts_delta : Q;
  ts_cc : bool;
  ts_loitering : bool;
  ts_nearby : bool;
  ts_z_control : bool;
  ts_loiter : LoiterData
}.

(** The entity a dispatched message is stamped with: the task's own, or
    the one reserved for the bottom tracker ([m_args->eid]). *)
Inductive Source : Type := SrcTask | SrcBottomTrack.

(** What the path controller task hands to [dispatch], by itself or for
    its bottom tracker, and the calls it makes to the hooks a concrete
    controller implements ([step], [onPathStartup], [onPathActivation],
    [onPathDeactivation]). *)
Inductive Out : Type :=
| OutBrake (src : Source) (op : BrakeOp)
| OutDesiredZ (src : Source) (z : DesiredZ)
| OutDesiredSpeed (s : DesiredSpeed)
| OutControlLoops (enable : Z) (mask : Z)
| OutPathControlState (pcs : PathControlState)
| OutControlParcel
| CallStep (es : EstimatedState) (ts : TrackingState)
| CallOnPathStartup (es : EstimatedState) (ts : TrackingState)
| CallOnPathActivation
| CallOnPathDeactivation.

(** *** Field updates of [TrackingState] *)

Definition set_ts_start (x : Coord) (r : TrackingState) : TrackingState :=
  mkTrackingState x (ts_end r) (ts_track_bearing r) (ts_track_length r)
    (ts_track_pos r) (ts_track_vel r) (ts_los_angle r) (ts_range r)
    (ts_course r) (ts_speed r) (ts_course_error r) (ts_eta r)
    (ts_start_time r) (ts_end_time r) (ts_now r) (ts_delta r) (ts_cc r)
    (ts_loitering r) (ts_nearby r) (ts_z_control r) (ts_loiter r).

Definition set_ts_end (x : Coord) (r : TrackingState) : TrackingState :=
  mkTrackingState (ts_start r) x (ts_track_bearing r) (ts_track_length r)
    (ts_track_pos r) (ts_track_vel r) (ts_los_angle r) (ts_range r)
    (ts_course r) (ts_speed r) (ts_course_error r) (ts_eta r)
    (ts_start_time r) (ts_end_time r) (ts_now r) (ts_delta r) (ts_cc r)
    (ts_loitering r) (ts_nearby r) (ts_z_control r) (ts_loiter r).

Definition set_ts_track_bearing (x : Q) (r : TrackingState) : TrackingState :=
  mkTrackingState (ts_start r) (ts_end r) x (ts_track_length r)
    (ts_track_pos r) (ts_track_vel r) (ts_los_angle r) (ts_range r)
    (ts_course r) (ts_speed r) (ts_course_error r) (ts_eta r)
    (ts_start_time r) (ts_end_time r) (ts_now r) (ts_delta r) (ts_cc r)
    (ts_loitering r) (ts_nearby r) (ts_z_control r) (ts_loiter r).

Definition set_ts_track_length (x : Q) (r : TrackingState) : TrackingState :=
  mkTrackingState (ts_start r) (ts_end r) (ts_track_bearing r) x
    (ts_track_pos r) (ts_track_vel r) (ts_los_angle r) (ts_range r)
    (ts_course r) (ts_speed r) (ts_course_error r) (ts_eta r)
    (ts_start_time r) (ts_end_time r) (ts_now r) (ts_delta r) (ts_cc r)
    (ts_loitering r) (ts_nearby r) (ts_z_control r) (ts_loiter r).

Definition set_ts_track_pos (x : Coord) (r : TrackingState) : TrackingState :=
  mkTrackingState (ts_start r) (ts_end r) (ts_track_bearing r)
    (ts_track_length r) x (ts_track_vel r) (ts_los_angle r) (ts_range r)
    (ts_course r) (ts_speed r) (ts_course_error r) (ts_eta r)
    (ts_start_time r) (ts_end_time r) (ts_now r) (ts_delta r) (ts_cc r)
    (ts_loitering r) (ts_nearby r) (ts_z_control r) (ts_loiter r).

Definition set_ts_track_vel (x : Coord) (r : TrackingState) : TrackingState :=
  mkTrackingState (ts_start r) (ts_end r) (ts_track_bearing r)
    (ts_track_length r) (ts_track_pos r) x (ts_los_angle r) (ts_range r)
    (ts_course r) (ts_speed r) (ts_course_error r) (ts_eta r)
    (ts_start_time r) (ts_end_time r) (ts_now r) (ts_delta r) (ts_cc r)
    (ts_loitering r) (ts_nearby r) (ts_z_control r) (ts_loiter r).

Definition set_ts_los_angle (x : Q) (r : TrackingState) : TrackingState :=
  mkTrackingState (ts_start r) (ts_end r) (ts_track_bearing r)
    (ts_track_length r) (ts_track_pos r) (ts_track_vel r) x (ts_range r)
    (ts_course r) (ts_speed r) (ts_course_error r) (ts_eta r)
    (ts_start_time r) (ts_end_time r) (ts_now r) (ts_delta r) (ts_cc r)
    (ts_loitering r) (ts_nearby r) (ts_z_control r) (ts_loiter r).

Definition set_ts_range (x : Q) (r : TrackingState) : TrackingState :=
  mkTrackingState (ts_start r) (ts_end r) (ts_track_bearing r)
    (ts_track_length r) (ts_track_pos r) (ts_track_vel r) (ts_los_angle r)
    x (ts_course r) (ts_speed r) (ts_course_error r) (ts_eta r)
    (ts_start_time r) (ts_end_time r) (ts_now r) (ts_delta r) (ts_cc r)
    (ts_loitering r) (ts_nearby r) (ts_z_control r) (ts_loiter r).

Definition set_ts_course (x : Q) (r : TrackingState) : TrackingState :=
  mkTrackingState (ts_start r) (ts_end r) (ts_track_bearing r)
    (ts_track_length r) (ts_track_pos r) (ts_track_vel r) (ts_los_angle r)
    (ts_range r) x (ts_speed r) (ts_course_error r) (ts_eta r)
    (ts_start_time r) (ts_end_time r) (ts_now r) (ts_delta r) (ts_cc r)
    (ts_loitering r) (ts_nearby r) (ts_z_control r) (ts_loiter r).

Definition set_ts_speed (x : Q) (r : TrackingState) : TrackingState :=
  mkTrackingState (ts_start r) (ts_end r) (ts_track_bearing r)
    (ts_track_length r) (ts_track_pos r) (ts_track_vel r) (ts_los_angle r)
    (ts_range r) (ts_course r) x (ts_course_error r) (ts_eta r)
    (ts_start_time r) (ts_end_time r) (ts_now r) (ts_delta r) (ts_cc r)
    (ts_loitering r) (ts_nearby r) (ts_z_control r) (ts_loiter r).

Definition set_ts_course_error (x : Q) (r : TrackingState) : TrackingState :=
  mkTrackingState (ts_start r) (ts_end r) (ts_track_bearing r)
    (ts_track_length r) (ts_track_pos r) (ts_track_vel r) (ts_los_angle r)
    (ts_range r) (ts_course r) (ts_speed r) x (ts_eta r) (ts_start_time r)
    (ts_end_time r) (ts_now r) (ts_delta r) (ts_cc r) (ts_loitering r)
    (ts_nearby r) (ts_z_control r) (ts_loiter r).

Definition set_ts_eta (x : Q) (r : TrackingState) : TrackingState :=
  mkTrackingState (ts_start r) (ts_end r) (ts_track_bearing r)
    (ts_track_length r) (ts_track_pos r) (ts_track_vel r) (ts_los_angle r)
    (ts_range r) (ts_course r) (ts_speed r) (ts_course_error r) x
    (ts_start_time r) (ts_end_time r) (ts_now r) (ts_delta r) (ts_cc r)
    (ts_loitering r) (ts_nearby r) (ts_z_control r) (ts_loiter r).

Definition set_ts_start_time (x : Q) (r : TrackingState) : TrackingState :=
  mkTrackingState (ts_start r) (ts_end r) (ts_track_bearing r)
    (ts_track_length r) (ts_track_pos r) (ts_track_vel r) (ts_los_angle r)
    (ts_range r) (ts_course r) (ts_speed r) (ts_course_error r) (ts_eta r)
    x (ts_end_time r) (ts_now r) (ts_delta r) (ts_cc r) (ts_loitering r)
    (ts_nearby r) (ts_z_control r) (ts_loiter r).

Definition set_ts_end_time (x : Q) (r : TrackingState) : TrackingState :=
  mkTrackingState (ts_start r) (ts_end r) (ts_track_bearing r)
    (ts_track_length r) (ts_track_pos r) (ts_track_vel r) (ts_los_angle r)
    (ts_range r) (ts_course r) (ts_speed r) (ts_course_error r) (ts_eta r)
    (ts_start_time r) x (ts_now r) (ts_delta r) (ts_cc r) (ts_loitering r)
    (ts_nearby r) (ts_z_control r) (ts_loiter r).

Definition set_ts_now (x : Q) (r : TrackingState) : TrackingState :=
  mkTrackingState (ts_start r) (ts_end r) (ts_track_bearing r)
    (ts_track_length r) (ts_track_pos r) (ts_track_vel r) (ts_los_angle r)
    (ts_range r) (ts_course r) (ts_speed r) (ts_course_error r) (ts_eta r)
    (ts_start_time r) (ts_end_time r) x (ts_delta r) (ts_cc r)
    (ts_loitering r) (ts_nearby r) (ts_z_control r) (ts_loiter r).

Definition set_ts_delta (x : Q) (r : TrackingState) : TrackingState :=
  mkTrackingState (ts_start r) (ts_end r) (ts_track_bearing r)
    (ts_track_length r) (ts_track_pos r) (ts_track_vel r) (ts_los_angle r)
    (ts_range r) (ts_course r) (ts_speed r) (ts_course_error r) (ts_eta r)
    (ts_start_time r) (ts_end_time r) (ts_now r) x (ts_cc r) (ts_loitering
    r) (ts_nearby r) (ts_z_control r) (ts_loiter r).

Definition set_ts_cc (x : bool) (r : TrackingState) : TrackingState :=
  mkTrackingState (ts_start r) (ts_end r) (ts_track_bearing r)
    (ts_track_length r) (ts_track_pos r) (ts_track_vel r) (ts_los_angle r)
    (ts_range r) (ts_course r) (ts_speed r) (ts_course_error r) (ts_eta r)
    (ts_start_time r) (ts_end_time r) (ts_now r) (ts_delta r) x
    (ts_loitering r) (ts_nearby r) (ts_z_control r) (ts_loiter r).

Definition set_ts_loitering (x : bool) (r : TrackingState) : TrackingState :=
  mkTrackingState (ts_start r) (ts_end r) (ts_track_bearing r)
    (ts_track_length r) (ts_track_pos r) (ts_track_vel r) (ts_los_angle r)
    (ts_range r) (ts_course r) (ts_speed r) (ts_course_error r) (ts_eta r)
    (ts_start_time r) (ts_end_time r) (ts_now r) (ts_delta r) (ts_cc r) x
    (ts_nearby r) (ts_z_control r) (ts_loiter r).

Definition set_ts_nearby (x : bool) (r : TrackingState) : TrackingState :=
  mkTrackingState (ts_start r) (ts_end r) (ts_track_bearing r)
    (ts_track_length r) (ts_track_pos r) (ts_track_vel r) (ts_los_angle r)
    (ts_range r) (ts_course r) (ts_speed r) (ts_course_error r) (ts_eta r)
    (ts_start_time r) (ts_end_time r) (ts_now r) (ts_delta r) (ts_cc r)
    (ts_loitering r) x (ts_z_control r) (ts_loiter r).

Definition set_ts_z_control (x : bool) (r : TrackingState) : TrackingState :=
  mkTrackingState (ts_start r) (ts_end r) (ts_track_bearing r)
    (ts_track_length r) (ts_track_pos r) (ts_track_vel r) (ts_los_angle r)
    (ts_range r) (ts_course r) (ts_speed r) (ts_course_error r) (ts_eta r)
    (ts_start_time r) (ts_end_time r) (ts_now r) (ts_delta r) (ts_cc r)
    (ts_loitering r) (ts_nearby r) x (ts_loiter r).

Definition set_ts_loiter (x : LoiterData) (r : TrackingState) : TrackingState :=
  mkTrackingState (ts_start r) (ts_end r) (ts_track_bearing r)
    (ts_track_length r) (ts_track_pos r) (ts_track_vel r) (ts_los_angle r)
    (ts_range r) (ts_course r) (ts_speed r) (ts_course_error r) (ts_eta r)
    (ts_start_time r) (ts_end_time r) (ts_now r) (ts_delta r) (ts_cc r)
    (ts_loitering r) (ts_nearby r) (ts_z_control r) x.

(** *** Library functions

    The numeric library the controller calls ([DUNE::Math],
    [DUNE::Coordinates], [<cmath>]) and the track projection of the
    controller's header are not among the sources: the handlers take
    them as an interface. *)
Class MathLib : Type := {
  Math_norm : Q -> Q -> Q;
  Math_round : Q -> Z;
  Math_c_pi : Q;
  Math_c_half_pi : Q;
  std_atan2 : Q -> Q -> Q;
  std_cos : Q -> Q;
  std_sin : Q -> Q;
  std_sqrt : Q -> Q;
  Angles_normalizeRadian : Q -> Q;
  WGS84_displacement : Q -> Q -> Q -> Q -> Q * Q;
  Coordinates_toWGS84 : EstimatedState -> Q * Q -> Q * Q;
  Coordinates_getBearingAndRange : Coord -> Coord -> Q * Q;
  getBearingAndRange : EstimatedState -> Coord -> Q * Q;
  getBearing : EstimatedState -> Coord -> Q;
  setBearingAndRange : Coord -> Q -> Q -> Coord -> Coord;
  getTrackPosition : EstimatedState -> TrackingState -> Q * Q
}.

(** Conversion of an integral value to [uint16_t]: defined only when the
    value is one of the type. *)
Definition to_uint16 (z : Z) : option Z :=
  if (0 <=? z) && (z <=? uint16_max) then Some z else None.

End Control.

(** * The bottom tracker ([DUNE::Control::BottomTracker]) *)
Module BottomTracker.
Import IMC Control.

#[local] Open Scope handler_scope.

(** [c_depth_hyst]. *)
Definition c_depth_hyst : Q := (1 # 2)%Q.

Inductive MachineState : Type :=
| SM_IDLE | SM_TRACKING | SM_DEPTH | SM_UNSAFE | SM_AVOIDING.

Definition MachineState_eqb (a b : MachineState) : bool :=
  match a, b with
  | SM_IDLE, SM_IDLE | SM_TRACKING, SM_TRACKING | SM_DEPTH, SM_DEPTH
  | SM_UNSAFE, SM_UNSAFE | SM_AVOIDING, SM_AVOIDING => true
  | _, _ => false
  end.

Inductive ForcedControl : Type := FC_NONE | FC_DEPTH.

(** The members of [BottomTracker::Arguments] the tracker itself reads. *)
Record Arguments : Type := mkArguments {
  min_alt : Q;
  alt_tol : Q;
  depth_tol : Q;
  depth_limit : Q;
  check_trend : bool;
  control_period : Q
}.

(** The class [SlopeData] ([m_sdata]) is not among the sources: the
    tracker takes its member functions as an interface.  [sd_onDistance]
    returns the text of the [std::runtime_error] it raised, if any. *)
Class SlopeDataOps (SD : Type) : Type := {
  sd_reset : SD -> SD;
  sd_onDistance : Distance -> EstimatedState -> SD -> SD * option string;
  sd_renderSlopeInvalid : SD -> SD;
  sd_updateSlopeTop : EstimatedState -> SD -> SD;
  sd_isSurface : SD -> EstimatedState -> bool;
  sd_isRangeLow : SD -> bool;
  sd_isTooSteep : SD -> bool;
  sd_isTopCleared : SD -> bool;
  sd_isSlopeIncreasing : SD -> bool;
  sd_getFRange : SD -> Q
}.

Section Tracker.
Context {SD : Type} {sdo : SlopeDataOps SD} {math : MathLib}.

Record Tracker : Type := mkTracker {
  m_active : bool;
  m_mstate : MachineState;
  m_got_data : bool;
  m_z_ref : DesiredZ;
  m_forced : ForcedControl;
  m_dspeed : Q;
  m_last_run : Q;
  m_valid_alt : bool;
  m_estate : EstimatedState;
  m_sdata : SD;
  m_args : Arguments
}.

Definition Trk (A : Type) : Type := M Tracker Out A.

Definition set_active (x : bool) (r : Tracker) : Tracker :=
  mkTracker x (m_mstate r) (m_got_data r) (m_z_ref r) (m_forced r)
    (m_dspeed r) (m_last_run r) (m_valid_alt r) (m_estate r) (m_sdata r)
    (m_args r).

Definition set_mstate (x : MachineState) (r : Tracker) : Tracker :=
  mkTracker (m_active r) x (m_got_data r) (m_z_ref r) (m_forced r)
    (m_dspeed r) (m_last_run r) (m_valid_alt r) (m_estate r) (m_sdata r)
    (m_args r).

Definition set_got_data (x : bool) (r : Tracker) : Tracker :=
  mkTracker (m_active r) (m_mstate r) x (m_z_ref r) (m_forced r) (m_dspeed
    r) (m_last_run r) (m_valid_alt r) (m_estate r) (m_sdata r) (m_args r).

Definition set_z_ref (x : DesiredZ) (r : Tracker) : Tracker :=
  mkTracker (m_active r) (m_mstate r) (m_got_data r) x (m_forced r)
    (m_dspeed r) (m_last_run r) (m_valid_alt r) (m_estate r) (m_sdata r)
    (m_args r).

Definition set_forced (x : ForcedControl) (r : Tracker) : Tracker :=
  mkTracker (m_active r) (m_mstate r) (m_got_data r) (m_z_ref r) x
    (m_dspeed r) (m_last_run r) (m_valid_alt r) (m_estate r) (m_sdata r)
    (m_args r).

Definition set_dspeed (x : Q) (r : Tracker) : Tracker :=
  mkTracker (m_active r) (m_mstate r) (m_got_data r) (m_z_ref r) (m_forced
    r) x (m_last_run r) (m_valid_alt r) (m_estate r) (m_sdata r) (m_args
    r).

Definition set_last_run (x : Q) (r : Tracker) : Tracker :=
  mkTracker (m_active r) (m_mstate r) (m_got_data r) (m_z_ref r) (m_forced
    r) (m_dspeed r) x (m_valid_alt r) (m_estate r) (m_sdata r) (m_args r).

Definition set_valid_alt (x : bool) (r : Tracker) : Tracker :=
  mkTracker (m_active r) (m_mstate r) (m_got_data r) (m_z_ref r) (m_forced
    r) (m_dspeed r) (m_last_run r) x (m_estate r) (m_sdata r) (m_args r).

Definition set_estate (x : EstimatedState) (r : Tracker) : Tracker :=
  mkTracker (m_active r) (m_mstate r) (m_got_data r) (m_z_ref r) (m_forced
    r) (m_dspeed r) (m_last_run r) (m_valid_alt r) x (m_sdata r) (m_args
    r).

Definition set_sdata (x : SD) (r : Tracker) : Tracker :=
  mkTracker (m_active r) (m_mstate r) (m_got_data r) (m_z_ref r) (m_forced
    r) (m_dspeed r) (m_last_run r) (m_valid_alt r) (m_estate r) x (m_args
    r).

Definition set_args (x : Arguments) (r : Tracker) : Tracker :=
  mkTracker (m_active r) (m_mstate r) (m_got_data r) (m_z_ref r) (m_forced
    r) (m_dspeed r) (m_last_run r) (m_valid_alt r) (m_estate r) (m_sdata r)
    x.

Definition upd_sdata (f : SD -> SD) (r : Tracker) : Tracker :=
  set_sdata (f (m_sdata r)) r.

(** [reset]; [now] is the clock reading stored in [m_last_run]. *)
Definition reset (now : Q) : Trk unit :=
  modify (upd_sdata sd_reset) ;;
  modify (set_mstate SM_IDLE) ;;
  modify (set_got_data false) ;;
  modify (set_z_ref (mkDesiredZ 0 Z_NONE)) ;;
  modify (set_forced FC_NONE) ;;
  modify (set_dspeed 0%Q) ;;
  modify (set_last_run now).

(** The tracker after construction. *)
Definition constructed (args : Arguments) (sd : SD) (es : EstimatedState)
  (now : Q) : Tracker :=
  state_of (reset now
    (mkTracker false SM_IDLE false (mkDesiredZ 0 Z_NONE) FC_NONE 0%Q now
               false es sd args)).

Definition activate (now : Q) : Trk unit :=
  modify (set_active true) ;;
  reset now.

Definition deactivate : Trk unit :=
  modify (set_active false).

(** [onDistance]: the result is the exception that escaped, if any. *)
Definition onDistance (msg : Distance) : Trk (option string) :=
  t <- get ;;
  let r := sd_onDistance msg (m_estate t) (m_sdata t) in
  modify (set_sdata (fst r)) ;;
  ret (snd r).

Definition onDesiredZ (msg : DesiredZ) (outgoing : bool) : Trk unit :=
  t <- get ;;
  if m_active t then
    modify (set_z_ref msg) ;;
    when (outgoing
          && negb (MachineState_eqb (m_mstate t) SM_UNSAFE)
          && negb (MachineState_eqb (m_mstate t) SM_AVOIDING)
          && match m_forced t with FC_NONE => true | FC_DEPTH => false end)
      (dispatch (OutDesiredZ SrcTask msg))
  else
    when outgoing (dispatch (OutDesiredZ SrcTask msg)).

Definition onDesiredSpeed (msg : DesiredSpeed) : Trk unit :=
  t <- get ;;
  when (m_active t) (modify (set_dspeed (ds_value msg))).

(** [brake]: the message carries the tracker's entity and is looped back
    to the owning task. *)
Definition brake (start : bool) : Trk unit :=
  dispatch (OutBrake SrcBottomTrack (if start then OP_START else OP_STOP)).

Definition dispatchSafeDepth : Trk unit :=
  t <- get ;;
  let depth_at_slope :=
    (es_depth (m_estate t)
     - sd_getFRange (m_sdata t) * std_sin (es_theta (m_estate t)))%Q in
  let value :=
    match dz_units (m_z_ref t) with
    | Z_ALTITUDE => Qmax 0 (depth_at_slope - dz_value (m_z_ref t))
    | _ => Qmax 0 (depth_at_slope - alt_tol (m_args t))
    end in
  dispatch (OutDesiredZ SrcBottomTrack (mkDesiredZ value Z_DEPTH)).

Definition dispatchLimitDepth : Trk unit :=
  t <- get ;;
  dispatch (OutDesiredZ SrcBottomTrack
              (mkDesiredZ (depth_limit (m_args t)) Z_DEPTH)).

Definition dispatchSameZ : Trk unit :=
  t <- get ;;
  dispatch (OutDesiredZ SrcBottomTrack (m_z_ref t)).

(** [isAltitudeValid]: latches [m_valid_alt] with a depth hysteresis. *)
Definition isAltitudeValid : Trk bool :=
  t <- get ;;
  when (Qlt_bool (es_alt (m_estate t)) 0) (modify (set_valid_alt false)) ;;
  (if Qlt_bool (depth_tol (m_args t)) (es_depth (m_estate t)) then
     modify (set_valid_alt true)
   else
     when (Qlt_bool (es_depth (m_estate t))
                    (depth_tol (m_args t) - c_depth_hyst))
       (modify (set_valid_alt false))) ;;
  t1 <- get ;;
  ret (m_valid_alt t1).

Definition onIdle : Trk unit :=
  t <- get ;;
  when (ZUnits_eqb (dz_units (m_z_ref t)) Z_ALTITUDE)
    (modify (set_mstate SM_TRACKING) ;;
     modify (set_valid_alt
               (Qlt_bool (depth_tol (m_args t)) (es_depth (m_estate t))))).

Definition onTracking : Trk unit :=
  modify (upd_sdata sd_renderSlopeInvalid) ;;
  t <- get ;;
  if ZUnits_eqb (dz_units (m_z_ref t)) Z_DEPTH then
    modify (set_mstate SM_IDLE)
  else
    valid <- isAltitudeValid ;;
    if negb valid then ret tt
    else if Qlt_bool (es_alt (m_estate t)) (min_alt (m_args t)) then
      brake true ;;
      modify (set_mstate SM_AVOIDING)
    else if sd_isSurface (m_sdata t) (m_estate t) then ret tt
    else if sd_isRangeLow (m_sdata t) then
      brake true ;;
      modify (set_mstate SM_AVOIDING)
    else if sd_isTooSteep (m_sdata t) then
      modify (upd_sdata (sd_updateSlopeTop (m_estate t))) ;;
      dispatchSafeDepth ;;
      modify (set_mstate SM_UNSAFE)
    else if Qlt_bool (depth_limit (m_args t) + c_depth_hyst)
              (es_depth (m_estate t) + es_alt (m_estate t)
               - dz_value (m_z_ref t)) then
      modify (set_forced FC_DEPTH) ;;
      dispatchLimitDepth ;;
      modify (set_mstate SM_DEPTH)
    else ret tt.

Definition onDepth : Trk unit :=
  t <- get ;;
  if ZUnits_eqb (dz_units (m_z_ref t)) Z_ALTITUDE
     && match m_forced t with FC_DEPTH => false | FC_NONE => true end then
    modify (set_forced FC_NONE) ;;
    dispatchSameZ ;;
    modify (set_mstate SM_TRACKING)
  else if ZUnits_eqb (dz_units (m_z_ref t)) Z_DEPTH
          && Qlt_bool (dz_value (m_z_ref t)) (depth_limit (m_args t)) then
    modify (set_forced FC_NONE) ;;
    modify (set_mstate SM_IDLE) ;;
    dispatchSameZ
  else if sd_isRangeLow (m_sdata t) then
    modify (set_forced FC_NONE) ;;
    brake true ;;
    modify (set_mstate SM_AVOIDING)
  else if match m_forced t with FC_DEPTH => true | FC_NONE => false end
          && Qlt_bool (es_depth (m_estate t) + es_alt (m_estate t)
                       - dz_value (m_z_ref t))
                      (depth_limit (m_args t)) then
    modify (set_forced FC_NONE) ;;
    dispatchSameZ ;;
    modify (set_mstate SM_TRACKING)
  else ret tt.

Definition onUnsafe : Trk unit :=
  t0 <- get ;;
  modify (upd_sdata (sd_updateSlopeTop (m_estate t0))) ;;
  t <- get ;;
  let away_top := sd_isTopCleared (m_sdata t) in
  valid <- isAltitudeValid ;;
  if negb valid then
    when away_top
      (dispatchSameZ ;;
       modify (set_mstate SM_TRACKING) ;;
       modify (upd_sdata sd_renderSlopeInvalid))
  else if Qlt_bool (es_alt (m_estate t)) (min_alt (m_args t))
          || sd_isRangeLow (m_sdata t) then
    brake true ;;
    modify (set_mstate SM_AVOIDING)
  else if sd_isSurface (m_sdata t) (m_estate t) then
    dispatchSameZ ;;
    modify (set_mstate SM_TRACKING)
  else if negb (sd_isTooSteep (m_sdata t)) then
    when away_top
      (dispatchSameZ ;;
       modify (set_mstate SM_TRACKING) ;;
       modify (upd_sdata sd_renderSlopeInvalid))
  else if sd_isSlopeIncreasing (m_sdata t) then
    when (check_trend (m_args t)
          || (negb (check_trend (m_args t))
              && Qlt_bool (es_theta (m_estate t)) 0))
      dispatchSafeDepth
  else ret tt.

(** [onAvoiding]; [err] raises a [std::runtime_error], whose text is the
    result. *)
Definition onAvoiding : Trk (option string) :=
  t <- get ;;
  if sd_isSurface (m_sdata t) (m_estate t) then
    ret (Some "[BottomTrack.Avoiding] >> unable to avoid obstacle")
  else
    valid <- isAltitudeValid ;;
    if negb valid then
      ret (Some "[BottomTrack.Avoiding] >> unable to avoid obstacle")
    else if negb (sd_isTooSteep (m_sdata t))
            && ZUnits_eqb (dz_units (m_z_ref t)) Z_ALTITUDE
            && Qle_bool (dz_value (m_z_ref t)) (es_alt (m_estate t)) then
      brake false ;;
      dispatchSameZ ;;
      modify (set_mstate SM_TRACKING) ;;
      ret None
    else ret None.

Definition updateStateMachine : Trk (option string) :=
  t <- get ;;
  if negb (m_active t) then ret None
  else if negb (m_got_data t)
          && (ZUnits_eqb (dz_units (m_z_ref t)) Z_NONE
              || Qle_bool (m_dspeed t) 0) then ret None
  else
    modify (set_got_data true) ;;
    match m_mstate t with
    | SM_IDLE => onIdle ;; ret None
    | SM_TRACKING => onTracking ;; ret None
    | SM_DEPTH => onDepth ;; ret None
    | SM_UNSAFE => onUnsafe ;; ret None
    | SM_AVOIDING => onAvoiding
    end.

(** [onEstimatedState]; an exception of the state machine leaves the
    function before [m_last_run] is written. *)
Definition onEstimatedState (now : Q) (msg : EstimatedState)
  : Trk (option string) :=
  t <- get ;;
  if negb (m_active t) then ret None
  else
    modify (set_estate msg) ;;
    if Qlt_bool (control_period (m_args t)) (now - m_last_run t) then
      e <- updateStateMachine ;;
      match e with
      | Some what => ret (Some what)
      | None =>
          modify (set_last_run now) ;;
          dispatch OutControlParcel ;;
          ret None
      end
    else ret None.

End Tracker.

Arguments Tracker SD : clear implicits.

End BottomTracker.

(** * The path controller ([DUNE::Control::PathController]) *)
Module PathController.
Import IMC Control.

#[local] Open Scope handler_scope.

(** [c_time_factor], [c_new_ref_timeout], [c_lsize_factor], [c_ldistance]. *)
Definition c_time_factor : Q := 5%Q.
Definition c_new_ref_timeout : Q := 5%Q.
Definition c_lsize_factor : Q := (3 # 4)%Q.
Definition c_ldistance : Q := 1%Q.

(** The member function a concrete controller may override to take the
    vertical reference in its own hands. *)
Class ControllerHooks : Type := {
  hasSpecificZControl : bool
}.

(** [m_atm] and [m_ctm], the along-track and cross-track monitors. *)
Record AlongTrackMonitor : Type := mkAlongTrackMonitor {
  atm_enabled : bool;
  atm_period : Q;
  atm_min_speed : Q;
  atm_min_yaw : Q;
  atm_diverging : bool;
  atm_time : Q;
  atm_last_err : Q;
  atm_last_course_err : Q
}.

Record CrossTrackMonitor : Type := mkCrossTrackMonitor {
  ctm_enabled : bool;
  ctm_distance_limit : Q;
  ctm_time_limit : Q;
  ctm_nav_unc_factor : Q;
  ctm_nav_uncertainty : Q;
  ctm_diverging : bool;
  ctm_divergence_started : Q
}.

(** *** Field updates of the messages and monitors *)

Definition set_pcs_start_lat (x : Q) (r : PathControlState) : PathControlState :=
  mkPathControlState x (pcs_start_lon r) (pcs_start_z r) (pcs_start_z_units
    r) (pcs_end_lat r) (pcs_end_lon r) (pcs_end_z r) (pcs_end_z_units r)
    (pcs_lradius r) (pcs_flags r) (pcs_x r) (pcs_y r) (pcs_z r) (pcs_vx r)
    (pcs_vy r) (pcs_vz r) (pcs_course_error r) (pcs_eta r).

Definition set_pcs_start_lon (x : Q) (r : PathControlState) : PathControlState :=
  mkPathControlState (pcs_start_lat r) x (pcs_start_z r) (pcs_start_z_units
    r) (pcs_end_lat r) (pcs_end_lon r) (pcs_end_z r) (pcs_end_z_units r)
    (pcs_lradius r) (pcs_flags r) (pcs_x r) (pcs_y r) (pcs_z r) (pcs_vx r)
    (pcs_vy r) (pcs_vz r) (pcs_course_error r) (pcs_eta r).

Definition set_pcs_start_z (x : Q) (r : PathControlState) : PathControlState :=
  mkPathControlState (pcs_start_lat r) (pcs_start_lon r) x
    (pcs_start_z_units r) (pcs_end_lat r) (pcs_end_lon r) (pcs_end_z r)
    (pcs_end_z_units r) (pcs_lradius r) (pcs_flags r) (pcs_x r) (pcs_y r)
    (pcs_z r) (pcs_vx r) (pcs_vy r) (pcs_vz r) (pcs_course_error r)
    (pcs_eta r).

Definition set_pcs_start_z_units (x : ZUnits) (r : PathControlState) : PathControlState :=
  mkPathControlState (pcs_start_lat r) (pcs_start_lon r) (pcs_start_z r) x
    (pcs_end_lat r) (pcs_end_lon r) (pcs_end_z r) (pcs_end_z_units r)
    (pcs_lradius r) (pcs_flags r) (pcs_x r) (pcs_y r) (pcs_z r) (pcs_vx r)
    (pcs_vy r) (pcs_vz r) (pcs_course_error r) (pcs_eta r).

Definition set_pcs_end_lat (x : Q) (r : PathControlState) : PathControlState :=
  mkPathControlState (pcs_start_lat r) (pcs_start_lon r) (pcs_start_z r)
    (pcs_start_z_units r) x (pcs_end_lon r) (pcs_end_z r) (pcs_end_z_units
    r) (pcs_lradius r) (pcs_flags r) (pcs_x r) (pcs_y r) (pcs_z r) (pcs_vx
    r) (pcs_vy r) (pcs_vz r) (pcs_course_error r) (pcs_eta r).

Definition set_pcs_end_lon (x : Q) (r : PathControlState) : PathControlState :=
  mkPathControlState (pcs_start_lat r) (pcs_start_lon r) (pcs_start_z r)
    (pcs_start_z_units r) (pcs_end_lat r) x (pcs_end_z r) (pcs_end_z_units
    r) (pcs_lradius r) (pcs_flags r) (pcs_x r) (pcs_y r) (pcs_z r) (pcs_vx
    r) (pcs_vy r) (pcs_vz r) (pcs_course_error r) (pcs_eta r).

Definition set_pcs_end_z (x : Q) (r : PathControlState) : PathControlState :=
  mkPathControlState (pcs_start_lat r) (pcs_start_lon r) (pcs_start_z r)
    (pcs_start_z_units r) (pcs_end_lat r) (pcs_end_lon r) x
    (pcs_end_z_units r) (pcs_lradius r) (pcs_flags r) (pcs_x r) (pcs_y r)
    (pcs_z r) (pcs_vx r) (pcs_vy r) (pcs_vz r) (pcs_course_error r)
    (pcs_eta r).

Definition set_pcs_end_z_units (x : ZUnits) (r : PathControlState) : PathControlState :=
  mkPathControlState (pcs_start_lat r) (pcs_start_lon r) (pcs_start_z r)
    (pcs_start_z_units r) (pcs_end_lat r) (pcs_end_lon r) (pcs_end_z r) x
    (pcs_lradius r) (pcs_flags r) (pcs_x r) (pcs_y r) (pcs_z r) (pcs_vx r)
    (pcs_vy r) (pcs_vz r) (pcs_course_error r) (pcs_eta r).

Definition set_pcs_lradius (x : Q) (r : PathControlState) : PathControlState :=
  mkPathControlState (pcs_start_lat r) (pcs_start_lon r) (pcs_start_z r)
    (pcs_start_z_units r) (pcs_end_lat r) (pcs_end_lon r) (pcs_end_z r)
    (pcs_end_z_units r) x (pcs_flags r) (pcs_x r) (pcs_y r) (pcs_z r)
    (pcs_vx r) (pcs_vy r) (pcs_vz r) (pcs_course_error r) (pcs_eta r).

Definition set_pcs_flags (x : Z) (r : PathControlState) : PathControlState :=
  mkPathControlState (pcs_start_lat r) (pcs_start_lon r) (pcs_start_z r)
    (pcs_start_z_units r) (pcs_end_lat r) (pcs_end_lon r) (pcs_end_z r)
    (pcs_end_z_units r) (pcs_lradius r) x (pcs_x r) (pcs_y r) (pcs_z r)
    (pcs_vx r) (pcs_vy r) (pcs_vz r) (pcs_course_error r) (pcs_eta r).

Definition set_pcs_x (x : Q) (r : PathControlState) : PathControlState :=
  mkPathControlState (pcs_start_lat r) (pcs_start_lon r) (pcs_start_z r)
    (pcs_start_z_units r) (pcs_end_lat r) (pcs_end_lon r) (pcs_end_z r)
    (pcs_end_z_units r) (pcs_lradius r) (pcs_flags r) x (pcs_y r) (pcs_z r)
    (pcs_vx r) (pcs_vy r) (pcs_vz r) (pcs_course_error r) (pcs_eta r).

Definition set_pcs_y (x : Q) (r : PathControlState) : PathControlState :=
  mkPathControlState (pcs_start_lat r) (pcs_start_lon r) (pcs_start_z r)
    (pcs_start_z_units r) (pcs_end_lat r) (pcs_end_lon r) (pcs_end_z r)
    (pcs_end_z_units r) (pcs_lradius r) (pcs_flags r) (pcs_x r) x (pcs_z r)
    (pcs_vx r) (pcs_vy r) (pcs_vz r) (pcs_course_error r) (pcs_eta r).

Definition set_pcs_z (x : Q) (r : PathControlState) : PathControlState :=
  mkPathControlState (pcs_start_lat r) (pcs_start_lon r) (pcs_start_z r)
    (pcs_start_z_units r) (pcs_end_lat r) (pcs_end_lon r) (pcs_end_z r)
    (pcs_end_z_units r) (pcs_lradius r) (pcs_flags r) (pcs_x r) (pcs_y r) x
    (pcs_vx r) (pcs_vy r) (pcs_vz r) (pcs_course_error r) (pcs_eta r).

Definition set_pcs_vx (x : Q) (r : PathControlState) : PathControlState :=
  mkPathControlState (pcs_start_lat r) (pcs_start_lon r) (pcs_start_z r)
    (pcs_start_z_units r) (pcs_end_lat r) (pcs_end_lon r) (pcs_end_z r)
    (pcs_end_z_units r) (pcs_lradius r) (pcs_flags r) (pcs_x r) (pcs_y r)
    (pcs_z r) x (pcs_vy r) (pcs_vz r) (pcs_course_error r) (pcs_eta r).

Definition set_pcs_vy (x : Q) (r : PathControlState) : PathControlState :=
  mkPathControlState (pcs_start_lat r) (pcs_start_lon r) (pcs_start_z r)
    (pcs_start_z_units r) (pcs_end_lat r) (pcs_end_lon r) (pcs_end_z r)
    (pcs_end_z_units r) (pcs_lradius r) (pcs_flags r) (pcs_x r) (pcs_y r)
    (pcs_z r) (pcs_vx r) x (pcs_vz r) (pcs_course_error r) (pcs_eta r).

Definition set_pcs_vz (x : Q) (r : PathControlState) : PathControlState :=
  mkPathControlState (pcs_start_lat r) (pcs_start_lon r) (pcs_start_z r)
    (pcs_start_z_units r) (pcs_end_lat r) (pcs_end_lon r) (pcs_end_z r)
    (pcs_end_z_units r) (pcs_lradius r) (pcs_flags r) (pcs_x r) (pcs_y r)
    (pcs_z r) (pcs_vx r) (pcs_vy r) x (pcs_course_error r) (pcs_eta r).

Definition set_pcs_course_error (x : Q) (r : PathControlState) : PathControlState :=
  mkPathControlState (pcs_start_lat r) (pcs_start_lon r) (pcs_start_z r)
    (pcs_start_z_units r) (pcs_end_lat r) (pcs_end_lon r) (pcs_end_z r)
    (pcs_end_z_units r) (pcs_lradius r) (pcs_flags r) (pcs_x r) (pcs_y r)
    (pcs_z r) (pcs_vx r) (pcs_vy r) (pcs_vz r) x (pcs_eta r).

Definition set_pcs_eta (x : option Z) (r : PathControlState) : PathControlState :=
  mkPathControlState (pcs_start_lat r) (pcs_start_lon r) (pcs_start_z r)
    (pcs_start_z_units r) (pcs_end_lat r) (pcs_end_lon r) (pcs_end_z r)
    (pcs_end_z_units r) (pcs_lradius r) (pcs_flags r) (pcs_x r) (pcs_y r)
    (pcs_z r) (pcs_vx r) (pcs_vy r) (pcs_vz r) (pcs_course_error r) x.

Definition set_atm_diverging (x : bool) (r : AlongTrackMonitor) : AlongTrackMonitor :=
  mkAlongTrackMonitor (atm_enabled r) (atm_period r) (atm_min_speed r)
    (atm_min_yaw r) x (atm_time r) (atm_last_err r) (atm_last_course_err
    r).

Definition set_atm_time (x : Q) (r : AlongTrackMonitor) : AlongTrackMonitor :=
  mkAlongTrackMonitor (atm_enabled r) (atm_period r) (atm_min_speed r)
    (atm_min_yaw r) (atm_diverging r) x (atm_last_err r)
    (atm_last_course_err r).

Definition set_atm_last_err (x : Q) (r : AlongTrackMonitor) : AlongTrackMonitor :=
  mkAlongTrackMonitor (atm_enabled r) (atm_period r) (atm_min_speed r)
    (atm_min_yaw r) (atm_diverging r) (atm_time r) x (atm_last_course_err
    r).

Definition set_atm_last_course_err (x : Q) (r : AlongTrackMonitor) : AlongTrackMonitor :=
  mkAlongTrackMonitor (atm_enabled r) (atm_period r) (atm_min_speed r)
    (atm_min_yaw r) (atm_diverging r) (atm_time r) (atm_last_err r) x.

Definition set_ctm_nav_uncertainty (x : Q) (r : CrossTrackMonitor) : CrossTrackMonitor :=
  mkCrossTrackMonitor (ctm_enabled r) (ctm_distance_limit r)
    (ctm_time_limit r) (ctm_nav_unc_factor r) x (ctm_diverging r)
    (ctm_divergence_started r).

Definition set_ctm_diverging (x : bool) (r : CrossTrackMonitor) : CrossTrackMonitor :=
  mkCrossTrackMonitor (ctm_enabled r) (ctm_distance_limit r)
    (ctm_time_limit r) (ctm_nav_unc_factor r) (ctm_nav_uncertainty r) x
    (ctm_divergence_started r).

Definition set_ctm_divergence_started (x : Q) (r : CrossTrackMonitor) : CrossTrackMonitor :=
  mkCrossTrackMonitor (ctm_enabled r) (ctm_distance_limit r)
    (ctm_time_limit r) (ctm_nav_unc_factor r) (ctm_nav_uncertainty r)
    (ctm_diverging r) x.

Section Controller.
Context {SD : Type} {sdo : BottomTracker.SlopeDataOps SD}.
Context {math : MathLib} {hooks : ControllerHooks}.

(** The members of [PathController] the handlers read or write;
    [m_active] is the activation flag of the task ([isActive]), and
    [m_entity_state] with [m_entity_desc] what [setEntityState] was last
    given. *)
Record Controller : Type := mkController {
  m_active : bool;
  m_running_monitors : bool;
  m_error : bool;
  m_setup : bool;
  m_braking : bool;
  m_aloops : Z;
  m_tracking : bool;
  m_estate : EstimatedState;
  m_ts : TrackingState;
  m_pcs : PathControlState;
  m_zref : DesiredZ;
  m_speed : DesiredSpeed;
  m_last_pcs_report : Q;
  m_atm : AlongTrackMonitor;
  m_ctm : CrossTrackMonitor;
  m_cperiod : Q;
  m_speriod : Q;
  m_btd_enabled : bool;
  m_btrack : BottomTracker.Tracker SD;
  m_entity_state : EntityStateEnum;
  m_entity_desc : string
}.

Definition Ctl (A : Type) : Type := M Controller Out A.

Definition set_active (x : bool) (r : Controller) : Controller :=
  mkController x (m_running_monitors r) (m_error r) (m_setup r) (m_braking
    r) (m_aloops r) (m_tracking r) (m_estate r) (m_ts r) (m_pcs r) (m_zref
    r) (m_speed r) (m_last_pcs_report r) (m_atm r) (m_ctm r) (m_cperiod r)
    (m_speriod r) (m_btd_enabled r) (m_btrack r) (m_entity_state r)
    (m_entity_desc r).

Definition set_running_monitors (x : bool) (r : Controller) : Controller :=
  mkController (m_active r) x (m_error r) (m_setup r) (m_braking r)
    (m_aloops r) (m_tracking r) (m_estate r) (m_ts r) (m_pcs r) (m_zref r)
    (m_speed r) (m_last_pcs_report r) (m_atm r) (m_ctm r) (m_cperiod r)
    (m_speriod r) (m_btd_enabled r) (m_btrack r) (m_entity_state r)
    (m_entity_desc r).

Definition set_error (x : bool) (r : Controller) : Controller :=
  mkController (m_active r) (m_running_monitors r) x (m_setup r) (m_braking
    r) (m_aloops r) (m_tracking r) (m_estate r) (m_ts r) (m_pcs r) (m_zref
    r) (m_speed r) (m_last_pcs_report r) (m_atm r) (m_ctm r) (m_cperiod r)
    (m_speriod r) (m_btd_enabled r) (m_btrack r) (m_entity_state r)
    (m_entity_desc r).

Definition set_setup (x : bool) (r : Controller) : Controller :=
  mkController (m_active r) (m_running_monitors r) (m_error r) x (m_braking
    r) (m_aloops r) (m_tracking r) (m_estate r) (m_ts r) (m_pcs r) (m_zref
    r) (m_speed r) (m_last_pcs_report r) (m_atm r) (m_ctm r) (m_cperiod r)
    (m_speriod r) (m_btd_enabled r) (m_btrack r) (m_entity_state r)
    (m_entity_desc r).

Definition set_braking (x : bool) (r : Controller) : Controller :=
  mkController (m_active r) (m_running_monitors r) (m_error r) (m_setup r)
    x (m_aloops r) (m_tracking r) (m_estate r) (m_ts r) (m_pcs r) (m_zref
    r) (m_speed r) (m_last_pcs_report r) (m_atm r) (m_ctm r) (m_cperiod r)
    (m_speriod r) (m_btd_enabled r) (m_btrack r) (m_entity_state r)
    (m_entity_desc r).

Definition set_aloops (x : Z) (r : Controller) : Controller :=
  mkController (m_active r) (m_running_monitors r) (m_error r) (m_setup r)
    (m_braking r) x (m_tracking r) (m_estate r) (m_ts r) (m_pcs r) (m_zref
    r) (m_speed r) (m_last_pcs_report r) (m_atm r) (m_ctm r) (m_cperiod r)
    (m_speriod r) (m_btd_enabled r) (m_btrack r) (m_entity_state r)
    (m_entity_desc r).

Definition set_tracking (x : bool) (r : Controller) : Controller :=
  mkController (m_active r) (m_running_monitors r) (m_error r) (m_setup r)
    (m_braking r) (m_aloops r) x (m_estate r) (m_ts r) (m_pcs r) (m_zref r)
    (m_speed r) (m_last_pcs_report r) (m_atm r) (m_ctm r) (m_cperiod r)
    (m_speriod r) (m_btd_enabled r) (m_btrack r) (m_entity_state r)
    (m_entity_desc r).

Definition set_estate (x : EstimatedState) (r : Controller) : Controller :=
  mkController (m_active r) (m_running_monitors r) (m_error r) (m_setup r)
    (m_braking r) (m_aloops r) (m_tracking r) x (m_ts r) (m_pcs r) (m_zref
    r) (m_speed r) (m_last_pcs_report r) (m_atm r) (m_ctm r) (m_cperiod r)
    (m_speriod r) (m_btd_enabled r) (m_btrack r) (m_entity_state r)
    (m_entity_desc r).

Definition set_ts (x : TrackingState) (r : Controller) : Controller :=
  mkController (m_active r) (m_running_monitors r) (m_error r) (m_setup r)
    (m_braking r) (m_aloops r) (m_tracking r) (m_estate r) x (m_pcs r)
    (m_zref r) (m_speed r) (m_last_pcs_report r) (m_atm r) (m_ctm r)
    (m_cperiod r) (m_speriod r) (m_btd_enabled r) (m_btrack r)
    (m_entity_state r) (m_entity_desc r).

Definition set_pcs (x : PathControlState) (r : Controller) : Controller :=
  mkController (m_active r) (m_running_monitors r) (m_error r) (m_setup r)
    (m_braking r) (m_aloops r) (m_tracking r) (m_estate r) (m_ts r) x
    (m_zref r) (m_speed r) (m_last_pcs_report r) (m_atm r) (m_ctm r)
    (m_cperiod r) (m_speriod r) (m_btd_enabled r) (m_btrack r)
    (m_entity_state r) (m_entity_desc r).

Definition set_zref (x : DesiredZ) (r : Controller) : Controller :=
  mkController (m_active r) (m_running_monitors r) (m_error r) (m_setup r)
    (m_braking r) (m_aloops r) (m_tracking r) (m_estate r) (m_ts r) (m_pcs
    r) x (m_speed r) (m_last_pcs_report r) (m_atm r) (m_ctm r) (m_cperiod
    r) (m_speriod r) (m_btd_enabled r) (m_btrack r) (m_entity_state r)
    (m_entity_desc r).

Definition set_speed (x : DesiredSpeed) (r : Controller) : Controller :=
  mkController (m_active r) (m_running_monitors r) (m_error r) (m_setup r)
    (m_braking r) (m_aloops r) (m_tracking r) (m_estate r) (m_ts r) (m_pcs
    r) (m_zref r) x (m_last_pcs_report r) (m_atm r) (m_ctm r) (m_cperiod r)
    (m_speriod r) (m_btd_enabled r) (m_btrack r) (m_entity_state r)
    (m_entity_desc r).

Definition set_last_pcs_report (x : Q) (r : Controller) : Controller :=
  mkController (m_active r) (m_running_monitors r) (m_error r) (m_setup r)
    (m_braking r) (m_aloops r) (m_tracking r) (m_estate r) (m_ts r) (m_pcs
    r) (m_zref r) (m_speed r) x (m_atm r) (m_ctm r) (m_cperiod r)
    (m_speriod r) (m_btd_enabled r) (m_btrack r) (m_entity_state r)
    (m_entity_desc r).

Definition set_atm (x : AlongTrackMonitor) (r : Controller) : Controller :=
  mkController (m_active r) (m_running_monitors r) (m_error r) (m_setup r)
    (m_braking r) (m_aloops r) (m_tracking r) (m_estate r) (m_ts r) (m_pcs
    r) (m_zref r) (m_speed r) (m_last_pcs_report r) x (m_ctm r) (m_cperiod
    r) (m_speriod r) (m_btd_enabled r) (m_btrack r) (m_entity_state r)
    (m_entity_desc r).

Definition set_ctm (x : CrossTrackMonitor) (r : Controller) : Controller :=
  mkController (m_active r) (m_running_monitors r) (m_error r) (m_setup r)
    (m_braking r) (m_aloops r) (m_tracking r) (m_estate r) (m_ts r) (m_pcs
    r) (m_zref r) (m_speed r) (m_last_pcs_report r) (m_atm r) x (m_cperiod
    r) (m_speriod r) (m_btd_enabled r) (m_btrack r) (m_entity_state r)
    (m_entity_desc r).

Definition set_cperiod (x : Q) (r : Controller) : Controller :=
  mkController (m_active r) (m_running_monitors r) (m_error r) (m_setup r)
    (m_braking r) (m_aloops r) (m_tracking r) (m_estate r) (m_ts r) (m_pcs
    r) (m_zref r) (m_speed r) (m_last_pcs_report r) (m_atm r) (m_ctm r) x
    (m_speriod r) (m_btd_enabled r) (m_btrack r) (m_entity_state r)
    (m_entity_desc r).

Definition set_speriod (x : Q) (r : Controller) : Controller :=
  mkController (m_active r) (m_running_monitors r) (m_error r) (m_setup r)
    (m_braking r) (m_aloops r) (m_tracking r) (m_estate r) (m_ts r) (m_pcs
    r) (m_zref r) (m_speed r) (m_last_pcs_report r) (m_atm r) (m_ctm r)
    (m_cperiod r) x (m_btd_enabled r) (m_btrack r) (m_entity_state r)
    (m_entity_desc r).

Definition set_btd_enabled (x : bool) (r : Controller) : Controller :=
  mkController (m_active r) (m_running_monitors r) (m_error r) (m_setup r)
    (m_braking r) (m_aloops r) (m_tracking r) (m_estate r) (m_ts r) (m_pcs
    r) (m_zref r) (m_speed r) (m_last_pcs_report r) (m_atm r) (m_ctm r)
    (m_cperiod r) (m_speriod r) x (m_btrack r) (m_entity_state r)
    (m_entity_desc r).

Definition set_btrack (x : BottomTracker.Tracker SD) (r : Controller) : Controller :=
  mkController (m_active r) (m_running_monitors r) (m_error r) (m_setup r)
    (m_braking r) (m_aloops r) (m_tracking r) (m_estate r) (m_ts r) (m_pcs
    r) (m_zref r) (m_speed r) (m_last_pcs_report r) (m_atm r) (m_ctm r)
    (m_cperiod r) (m_speriod r) (m_btd_enabled r) x (m_entity_state r)
    (m_entity_desc r).

Definition set_entity_state (x : EntityStateEnum) (r : Controller) : Controller :=
  mkController (m_active r) (m_running_monitors r) (m_error r) (m_setup r)
    (m_braking r) (m_aloops r) (m_tracking r) (m_estate r) (m_ts r) (m_pcs
    r) (m_zref r) (m_speed r) (m_last_pcs_report r) (m_atm r) (m_ctm r)
    (m_cperiod r) (m_speriod r) (m_btd_enabled r) (m_btrack r) x
    (m_entity_desc r).

Definition set_entity_desc (x : string) (r : Controller) : Controller :=
  mkController (m_active r) (m_running_monitors r) (m_error r) (m_setup r)
    (m_braking r) (m_aloops r) (m_tracking r) (m_estate r) (m_ts r) (m_pcs
    r) (m_zref r) (m_speed r) (m_last_pcs_report r) (m_atm r) (m_ctm r)
    (m_cperiod r) (m_speriod r) (m_btd_enabled r) (m_btrack r)
    (m_entity_state r) x.

Definition upd_ts (f : TrackingState -> TrackingState) (r : Controller)
  : Controller := set_ts (f (m_ts r)) r.

Definition upd_pcs (f : PathControlState -> PathControlState) (r : Controller)
  : Controller := set_pcs (f (m_pcs r)) r.

Definition upd_atm (f : AlongTrackMonitor -> AlongTrackMonitor)
  (r : Controller) : Controller := set_atm (f (m_atm r)) r.

Definition upd_ctm (f : CrossTrackMonitor -> CrossTrackMonitor)
  (r : Controller) : Controller := set_ctm (f (m_ctm r)) r.

(** A call of a member function of [m_btrack]. *)
Definition with_btrack {A : Type} (c : BottomTracker.Trk A) : Ctl A :=
  fun s =>
    let '(a, t, o) := c (m_btrack s) in
    (a, set_btrack t s, o).

Definition flag_set (flags bit : Z) : bool := negb (Z.land flags bit =? 0).

(** *** Entity state and control loops *)

Definition setEntityState (st : EntityStateEnum) (desc : string) : Ctl unit :=
  modify (set_entity_state st) ;;
  modify (set_entity_desc desc).

Definition updateEntityState (msg : string) : Ctl unit :=
  s <- get ;;
  if m_setup s then
    setEntityState ESTA_BOOT "waiting for position estimate from navigation"
  else if m_error s then setEntityState ESTA_ERROR msg
  else setEntityState ESTA_NORMAL "active".

Definition signalError (msg : string) : Ctl unit :=
  modify (set_error true) ;;
  updateEntityState msg.

Definition configureControlLoops (enable : Z) (mask : Z) : Ctl unit :=
  s <- get ;;
  if negb (enable =? 0) then
    if Z.land mask (m_aloops s) =? mask then ret tt
    else
      modify (set_aloops (Z.lor (m_aloops s) mask)) ;;
      dispatch (OutControlLoops enable mask)
  else
    if Z.land mask (not32 (m_aloops s)) =? mask then ret tt
    else
      modify (set_aloops (Z.land (m_aloops s) (not32 mask))) ;;
      dispatch (OutControlLoops enable mask).

Definition enableControlLoops (mask : Z) : Ctl unit :=
  configureControlLoops CL_ENABLE mask.

Definition disableControlLoops (mask : Z) : Ctl unit :=
  configureControlLoops CL_DISABLE mask.

(** *** Tracking state *)

(** [updateTrackingState], on [m_ts] with [m_estate] at hand. *)
Definition updateTrackingState (es : EstimatedState) (ts : TrackingState)
  : TrackingState :=
  let lr := getBearingAndRange es (ts_end ts) in
  let ts := set_ts_range (snd lr) (set_ts_los_angle (fst lr) ts) in
  let ts := set_ts_course
              (if ts_cc ts then std_atan2 (es_vy es) (es_vx es) else es_psi es)
              ts in
  let ts := set_ts_speed
              (if ts_cc ts then Math_norm (es_vx es) (es_vy es) else es_u es)
              ts in
  let ts :=
    if negb (ts_loitering ts) then
      let xy := getTrackPosition es ts in
      let ts := set_ts_track_pos
                  (mkCoord (fst xy) (snd xy) (cz (ts_track_pos ts))) ts in
      let ts := set_ts_course_error
                  (Angles_normalizeRadian (ts_course ts - ts_track_bearing ts))
                  ts in
      let errx := Qabs (ts_track_length ts - cx (ts_track_pos ts)) in
      let erry := Qabs (cy (ts_track_pos ts)) in
      let s := Qmax 1 (ts_speed ts) in
      let ts := if Qle_bool errx erry && Qlt_bool erry (2 * c_time_factor * s)
                then set_ts_eta (errx / s) ts
                else set_ts_eta (Math_norm errx erry / s) ts in
      let ts := set_ts_eta (Qmin 65535 (ts_eta ts - c_time_factor)) ts in
      if negb (ts_nearby ts) && Qle_bool (ts_eta ts) 0 then
        set_ts_end_time (ts_now ts) (set_ts_nearby true (set_ts_eta 0 ts))
      else ts
    else
      let y := (ts_range ts - lo_radius (ts_loiter ts))%Q in
      let ts := set_ts_track_pos
                  (mkCoord 0 (if lo_clockwise (ts_loiter ts) then - y else y)
                           (cz (ts_track_pos ts))) ts in
      let ts := set_ts_course_error
                  (Angles_normalizeRadian
                     (ts_course ts - ts_los_angle ts
                      + (if lo_clockwise (ts_loiter ts)
                         then Math_c_half_pi else - Math_c_half_pi)))
                  ts in
      set_ts_nearby false (set_ts_eta 0 ts) in
  let ts := set_ts_track_pos
              (mkCoord (cx (ts_track_pos ts)) (cy (ts_track_pos ts))
                       (es_z es - cz (ts_end ts))) ts in
  set_ts_track_vel
    (mkCoord (ts_speed ts * std_cos (ts_course_error ts))
             (ts_speed ts * std_sin (ts_course_error ts))
             (std_sin (es_theta es) * es_vz es)) ts.

Definition reportPathControlState (force : bool) : Ctl unit :=
  s <- get ;;
  let ts := m_ts s in
  if negb force && Qlt_bool (ts_now ts - m_last_pcs_report s) (m_speriod s)
  then ret tt
  else
    modify (set_last_pcs_report (ts_now ts)) ;;
    modify (upd_pcs (fun p =>
      let p := set_pcs_x (if ts_loitering ts then 0
                          else ts_track_length ts - cx (ts_track_pos ts)) p in
      let p := set_pcs_y (cy (ts_track_pos ts)) p in
      let p := set_pcs_z (cz (ts_track_pos ts)) p in
      let p := set_pcs_vx (cx (ts_track_vel ts)) p in
      let p := set_pcs_vy (cy (ts_track_vel ts)) p in
      let p := set_pcs_vz (cz (ts_track_vel ts)) p in
      let p := set_pcs_course_error (ts_course_error ts) p in
      let p := set_pcs_flags
                 (if ts_nearby ts then Z.lor (pcs_flags p) PFL_NEAR
                  else Z.land (pcs_flags p) (Z.lnot PFL_NEAR)) p in
      let p := if ts_loitering ts then
                 set_pcs_lradius (lo_radius (ts_loiter ts))
                   (set_pcs_flags (Z.lor (pcs_flags p) PFL_LOITERING) p)
               else
                 set_pcs_lradius 0
                   (set_pcs_flags (Z.land (pcs_flags p) (Z.lnot PFL_LOITERING)) p)
      in
      set_pcs_eta (to_uint16 (Math_round (ts_eta ts))) p)) ;;
    s1 <- get ;;
    dispatch (OutPathControlState (m_pcs s1)).

(** [step] is implemented by the concrete controller: the call is
    recorded with its arguments. *)
Definition step (es : EstimatedState) (ts : TrackingState) : Ctl unit :=
  dispatch (CallStep es ts).

Definition loiter (es : EstimatedState) (ts : TrackingState) : Ctl unit :=
  let b := (Math_c_pi + ts_los_angle ts)%Q in
  let lts := set_ts_start
               (setBearingAndRange (ts_end ts) b (lo_radius (ts_loiter ts))
                                   (ts_start ts)) ts in
  let b := (b + (if lo_clockwise (ts_loiter lts)
                 then Math_c_half_pi else - Math_c_half_pi))%Q in
  let lts := set_ts_end
               (setBearingAndRange (ts_start lts) b 500 (ts_end lts)) lts in
  let lts := set_ts_track_bearing b lts in
  let lts := set_ts_track_length 500 lts in
  let lts := set_ts_track_pos
               (mkCoord 0 (cy (ts_track_pos lts)) (cz (ts_track_pos lts))) lts in
  let lts := set_ts_los_angle (getBearing es (ts_end lts)) lts in
  step es lts.

(** *** Monitors *)

Definition reinit_atm (ts : TrackingState) (a : AlongTrackMonitor)
  : AlongTrackMonitor :=
  set_atm_last_course_err (Qabs (ts_course_error ts))
    (set_atm_last_err (cx (ts_track_pos ts))
       (set_atm_time (ts_now ts + atm_period a)
          (set_atm_diverging false a))).

Definition monitorAlongTrackError : Ctl unit :=
  s <- get ;;
  let ts := m_ts s in
  if Qlt_bool (ts_now ts) (atm_time (m_atm s)) then ret tt
  else
    let along := Qlt_bool (Qabs (ts_course_error ts)) Math_c_half_pi in
    when (along && atm_diverging (m_atm s)
          && Qle_bool Math_c_half_pi (atm_last_course_err (m_atm s)))
      (modify (upd_atm (set_atm_diverging false))) ;;
    s1 <- get ;;
    let a := m_atm s1 in
    let min_expected :=
      if along then (atm_period a * atm_min_speed a)%Q
      else (atm_period a * atm_min_yaw a)%Q in
    let progress :=
      if along then (cx (ts_track_pos ts) - atm_last_err a)%Q
      else (Qabs (atm_last_course_err a) - Qabs (ts_course_error ts))%Q in
    (if atm_diverging a then
       if Qle_bool min_expected progress then
         modify (upd_atm (set_atm_diverging false))
       else signalError "along-track divergence error"
     else
       when (Qlt_bool progress min_expected)
         (modify (upd_atm (set_atm_diverging true)))) ;;
    modify (upd_atm (fun a =>
      set_atm_last_course_err (Qabs (ts_course_error ts))
        (set_atm_last_err (cx (ts_track_pos ts))
           (set_atm_time (atm_time a + atm_period a) a)))).

Definition monitorCrossTrackError : Ctl unit :=
  s <- get ;;
  let ts := m_ts s in
  let c := m_ctm s in
  let d := Qabs (cy (ts_track_pos ts)) in
  if Qle_bool (ctm_distance_limit c + ctm_nav_uncertainty c) d then
    if negb (ctm_diverging c) then
      modify (upd_ctm (fun c =>
        set_ctm_divergence_started (ts_now ts) (set_ctm_diverging true c)))
    else
      when (Qle_bool (ctm_time_limit c) (ts_now ts - ctm_divergence_started c))
        (signalError "cross-track divergence error")
  else
    when (ctm_diverging c) (modify (upd_ctm (set_ctm_diverging false))).

(** *** Consumers *)

Definition consume_Brake (op : BrakeOp) : Ctl unit :=
  modify (set_braking (BrakeOp_eqb op OP_START)).

(** The start point of the track, as [consume] of a [DesiredPath] writes
    it to [m_pcs]. *)
Definition select_start (now : Q) (dpath : DesiredPath) (s : Controller)
  : PathControlState :=
  let p := m_pcs s in
  let ts := m_ts s in
  if flag_set (dp_flags dpath) FL_START then
    set_pcs_start_z_units (dp_start_z_units dpath)
      (set_pcs_start_z (dp_start_z dpath)
         (set_pcs_start_lon (dp_start_lon dpath)
            (set_pcs_start_lat (dp_start_lat dpath) p)))
  else if (negb (m_tracking s) && Qlt_bool 1 (now - ts_end_time ts))
          || (negb (ts_nearby ts) && negb (ts_loitering ts))
          || flag_set (dp_flags dpath) FL_DIRECT then
    let ll := Coordinates_toWGS84 (m_estate s)
                (es_lat (m_estate s), es_lon (m_estate s)) in
    set_pcs_start_z (es_z (m_estate s))
      (set_pcs_start_lon (snd ll) (set_pcs_start_lat (fst ll) p))
  else
    set_pcs_start_z_units (pcs_end_z_units p)
      (set_pcs_start_z (pcs_end_z p)
         (set_pcs_start_lon (pcs_end_lon p)
            (set_pcs_start_lat (pcs_end_lat p) p))).

(** The end point of the track, likewise. *)
Definition select_end (dpath : DesiredPath) (es : EstimatedState)
  (p : PathControlState) : PathControlState :=
  if flag_set (dp_flags dpath) FL_LOITER_CURR && Qlt_bool 0 (dp_lradius dpath)
  then
    let ll := Coordinates_toWGS84 es (es_lat es, es_lon es) in
    set_pcs_end_z_units (dp_end_z_units dpath)
      (set_pcs_end_z (dp_end_z dpath)
         (set_pcs_end_lon (snd ll) (set_pcs_end_lat (fst ll) p)))
  else
    set_pcs_end_z_units (dp_end_z_units dpath)
      (set_pcs_end_z (dp_end_z dpath)
         (set_pcs_end_lon (dp_end_lon dpath)
            (set_pcs_end_lat (dp_end_lat dpath) p))).

(** The loiter handling of [consume] of a [DesiredPath], on [m_ts]. *)
Definition setup_loiter (dpath : DesiredPath) (es : EstimatedState)
  (ts : TrackingState) : TrackingState :=
  let ts := set_ts_nearby false (set_ts_loitering false ts) in
  let ts := set_ts_loiter
              (mkLoiterData (lo_center (ts_loiter ts)) (dp_lradius dpath)
                 (Z.land (dp_flags dpath) FL_CCLOCKW =? 0)) ts in
  if Qlt_bool 0 (lo_radius (ts_loiter ts)) then
    let lo := mkLoiterData (ts_end ts) (lo_radius (ts_loiter ts))
                (lo_clockwise (ts_loiter ts)) in
    let ts := set_ts_loiter lo ts in
    let course_err :=
      Qabs (Angles_normalizeRadian (es_psi es - ts_track_bearing ts)) in
    let ts :=
      if Qlt_bool (ts_track_length ts) c_ldistance then
        set_ts_end (setBearingAndRange (lo_center lo) (es_psi es)
                      (lo_radius lo) (ts_end ts)) ts
      else
        let sign :=
          if Qle_bool (ts_track_length ts) (lo_radius lo * c_lsize_factor)
             && Qlt_bool course_err Math_c_half_pi
          then (if lo_clockwise lo then 1 else - (1))%Q
          else (if lo_clockwise lo then - (1) else 1)%Q in
        set_ts_end (setBearingAndRange (lo_center lo)
                      (ts_track_bearing ts + sign * Math_c_half_pi)
                      (lo_radius lo) (ts_end ts)) ts in
    let br := Coordinates_getBearingAndRange (ts_start ts) (ts_end ts) in
    set_ts_track_length (snd br) (set_ts_track_bearing (fst br) ts)
  else ts.

Definition consume_DesiredPath (now : Q) (dpath : DesiredPath) : Ctl unit :=
  s0 <- get ;;
  if negb (m_active s0) then ret tt
  else
    modify (upd_pcs (set_pcs_flags 0)) ;;
    s1 <- get ;;
    modify (set_pcs (select_start now dpath s1)) ;;
    s2 <- get ;;
    let es := m_estate s2 in
    let sxy := WGS84_displacement (es_lat es) (es_lon es)
                 (pcs_start_lat (m_pcs s2)) (pcs_start_lon (m_pcs s2)) in
    modify (upd_ts (set_ts_start
                      (mkCoord (fst sxy) (snd sxy) (pcs_start_z (m_pcs s2))))) ;;
    modify (upd_pcs (select_end dpath es)) ;;
    s3 <- get ;;
    let exy := WGS84_displacement (es_lat es) (es_lon es)
                 (pcs_end_lat (m_pcs s3)) (pcs_end_lon (m_pcs s3)) in
    modify (upd_ts (set_ts_end
                      (mkCoord (fst exy) (snd exy) (pcs_end_z (m_pcs s3))))) ;;
    modify (upd_ts (fun ts =>
      let br := Coordinates_getBearingAndRange (ts_start ts) (ts_end ts) in
      set_ts_delta 0
        (set_ts_now now
           (set_ts_end_time (- (1))
              (set_ts_start_time now
                 (set_ts_track_length (snd br)
                    (set_ts_track_bearing (fst br) ts))))))) ;;
    modify (set_tracking true) ;;
    (if negb hasSpecificZControl && negb (flag_set (dp_flags dpath) FL_NO_Z)
     then
       modify (upd_ts (set_ts_z_control true)) ;;
       match dp_end_z_units dpath with
       | Z_ALTITUDE =>
           disableControlLoops CL_DEPTH ;; enableControlLoops CL_ALTITUDE
       | Z_DEPTH =>
           disableControlLoops CL_ALTITUDE ;; enableControlLoops CL_DEPTH
       | _ => ret tt
       end ;;
       let zref := mkDesiredZ (dp_end_z dpath) (dp_end_z_units dpath) in
       modify (set_zref zref) ;;
       if m_btd_enabled s0 then with_btrack (BottomTracker.onDesiredZ zref true)
       else dispatch (OutDesiredZ SrcTask zref)
     else
       modify (upd_ts (set_ts_z_control false)) ;;
       modify (upd_pcs (fun p => set_pcs_flags (Z.lor (pcs_flags p) PFL_NO_Z) p))) ;;
    let speed := mkDesiredSpeed (dp_speed dpath) (dp_speed_units dpath) in
    modify (set_speed speed) ;;
    enableControlLoops CL_SPEED ;;
    dispatch (OutDesiredSpeed speed) ;;
    modify (upd_ts (setup_loiter dpath es)) ;;
    modify (upd_ts (updateTrackingState es)) ;;
    reportPathControlState true ;;
    updateEntityState "" ;;
    s4 <- get ;;
    when (atm_enabled (m_atm s4)) (modify (upd_atm (reinit_atm (m_ts s4)))) ;;
    when (ctm_enabled (m_ctm s4)) (modify (upd_ctm (set_ctm_diverging false))) ;;
    dispatch (CallOnPathStartup es (m_ts s4)).

Definition consume_NavigationUncertainty (nu : NavigationUncertainty)
  : Ctl unit :=
  modify (upd_ctm (fun c =>
    set_ctm_nav_uncertainty
      (ctm_nav_unc_factor c * std_sqrt (Qmax (nu_x nu) (nu_y nu))) c)).

(** [consume] of a [Distance]: an exception of the tracker is caught
    here. *)
Definition consume_Distance (dist : Distance) : Ctl unit :=
  s <- get ;;
  when (m_btd_enabled s)
    (e <- with_btrack (BottomTracker.onDistance dist) ;;
     match e with
     | Some what =>
         s1 <- get ;;
         when (m_braking s1)
           (dispatch (OutBrake SrcTask OP_STOP) ;;
            modify (set_braking false)) ;;
         signalError what
     | None => ret tt
     end).

Definition consume_DesiredZ (zref : DesiredZ) : Ctl unit :=
  s <- get ;;
  when (m_btd_enabled s) (with_btrack (BottomTracker.onDesiredZ zref false)).

Definition consume_DesiredSpeed (dspeed : DesiredSpeed) : Ctl unit :=
  s <- get ;;
  when (m_btd_enabled s) (with_btrack (BottomTracker.onDesiredSpeed dspeed)).

(** [consume] of an [EstimatedState].  The result is the exception that
    left the handler, if any: the one of the bottom tracker, which is not
    caught here. *)
Definition consume_EstimatedState (now : Q) (es : EstimatedState)
  : Ctl (option string) :=
  s0 <- get ;;
  e <- (if m_btd_enabled s0
        then with_btrack (BottomTracker.onEstimatedState now es)
        else ret None) ;;
  match e with
  | Some what => ret (Some what)
  | None =>
      s1 <- get ;;
      when (m_setup s1) (modify (set_setup false) ;; updateEntityState "") ;;
      let old := m_estate s1 in
      let change_ref :=
        negb (Qeq_bool (es_lat es) (es_lat old))
        || negb (Qeq_bool (es_lon es) (es_lon old))
        || negb (Qeq_bool (es_height es) (es_height old)) in
      modify (set_estate es) ;;
      s2 <- get ;;
      if negb (m_active s2) || m_error s2 || negb (m_tracking s2) then ret None
      else
        when change_ref
          (modify (upd_ts (fun ts =>
             let p := m_pcs s2 in
             let sxy := WGS84_displacement (es_lat es) (es_lon es)
                          (pcs_start_lat p) (pcs_start_lon p) in
             let exy := WGS84_displacement (es_lat es) (es_lon es)
                          (pcs_end_lat p) (pcs_end_lon p) in
             set_ts_end (mkCoord (fst exy) (snd exy) (cz (ts_end ts)))
               (set_ts_start (mkCoord (fst sxy) (snd sxy) (cz (ts_start ts)))
                  ts)))) ;;
        s3 <- get ;;
        if Qlt_bool now (ts_now (m_ts s3) + m_cperiod s3) then ret None
        else
          modify (upd_ts (fun ts =>
            set_ts_now now (set_ts_delta (now - ts_now ts) ts))) ;;
          s4 <- get ;;
          if ts_nearby (m_ts s4)
             && Qle_bool c_new_ref_timeout
                  (ts_now (m_ts s4) - ts_end_time (m_ts s4)) then
            signalError "expected new path control reference" ;;
            ret None
          else
            let prev_nearby := ts_nearby (m_ts s4) in
            modify (upd_ts (updateTrackingState es)) ;;
            s5 <- get ;;
            reportPathControlState (negb prev_nearby && ts_nearby (m_ts s5)) ;;
            (if negb (ts_loitering (m_ts s5)) then step es (m_ts s5)
             else loiter es (m_ts s5)) ;;
            s6 <- get ;;
            (if m_braking s6 then modify (set_running_monitors false)
             else
               when (negb (m_running_monitors s6))
                 (when (atm_enabled (m_atm s6) && negb (ts_loitering (m_ts s6)))
                    (modify (upd_atm (reinit_atm (m_ts s6)))) ;;
                  when (ctm_enabled (m_ctm s6))
                    (modify (upd_ctm (set_ctm_diverging false)))) ;;
               modify (set_running_monitors true)) ;;
            s7 <- get ;;
            when (m_running_monitors s7)
              (when (atm_enabled (m_atm s7) && negb (ts_loitering (m_ts s7)))
                 monitorAlongTrackError ;;
               when (ctm_enabled (m_ctm s7)) monitorCrossTrackError) ;;
            s8 <- get ;;
            when (negb (ts_loitering (m_ts s8)) && ts_nearby (m_ts s8)
                  && Qlt_bool 0 (lo_radius (ts_loiter (m_ts s8))))
              (modify (upd_ts (fun ts =>
                 set_ts_nearby false
                   (set_ts_loitering true
                      (set_ts_end (lo_center (ts_loiter ts)) ts))))) ;;
            ret None
  end.

(** *** Activation *)

Definition onActivation (now : Q) : Ctl unit :=
  modify (set_error false) ;;
  modify (set_tracking false) ;;
  modify (set_braking false) ;;
  dispatch CallOnPathActivation ;;
  updateEntityState "" ;;
  s <- get ;;
  when (m_btd_enabled s) (with_btrack (BottomTracker.activate now)).

Definition onDeactivation (now : Q) : Ctl unit :=
  s <- get ;;
  when (ts_z_control (m_ts s))
    (disableControlLoops
       (if Qlt_bool (cz (ts_end (m_ts s))) 0 then CL_ALTITUDE else CL_DEPTH)) ;;
  modify (upd_ts (set_ts_end_time now)) ;;
  modify (set_error false) ;;
  dispatch CallOnPathDeactivation ;;
  updateEntityState "" ;;
  when (m_btd_enabled s)
    (with_btrack BottomTracker.deactivate ;;
     s1 <- get ;;
     when (m_braking s1)
       (dispatch (OutBrake SrcTask OP_STOP) ;;
        modify (set_braking false))).

(** Modelled from the spec: [Task::activate] and [Task::deactivate] are
    not among the sources.  Activation and deactivation set the flag
    [isActive] reads and run the hook of the controller (section 4.2,
    on-activation and on-deactivation; section 4.4, Activation). *)
Definition activate (now : Q) : Ctl unit :=
  modify (set_active true) ;;
  onActivation now.

(** Modelled from the spec: [Task::deactivate], see [activate]. *)
Definition deactivate (now : Q) : Ctl unit :=
  modify (set_active false) ;;
  onDeactivation now.

Definition consume_ControlLoops (now : Q) (enable mask : Z) : Ctl unit :=
  s <- get ;;
  modify (set_aloops (if negb (enable =? 0) then Z.lor (m_aloops s) mask
                      else Z.land (m_aloops s) (not32 mask))) ;;
  if Z.land mask CL_PATH =? 0 then ret tt
  else
    let was := m_active s in
    let will := enable =? CL_ENABLE in
    if Bool.eqb was will then ret tt
    else if will then activate now else deactivate now.

(** *** The task as a transition system *)

Inductive Event : Type :=
| EvBrake (op : BrakeOp)
| EvControlLoops (enable mask : Z)
| EvDesiredPath (dpath : DesiredPath)
| EvEstimatedState (es : EstimatedState)
| EvDistance (dist : Distance)
| EvDesiredZ (zref : DesiredZ)
| EvDesiredSpeed (dspeed : DesiredSpeed)
| EvNavigationUncertainty (nu : NavigationUncertainty).

(** One handler invocation with the clock at [now]; the result is the
    exception that escaped the handler, if any. *)
Definition handle (now : Q) (ev : Event) : Ctl (option string) :=
  match ev with
  | EvBrake op => consume_Brake op ;; ret None
  | EvControlLoops enable mask => consume_ControlLoops now enable mask ;; ret None
  | EvDesiredPath dpath => consume_DesiredPath now dpath ;; ret None
  | EvEstimatedState es => consume_EstimatedState now es
  | EvDistance dist => consume_Distance dist ;; ret None
  | EvDesiredZ zref => consume_DesiredZ zref ;; ret None
  | EvDesiredSpeed dspeed => consume_DesiredSpeed dspeed ;; ret None
  | EvNavigationUncertainty nu => consume_NavigationUncertainty nu ;; ret None
  end.

Definition step_event (s : Controller) (e : Q * Event) : Controller :=
  state_of (handle (fst e) (snd e) s).

Definition emitted (s : Controller) (e : Q * Event) : list Out :=
  output_of (handle (fst e) (snd e) s).

Definition run (s : Controller) (es : list (Q * Event)) : Controller :=
  fold_left step_event es s.

Fixpoint trace (s : Controller) (es : list (Q * Event)) : list Out :=
  match es with
  | [] => []
  | e :: es' => emitted s e ++ trace (step_event s e) es'
  end.

(** The state of the bottom tracker's machine. *)
Definition tracker_state (s : Controller) : BottomTracker.MachineState :=
  BottomTracker.m_mstate (m_btrack s).

End Controller.

Arguments Controller SD : clear implicits.

End PathController.

(** * The supervisor's properties: statements and example inputs *)
Module SupervisorClaims.
Import IMC Supervisor.

(** ** Example inputs *)

(** A request from system 7, entity 8, with request identifier 42. *)
Definition request (command : Z) (maneuver : option Message) : VehicleCommand :=
  mkVehicleCommand 7 8 0 0 VC_REQUEST command 42 maneuver 10 "".

Definition loiter_maneuver : Message := mkMessage 453 "Loiter".

Definition imu_error : EntityMonitoringState :=
  mkEntityMonitoringState 0 "" 1 "IMU" "IMU failure" 3.

(** The supervisor of system 1 with no safe entities configured, after
    start-up, and after a report of one entity in error. *)
Definition task0 : Task := initial [] 1.

Definition task_in_error : Task :=
  run task0 [(1%Q, EvEntityMonitoringState imu_error)].

Definition task_in_maneuver : Task :=
  run task0 [(1%Q, EvVehicleCommand (request VC_EXEC_MANEUVER (Some loiter_maneuver)))].

Definition task_in_calibration : Task :=
  run task0 [(1%Q, EvVehicleCommand (request VC_START_CALIBRATION None))].

(** ** Leaving ERROR, as the specification states it *)

Definition error_exit_claim : Prop :=
  forall (t : Task) (e : Q * Event),
    reachable t ->
    mode t = VS_ERROR ->
    mode (step t e) <> VS_ERROR ->
    (mode (step t e) = VS_SERVICE /\ error_count (m_vs (step t e)) = 0)
    \/ (mode (step t e) = VS_EXTERNAL /\ nonOverridableLoops (step t e) = true).

(** ** No direct change between MANEUVER and CALIBRATION, as stated *)

Definition no_direct_switch_claim : Prop :=
  forall (t : Task) (e : Q * Event),
    reachable t ->
    ~ (mode t = VS_MANEUVER /\ mode (step t e) = VS_CALIBRATION)
    /\ ~ (mode t = VS_CALIBRATION /\ mode (step t e) = VS_MANEUVER).

(** ** The control-loop mask, as the specification states it

    The union of the masks of the messages with [enable = 1], each minus
    the masks of the messages with [enable = 0] that arrived after it. *)

Fixpoint disabled_masks (msgs : list ControlLoops) : Z :=
  match msgs with
  | [] => 0
  | m :: later =>
      if cl_enable m =? CL_DISABLE
      then Z.lor (cl_mask m) (disabled_masks later)
      else disabled_masks later
  end.

Fixpoint granted_loops (msgs : list ControlLoops) : Z :=
  match msgs with
  | [] => 0
  | m :: later =>
      if cl_enable m =? CL_ENABLE
      then Z.lor (Z.ldiff (cl_mask m) (disabled_masks later)) (granted_loops later)
      else granted_loops later
  end.

(** The messages of a sequence as events, each with its clock reading. *)
Definition loops_events (msgs : list (Q * ControlLoops)) : list (Q * Event) :=
  map (fun m => (fst m, EvControlLoops (snd m))) msgs.

Definition loops_union_claim : Prop :=
  forall (ents : list string) (sys : Z) (msgs : list (Q * ControlLoops)),
    Forall (fun m => is_uint32 (cl_mask (snd m))) msgs ->
    control_loops (m_vs (run (initial ents sys) (loops_events msgs)))
    = granted_loops (map snd msgs).

(** The messages the supervisor does not ignore: those whose scope
    reference, as a [float], is not below the one last stored. *)
Fixpoint accepted (scope : Z) (msgs : list ControlLoops) : list ControlLoops :=
  match msgs with
  | [] => []
  | m :: later =>
      if float_of_uint32 (cl_scope_ref m) <? scope then accepted scope later
      else m :: accepted (float_of_uint32 (cl_scope_ref m)) later
  end.

(** What one message that is not ignored does to the mask. *)
Definition apply_loops (loops : Z) (m : ControlLoops) : Z :=
  if cl_enable m =? CL_ENABLE then Z.lor loops (cl_mask m)
  else Z.ldiff loops (cl_mask m).

(** Two messages: the second carries an older scope reference. *)
Definition stale_scope_messages : list (Q * ControlLoops) :=
  [ (1%Q, mkControlLoops CL_ENABLE CL_PATH 5);
    (2%Q, mkControlLoops CL_ENABLE CL_SPEED 3) ].

(** A [ControlLoops] as its type has it: a 32-bit mask and an [enable]
    that is one of the two enumerators. *)
Definition wf_loops (m : ControlLoops) : Prop :=
  is_uint32 (cl_mask m) /\ (cl_enable m = CL_DISABLE \/ cl_enable m = CL_ENABLE).

End SupervisorClaims.

(** * The controller's properties: statements and example inputs *)
Module ControlClaims.
Import IMC Control PathController.

(** ** Reading the dispatched messages *)

(** The operation of a [Brake], and of a [Brake] that carries the entity
    of the bottom tracker (those are the ones of [BottomTracker::brake]). *)
Definition brake_op (m : Out) : option BrakeOp :=
  match m with
  | OutBrake _ op => Some op
  | _ => None
  end.

Definition tracker_brake_op (m : Out) : option BrakeOp :=
  match m with
  | OutBrake SrcBottomTrack op => Some op
  | _ => None
  end.

(** The operation of the last selected message of a sequence of
    dispatched messages, [init] when there is none. *)
Fixpoint last_op_from (sel : Out -> option BrakeOp) (init : option BrakeOp)
  (out : list Out) : option BrakeOp :=
  match out with
  | [] => init
  | m :: later =>
      last_op_from sel
        (match sel m with Some op => Some op | None => init end) later
  end.


Definition last_tracker_brake (out : list Out) : option BrakeOp :=
  last_op_from tracker_brake_op None out.

(** The calls of [step] among the outputs: the tracking references of a
    concrete controller are produced there. *)
Definition is_step (m : Out) : bool :=
  match m with CallStep _ _ => true | _ => false end.

Definition steps (out : list Out) : list Out := filter is_step out.

Definition is_activation (e : Q * Event) : bool :=
  match snd e with EvControlLoops _ _ => true | _ => false end.

(** ** States after start-up *)

Definition origin : Coord := mkCoord 0 0 0.

Definition estate0 : EstimatedState :=
  mkEstimatedState 0 0 0 0 0 0 0 0 0 0 0 0 0 0.

Definition ts0 : TrackingState :=
  mkTrackingState origin origin 0 0 origin origin 0 0 0 0 0 0 0 0 0 0
    true false false false (mkLoiterData origin 0 true).

Definition pcs0 : PathControlState :=
  mkPathControlState 0 0 0 Z_NONE 0 0 0 Z_NONE 0 0 0 0 0 0 0 0 0 (Some 0).

(** The bottom tracker's parameters at their defaults. *)
Definition btrack_args : BottomTracker.Arguments :=
  BottomTracker.mkArguments 1 2 1 48 true (1 # 5).

Section Statements.
Context {SD : Type} {sdo : BottomTracker.SlopeDataOps SD}.
Context {math : MathLib} {hooks : ControllerHooks}.


(** A controller after start-up, with the parameters at their defaults
    and the bottom tracker enabled, around the slope data [sd]. *)
Definition controller_after_startup (sd : SD) : Controller SD :=
  mkController false true false true false 0 false estate0 ts0 pcs0
    (mkDesiredZ 0 Z_NONE) (mkDesiredSpeed 0 0) 0
    (mkAlongTrackMonitor true 15 (1 # 4) (10 # 57) false 0 0 0)
    (mkCrossTrackMonitor true 15 10 (- (1)) 0 false 0)
    (1 # 10) 1 true
    (BottomTracker.constructed btrack_args sd estate0 0)
    ESTA_BOOT "waiting for position estimate from navigation".

(** ** The bottom tracker in AVOIDING, as the specification states it *)


(** ** The start point of a track, as the specification states it

    The start of the message with FL_START; else the end of the previous
    path when that path has not ended (it is being tracked, or ended at
    most one second ago) and the vehicle is not nearby; else the current
    estimated position. *)

Definition start_point (p : PathControlState) : Q * Q * Q :=
  (pcs_start_lat p, pcs_start_lon p, pcs_start_z p).

Definition previous_path_not_ended (now : Q) (s : Controller SD) : bool :=
  negb (negb (m_tracking s) && Qlt_bool 1 (now - ts_end_time (m_ts s))).

Definition estimated_position (s : Controller SD) : Q * Q * Q :=
  let ll := Coordinates_toWGS84 (m_estate s)
              (es_lat (m_estate s), es_lon (m_estate s)) in
  (fst ll, snd ll, es_z (m_estate s)).

Definition stated_start_point (now : Q) (dpath : DesiredPath)
  (s : Controller SD) : Q * Q * Q :=
  if flag_set (dp_flags dpath) FL_START then
    (dp_start_lat dpath, dp_start_lon dpath, dp_start_z dpath)
  else if previous_path_not_ended now s && negb (ts_nearby (m_ts s)) then
    (pcs_end_lat (m_pcs s), pcs_end_lon (m_pcs s), pcs_end_z (m_pcs s))
  else estimated_position s.

Definition start_point_claim : Prop :=
  forall (now : Q) (dpath : DesiredPath) (s : Controller SD),
    m_active s = true ->
    start_point (select_start now dpath s) = stated_start_point now dpath s.

(** ** The reference time-out *)


End Statements.

(** ** Example instances and inputs *)

(** A slope data object that sees nothing: no range is low, no slope is
    steep, and [onDistance] raises nothing. *)
#[local] Instance blind_slope : BottomTracker.SlopeDataOps unit := {|
  BottomTracker.sd_reset := fun sd => sd;
  BottomTracker.sd_onDistance := fun _ _ sd => (sd, None);
  BottomTracker.sd_renderSlopeInvalid := fun sd => sd;
  BottomTracker.sd_updateSlopeTop := fun _ sd => sd;
  BottomTracker.sd_isSurface := fun _ _ => false;
  BottomTracker.sd_isRangeLow := fun _ => false;
  BottomTracker.sd_isTooSteep := fun _ => false;
  BottomTracker.sd_isTopCleared := fun _ => false;
  BottomTracker.sd_isSlopeIncreasing := fun _ => false;
  BottomTracker.sd_getFRange := fun _ => 0%Q
|}.

(** A numeric library on a track of length zero at the origin: every
    function returns zero, and points are left where they are.  It serves
    to run the handlers on inputs where the geometry plays no part. *)
#[local] Instance origin_math : MathLib := {|
  Math_norm := fun _ _ => 0%Q;
  Math_round := fun q => Qfloor (q + (1 # 2));
  Math_c_pi := (355 # 113)%Q;
  Math_c_half_pi := (355 # 226)%Q;
  std_atan2 := fun _ _ => 0%Q;
  std_cos := fun _ => 1%Q;
  std_sin := fun _ => 0%Q;
  std_sqrt := fun _ => 0%Q;
  Angles_normalizeRadian := fun q => q;
  WGS84_displacement := fun _ _ _ _ => (0%Q, 0%Q);
  Coordinates_toWGS84 := fun _ ll => ll;
  Coordinates_getBearingAndRange := fun _ _ => (0%Q, 0%Q);
  getBearingAndRange := fun _ _ => (0%Q, 0%Q);
  getBearing := fun _ _ => 0%Q;
  setBearingAndRange := fun _ _ _ c => c;
  getTrackPosition := fun _ _ => (0%Q, 0%Q)
|}.

(** The base class: the controller handles the vertical reference. *)
#[local] Instance base_hooks : ControllerHooks := {|
  hasSpecificZControl := false
|}.

Definition controller0 : Controller unit := controller_after_startup tt.

(** Five metres deep, 3.2 m and then 0.8 m above the bottom. *)
Definition estate_high : EstimatedState :=
  mkEstimatedState 0 0 0 0 0 0 0 0 0 0 0 0 5 (16 # 5).

Definition estate_low : EstimatedState :=
  mkEstimatedState 0 0 0 0 0 0 0 0 0 0 0 0 5 (4 # 5).


(** The same up to the braking, then the vehicle back above its altitude
    reference. *)
Definition avoid_then_recover : list (Q * Event) :=
  [ (1%Q, EvControlLoops CL_ENABLE CL_PATH);
    (2%Q, EvDesiredZ (mkDesiredZ 3 Z_ALTITUDE));
    (3%Q, EvDesiredSpeed (mkDesiredSpeed 1 0));
    (4%Q, EvEstimatedState estate_high);
    (5%Q, EvEstimatedState estate_low);
    (6%Q, EvBrake OP_START);
    (7%Q, EvEstimatedState estate_high) ].

(** A path is being tracked, the vehicle is neither nearby nor loitering,
    and the previous path ended 5 m deep. *)
Definition controller_tracking : Controller unit :=
  set_pcs (set_pcs_end_z 5 pcs0)
    (set_tracking true (set_active true controller0)).

Definition plain_path : DesiredPath :=
  mkDesiredPath 0 0 0 Z_NONE 1 1 2 Z_DEPTH 1 0 0 0.

(** A tracking state at the end of the track with the nearby flag set. *)
Definition ts_nearby_end : TrackingState :=
  set_ts_nearby true (set_ts_cc false ts0).


End ControlClaims.

(** * Relations between the states and outputs of a computation *)
Module Sequencing.

(** A relation between the state before, the state after and the messages
    dispatched that holds of no step at all, and of two steps in a row
    when it holds of each. *)
Class Sequential {S O : Type} (R : S -> S -> list O -> Prop) : Prop := {
  seq_refl : forall s, R s s [];
  seq_trans : forall s1 s2 s3 o1 o2,
      R s1 s2 o1 -> R s2 s3 o2 -> R s1 s3 (o1 ++ o2)
}.

(** The computation [c], started in [s], is within [R]. *)
Definition sat_at {S O A : Type} (R : S -> S -> list O -> Prop)
  (c : M S O A) (s : S) : Prop :=
  R s (state_of (c s)) (output_of (c s)).

End Sequencing.

Module ControlRelations.
Import IMC Control ControlClaims.

Section Relations.
Context {SD : Type}.

(** No call of [step] is made (by the bottom tracker). *)
Definition emits_no_step (t t' : BottomTracker.Tracker SD) (o : list Out)
  : Prop :=
  steps o = [].

(** The bottom tracker is in AVOIDING afterwards only if its last own
    [Brake] in between was a START, or if it was in AVOIDING before and
    dispatched no [Brake] of its own. *)
Definition avoiding_by_brake (t t' : BottomTracker.Tracker SD) (o : list Out)
  : Prop :=
  BottomTracker.m_mstate t' = BottomTracker.SM_AVOIDING ->
  last_tracker_brake o = Some OP_START
  \/ (BottomTracker.m_mstate t = BottomTracker.SM_AVOIDING
      /\ last_tracker_brake o = None).

(** The same, of the controller that owns the tracker. *)
Definition controller_avoiding_by_brake (s s' : PathController.Controller SD)
  (o : list Out) : Prop :=
  avoiding_by_brake (PathController.m_btrack s) (PathController.m_btrack s') o.

(** Once in error, the controller stays in error and calls [step] no
    more. *)
Definition error_stops_steps (s s' : PathController.Controller SD)
  (o : list Out) : Prop :=
  PathController.m_error s = true ->
  PathController.m_error s' = true /\ steps o = [].

(** The start point written to [m_pcs] is left as it is. *)
Definition keeps_start_point (s s' : PathController.Controller SD)
  (o : list Out) : Prop :=
  start_point (PathController.m_pcs s') = start_point (PathController.m_pcs s).

End Relations.

End ControlRelations.

(** * Further properties: statements and example inputs *)

Module FloatFacts.

(** The rounding of [float_of_uint32] at a fixed exponent. *)
Definition round_at (e z : Z) : Z :=
  let q := Z.shiftr z e in
  let r := z - Z.shiftl q e in
  let half := Z.shiftl 1 (e - 1) in
  let q' := if r <? half then q
            else if half <? r then q + 1
            else if Z.even q then q else q + 1 in
  Z.shiftl q' e.

End FloatFacts.

Module SupervisorFacts.
Import IMC Supervisor.

(** [VehicleState] reports no maneuver: the values [changeMode] writes
    when it leaves MANEUVER, and no MANEUVER_DONE flag. *)
Definition no_maneuver_reported (v : VehicleState) : Prop :=
  maneuver_type v = 65535
  /\ maneuver_stime v = (-1)%Q
  /\ maneuver_eta v = 65535
  /\ Z.land (flags v) VFLG_MANEUVER_DONE = 0.

(** The two modes the switch timer serves. *)
Definition timed_mode (m : OperationMode) : Prop :=
  m = VS_CALIBRATION \/ m = VS_MANEUVER.

(** What [answer] makes of a request. *)
Definition answers (t : Task) (cmd r : VehicleCommand) : Prop :=
  vc_source r = system_id t
  /\ vc_destination r = vc_source cmd
  /\ vc_destination_entity r = vc_source_entity cmd
  /\ vc_command r = vc_command cmd
  /\ vc_request_id r = vc_request_id cmd
  /\ (vc_type r = VC_SUCCESS \/ vc_type r = VC_FAILURE).

(** The input is a request with the given command. *)
Definition is_request (command : Z) (ev : Event) : Prop :=
  exists cmd, ev = EvVehicleCommand cmd
    /\ vc_type cmd = VC_REQUEST /\ vc_command cmd = command.

(** The input is a [ControlLoops] that enables loops. *)
Definition is_loops_enable (ev : Event) : Prop :=
  exists msg, ev = EvControlLoops msg /\ cl_enable msg = CL_ENABLE.

(** An entity error does not interrupt: the calibration, and a maneuver
    or external control with teleoperation or non-overridable loops. *)
Definition error_exempt (t : Task) : bool :=
  calibrationMode t
  || ((externalMode t || maneuverMode t)
      && (nonOverridableLoops t || teleoperationOn t)).

(** The scope references of a sequence of messages never decrease,
    starting from [last]. *)
Fixpoint rising_scope (last : Z) (msgs : list ControlLoops) : Prop :=
  match msgs with
  | [] => True
  | m :: later => last <= cl_scope_ref m /\ rising_scope (cl_scope_ref m) later
  end.

(** Example inputs. *)
Definition done_message : ManeuverControlState :=
  mkManeuverControlState 1 (2%Q) MCS_DONE 0 "done".

Definition rising_messages : list (Q * ControlLoops) :=
  [ (1%Q, mkControlLoops CL_ENABLE (Z.lor CL_PATH CL_DEPTH) 5);
    (2%Q, mkControlLoops CL_ENABLE CL_SPEED 5);
    (3%Q, mkControlLoops CL_DISABLE CL_DEPTH 7) ].

End SupervisorFacts.

Module TrackerFacts.
Import IMC Control BottomTracker ControlClaims.

#[local] Open Scope handler_scope.

(** The transitions of the state machine, as the five state functions
    write [m_mstate]. *)
Definition allowed (a b : MachineState) : bool :=
  match a, b with
  | SM_IDLE, (SM_IDLE | SM_TRACKING) => true
  | SM_TRACKING, _ => true
  | SM_DEPTH, (SM_DEPTH | SM_TRACKING | SM_IDLE | SM_AVOIDING) => true
  | SM_UNSAFE, (SM_UNSAFE | SM_TRACKING | SM_AVOIDING) => true
  | SM_AVOIDING, (SM_AVOIDING | SM_TRACKING) => true
  | _, _ => false
  end.

(** The [Brake] operations among dispatched messages, oldest first. *)
Definition brake_ops (out : list Out) : list BrakeOp :=
  flat_map (fun m => match brake_op m with Some op => [op] | None => [] end) out.

(** The [Brake] operations that go with a change of state: a START on
    entering AVOIDING, a STOP on leaving it. *)
Definition brakes_of_transition (a b : MachineState) : list BrakeOp :=
  match a, b with
  | SM_AVOIDING, SM_AVOIDING => []
  | _, SM_AVOIDING => [OP_START]
  | SM_AVOIDING, _ => [OP_STOP]
  | _, _ => []
  end.

(** A call of the tracker by the controller that owns it. *)
Inductive TrackerCall : Type :=
| TcActivate (now : Q)
| TcDeactivate
| TcDistance (msg : Distance)
| TcDesiredZ (msg : DesiredZ) (outgoing : bool)
| TcDesiredSpeed (msg : DesiredSpeed)
| TcEstimatedState (now : Q) (msg : EstimatedState).

Section Facts.
Context {SD : Type} {sdo : SlopeDataOps SD} {math : MathLib}.

Definition perform (c : TrackerCall) : Trk unit :=
  match c with
  | TcActivate now => activate now
  | TcDeactivate => deactivate
  | TcDistance msg => onDistance msg ;; ret tt
  | TcDesiredZ msg outgoing => onDesiredZ msg outgoing
  | TcDesiredSpeed msg => onDesiredSpeed msg
  | TcEstimatedState now msg => onEstimatedState now msg ;; ret tt
  end.

Definition performed (t : Tracker SD) (cs : list TrackerCall) : Tracker SD :=
  fold_left (fun t c => state_of (perform c t)) cs t.

(** What the tracker dispatches of its own in the state [t]: brakes and
    references that carry its entity, the reference being the stored
    one, the depth limit, or a depth that is not negative. *)
Definition own_message (t : Tracker SD) (m : Out) : Prop :=
  match m with
  | OutBrake src _ => src = SrcBottomTrack
  | OutDesiredZ src z =>
      src = SrcBottomTrack
      /\ (z = m_z_ref t
          \/ (dz_units z = Z_DEPTH
              /\ (dz_value z = depth_limit (m_args t) \/ (0 <= dz_value z)%Q)))
  | OutControlParcel => True
  | _ => False
  end.

(** The call gives the tracker no positive speed reference. *)
Definition no_speed (c : TrackerCall) : Prop :=
  match c with
  | TcDesiredSpeed msg => (ds_value msg <= 0)%Q
  | _ => True
  end.

End Facts.

(** The states in which a reference of the owner goes on to the bus. *)
Definition lets_references_pass (ms : MachineState) : bool :=
  match ms with
  | SM_IDLE | SM_TRACKING => true
  | _ => false
  end.

(** At the surface, with no altitude measured. *)
Definition estate_surface : EstimatedState :=
  mkEstimatedState 0 0 0 0 0 0 0 0 0 0 0 0 0 (- (1)).

(** An activation, references for altitude and speed, and a pass below
    the minimum altitude: the tracker brakes. *)
Definition calls_into_avoiding : list TrackerCall :=
  [ TcActivate 1;
    TcDesiredZ (mkDesiredZ 3 Z_ALTITUDE) false;
    TcDesiredSpeed (mkDesiredSpeed 1 0);
    TcEstimatedState 4 estate_high;
    TcEstimatedState 5 estate_low ].

(** An activation, an altitude reference and a pass below the minimum
    altitude, with no speed reference. *)
Definition calls_without_speed : list TrackerCall :=
  [ TcActivate 1;
    TcDesiredZ (mkDesiredZ 3 Z_ALTITUDE) false;
    TcEstimatedState 4 estate_low ].

End TrackerFacts.

(** * What a computation ends in, keeps and emits *)
Module Outcomes.

(** The state the computation [c] leaves, started in [s], satisfies [Q]. *)
Definition ends_in {S O A : Type} (Q : S -> Prop) (c : M S O A) (s : S)
  : Prop :=
  Q (state_of (c s)).

(** A property of the state that, once it holds, holds afterwards. *)
Definition keeps {S O : Type} (Q : S -> Prop) (s s' : S) (o : list O) : Prop :=
  Q s -> Q s'.

(** The messages of the kinds [kind] selects that [c] dispatches, started
    in [s], oldest first. *)
Definition emits {S O A K : Type} (kind : O -> list K) (c : M S O A) (s : S)
  (l : list K) : Prop :=
  flat_map kind (output_of (c s)) = l.

End Outcomes.

Module ControllerFacts.
Import IMC Control PathController ControlClaims.

(** The operations of the [Brake] messages the controller dispatches
    with its own entity, oldest first. *)
Definition brake_ops_of_task (out : list Out) : list BrakeOp :=
  flat_map (fun m => match m with
                     | OutBrake SrcTask op => [op]
                     | _ => []
                     end) out.

Section Facts.
Context {SD : Type} {sdo : BottomTracker.SlopeDataOps SD}.
Context {math : MathLib} {hooks : ControllerHooks}.

(** Neither the controller nor its bottom tracker is active. *)
Definition dormant (s : Controller SD) : Prop :=
  m_active s = false /\ BottomTracker.m_active (m_btrack s) = false.

(** The event is a ControlLoops that switches path control on. *)
Definition switches_on (e : Q * Event) : bool :=
  match snd e with
  | EvControlLoops enable mask =>
      negb (Z.land mask CL_PATH =? 0) && (enable =? CL_ENABLE)
  | _ => false
  end.

(** The messages that announce a new track: the speed reference, the
    PathControlState and the call of [onPathStartup]. *)
Inductive Announcement : Type := AnnSpeed | AnnState | AnnStartup.

Definition announcement (m : Out) : list Announcement :=
  match m with
  | OutDesiredSpeed _ => [AnnSpeed]
  | OutPathControlState _ => [AnnState]
  | CallOnPathStartup _ _ => [AnnStartup]
  | _ => []
  end.

(** The only message of a controller that is not active: the [Brake]
    STOP that goes with an exception of the slope data. *)
Definition is_brake_release (m : Out) : Prop := m = OutBrake SrcTask OP_STOP.

End Facts.

(** Example inputs: an active controller in error, and what a controller
    that is not active may be given. *)
Definition controller_in_error : Controller unit :=
  set_error true (set_active true controller0).

Definition events_while_dormant : list (Q * Event) :=
  [ (1%Q, EvDesiredPath plain_path);
    (2%Q, EvEstimatedState estate_high);
    (3%Q, EvDesiredZ (mkDesiredZ 3 Z_ALTITUDE));
    (4%Q, EvControlLoops CL_ENABLE CL_SPEED);
    (5%Q, EvBrake OP_START) ].

End ControllerFacts.

(** * Maneuver tasks ([DUNE::Maneuvers::Maneuver], [Maneuver::Loiter::Task])

    The base class of the maneuver tasks, which sets the control loops a
    maneuver needs and reports its progress to the supervisor, and the
    Loiter maneuver, which hands the path controller its track. *)
Module Maneuvers.
Import IMC Control.

#[local] Open Scope handler_scope.

(** Modelled from the spec: the IMC definitions are not among the
    sources.  [CL_ALL] is the mask of every control loop (section 6,
    ControlLoops): all the bits of the 32-bit mask. *)
Definition CL_ALL : Z := uint32_mask.

(** What a maneuver task hands to [dispatch]. *)
Inductive Msg : Type :=
| OutControlLoops (enable mask : Z)
| OutManeuverControlState (state : Z) (eta : option Z) (info : string)
| OutDesiredPath (dpath : DesiredPath).

(** The members of [Maneuver] the functions below read or write:
    the flag [isActive] reads, the fields of [m_mcs] the task sets, and
    the static [s_amask]. *)
Record Maneuver : Type := mkManeuver {
  is_active : bool;
  m_mcs_state : Z;
  m_mcs_eta : option Z;
  m_mcs_info : string;
  s_amask : Z
}.

Definition Man (A : Type) : Type := M Maneuver Msg A.

Definition set_is_active (x : bool) (m : Maneuver) : Maneuver :=
  mkManeuver x (m_mcs_state m) (m_mcs_eta m) (m_mcs_info m) (s_amask m).

Definition set_mcs (state : Z) (eta : option Z) (info : string) (m : Maneuver)
  : Maneuver :=
  mkManeuver (is_active m) state eta info (s_amask m).

Definition set_amask (x : Z) (m : Maneuver) : Maneuver :=
  mkManeuver (is_active m) (m_mcs_state m) (m_mcs_eta m) (m_mcs_info m) x.

(** [updateLoops]: the lock is taken in a loop until it is granted. *)
Definition updateLoops (enable mask : Z) : Man unit :=
  m <- get ;;
  if enable =? CL_ENABLE then modify (set_amask (Z.lor (s_amask m) mask))
  else modify (set_amask (Z.land (s_amask m) (not32 mask))).

Definition setControl (mask : Z) : Man unit :=
  m <- get ;;
  if mask =? s_amask m then ret tt
  else
    dispatch (OutControlLoops CL_DISABLE CL_ALL) ;;
    updateLoops CL_DISABLE CL_ALL ;;
    when (negb (mask =? 0))
      (dispatch (OutControlLoops CL_ENABLE mask) ;;
       updateLoops CL_ENABLE mask).

(** Modelled from the spec: [Task::activate] and [Task::deactivate] are
    not among the sources; they set and clear the flag [isActive] reads
    (section 4.6: a StopManeuver deactivates the task if active). *)
Definition activate : Man unit := modify (set_is_active true).

(** Modelled from the spec: [Task::deactivate], see [activate]. *)
Definition deactivate : Man unit := modify (set_is_active false).

Definition consume_StopManeuver : Man unit :=
  m <- get ;;
  when (is_active m) deactivate.

Definition signalError (msg : string) : Man unit :=
  deactivate ;;
  modify (set_mcs MCS_ERROR (Some 0) msg) ;;
  dispatch (OutManeuverControlState MCS_ERROR (Some 0) msg).

Definition signalCompletion (msg : string) : Man unit :=
  deactivate ;;
  modify (set_mcs MCS_DONE (Some 0) msg) ;;
  dispatch (OutManeuverControlState MCS_DONE (Some 0) msg).

(** [signalProgress]; [time_left] is [None] when the conversion to
    [uint16_t] at the call was given a value outside the type. *)
Definition signalProgress (time_left : option Z) (msg : string) : Man unit :=
  modify (set_mcs MCS_EXECUTING time_left msg) ;;
  dispatch (OutManeuverControlState MCS_EXECUTING time_left msg).

(** ** The Loiter maneuver *)

(** Modelled from the spec: the IMC message [Loiter] is not among the
    sources (section 8, S1: a Loiter with position, radius, speed and
    direction); these are the fields the task reads. *)
Inductive LoiterDirection : Type :=
| LD_VDEP | LD_CLOCKW | LD_CCLOCKW | LD_IWINDCURR.

(** Modelled from the spec: the IMC message [Loiter], see
    [LoiterDirection]. *)
Record Loiter : Type := mkLoiter {
  lm_lat : Q;
  lm_lon : Q;
  lm_z : Q;
  lm_z_units : ZUnits;
  lm_radius : Q;
  lm_duration : Z;
  lm_speed : Q;
  lm_speed_units : Z;
  lm_direction : LoiterDirection
}.

Record LoiterTask : Type := mkLoiterTask {
  base : Maneuver;
  m_path : DesiredPath;
  m_end_time : Q;
  m_duration : Z
}.

Definition Loi (A : Type) : Type := M LoiterTask Msg A.

Definition set_base (x : Maneuver) (t : LoiterTask) : LoiterTask :=
  mkLoiterTask x (m_path t) (m_end_time t) (m_duration t).

Definition set_path (x : DesiredPath) (t : LoiterTask) : LoiterTask :=
  mkLoiterTask (base t) x (m_end_time t) (m_duration t).

Definition set_end_time (x : Q) (t : LoiterTask) : LoiterTask :=
  mkLoiterTask (base t) (m_path t) x (m_duration t).

Definition set_duration (x : Z) (t : LoiterTask) : LoiterTask :=
  mkLoiterTask (base t) (m_path t) (m_end_time t) x.

(** A call of a member function of the base class. *)
Definition in_base {A : Type} (c : Man A) : Loi A :=
  fun t =>
    let '(a, m, o) := c (base t) in
    (a, set_base m t, o).

Section LoiterTask.
Context {math : MathLib}.

(** [consume] of a [Loiter]: the assignments to [m_path]. *)
Definition loiter_path (maneuver : Loiter) (p : DesiredPath) : DesiredPath :=
  mkDesiredPath (dp_start_lat p) (dp_start_lon p) (dp_start_z p)
    (dp_start_z_units p)
    (lm_lat maneuver) (lm_lon maneuver) (lm_z maneuver) (lm_z_units maneuver)
    (lm_speed maneuver) (lm_speed_units maneuver) (lm_radius maneuver)
    (match lm_direction maneuver with LD_CCLOCKW => FL_CCLOCKW | _ => 0 end).

Definition consume_Loiter (maneuver : Loiter) : Loi unit :=
  in_base (setControl CL_PATH) ;;
  if Qlt_bool (lm_radius maneuver) 0 then
    in_base (signalError "invalid loiter radius")
  else
    modify (fun t => set_path (loiter_path maneuver (m_path t)) t) ;;
    t <- get ;;
    dispatch (OutDesiredPath (m_path t)) ;;
    modify (set_duration (lm_duration maneuver)) ;;
    modify (set_end_time (- (1))%Q).

(** [startManeuver]: the lock among the maneuver tasks is left out. *)
Definition startManeuver (maneuver : Loiter) : Loi unit :=
  in_base (signalProgress (Some 65535) "in progress") ;;
  consume_Loiter maneuver ;;
  t <- get ;;
  when (m_mcs_state (base t) =? MCS_EXECUTING) (in_base activate).

(** [consume] of a [PathControlState], of which it reads [flags] and
    [eta]; bound through [consumeIfActive].  [now] is the clock. *)
Definition consume_PathControlState (now : Q) (flags eta : Z) : Loi unit :=
  t <- get ;;
  if negb (is_active (base t)) then ret tt
  else if negb (Z.land flags PFL_LOITERING =? 0) then
    when (negb (m_duration t =? 0))
      (if Qlt_bool (m_end_time t) 0 then
         modify (set_end_time (now + inject_Z (m_duration t))%Q)
       else if Qle_bool (m_end_time t) now then
         in_base (signalCompletion "done")
       else
         in_base (signalProgress
                    (to_uint16 (Math_round (m_end_time t - now))) ""))
  else if 0 <? m_duration t then
    in_base (signalProgress (Some ((eta + m_duration t) mod 65536)) "")
  else
    in_base (signalProgress (Some 65535) "").

End LoiterTask.

(** The ControlLoops messages among dispatched messages, as the events
    the path controller consumes at the time [now]. *)
Definition loops_for_controller (now : Q) (out : list Msg)
  : list (Q * PathController.Event) :=
  flat_map (fun m => match m with
                     | OutControlLoops enable mask =>
                         [(now, PathController.EvControlLoops enable mask)]
                     | _ => []
                     end) out.

(** The DesiredPath messages among dispatched messages. *)
Definition paths (out : list Msg) : list DesiredPath :=
  flat_map (fun m => match m with OutDesiredPath p => [p] | _ => [] end) out.

(** Example inputs: a maneuver task at rest with no loops requested, a
    Loiter task around it that is active with a duration of 10 s, and a
    Loiter of radius 50 m. *)
Definition maneuver0 : Maneuver := mkManeuver false MCS_DONE (Some 0) "" 0.

Definition loiter_task0 : LoiterTask :=
  mkLoiterTask maneuver0 (mkDesiredPath 0 0 0 Z_NONE 0 0 0 Z_NONE 0 0 0 0) 0 0.

Definition loiter_50m : Loiter :=
  mkLoiter (7188 # 10000) (- (152 # 1000)) 2 Z_DEPTH 50 10 1 0 LD_CLOCKW.

Definition loiter_task_active : LoiterTask :=
  mkLoiterTask (mkManeuver true MCS_EXECUTING (Some 65535) "" CL_PATH)
    (mkDesiredPath 0 0 0 Z_NONE 0 0 0 Z_NONE 0 0 0 0) (- (1)) 10.

End Maneuvers.

(** * Proofs: the vehicle supervisor *)
Module SupervisorProofs.
Import IMC Supervisor SupervisorClaims.

(** Unfolding of the handlers down to tests on the fields of the state. *)
Ltac unfold_sup :=
  cbv [step emitted handle state_of output_of mode replies
       consume_Abort consume_ControlLoops consume_EntityMonitoringState
       consume_ManeuverControlState consume_PlanControl consume_VehicleCommand
       task startManeuver stopManeuver startCalibration stopCalibration
       requestOK requestFailed answer
       onEnabledControlLoops onDisabledControlLoops
       changeMode reset bind ret get modify dispatch when
       upd_vs set_vs set_op_mode set_maneuver set_maneuver_eta set_flags
       set_last_error set_control_loops set_error_count set_error_ents
       clear_done set_switch_time set_in_safe_plan set_calibration_duration
       set_scope_ref
       serviceMode maneuverMode errorMode externalMode calibrationMode modeIs
       OperationMode_eqb
       m_vs op_mode m_switch_time m_in_safe_plan m_calibration_duration
       m_scope_ref safe_ents system_id
       maneuver_type maneuver_stime maneuver_eta flags last_error
       last_error_time control_loops error_count error_ents
       vc_type vc_command vc_request_id vc_maneuver vc_info vc_calib_time
       vc_source vc_source_entity
       VC_REQUEST VC_SUCCESS VC_FAILURE VC_EXEC_MANEUVER VC_STOP_MANEUVER
       VC_START_CALIBRATION VC_STOP_CALIBRATION CL_ENABLE CL_DISABLE
       MCS_EXECUTING MCS_DONE MCS_ERROR PC_REQUEST PC_START
       fst snd app flat_map];
  cbn [Z.eqb Pos.eqb negb andb orb].

Ltac split_tests :=
  repeat match goal with
  | |- context [if ?b then _ else _] => destruct b eqn:?
  | |- context [match ?x with Some _ => _ | None => _ end] => destruct x eqn:?
  end.

Ltac open_task t :=
  destruct t as [sw sp cd [om mt ms me fl le lt cl ec ee] sr se si].

(** ** The scenarios of the specification *)

(** S1: a request to execute a Loiter in SERVICE stops any maneuver,
    publishes the maneuver, enters MANEUVER and replies SUCCESS. *)
Example scenario_maneuver_start :
  emitted task0
    (5%Q, EvVehicleCommand (request VC_EXEC_MANEUVER (Some loiter_maneuver)))
  = [ OutStopManeuver;
      OutManeuver loiter_maneuver 5;
      OutVehicleState
        (mkVehicleState VS_MANEUVER 453 5 65535 0 "" (- (1)) 0 0 "");
      OutVehicleCommand
        (mkVehicleCommand 1 0 7 8 VC_SUCCESS VC_EXEC_MANEUVER 42 None 0
           "Loiter maneuver started") ].
Proof. reflexivity. Qed.

(** S5: an entity error in MANEUVER stops and idles the maneuver and
    enters ERROR; the error count back at zero gives SERVICE. *)
Example scenario_entity_error :
  emitted task_in_maneuver (2%Q, EvEntityMonitoringState imu_error)
  = [ OutStopManeuver;
      OutIdleManeuver 0;
      OutVehicleState
        (mkVehicleState VS_ERROR 65535 (- (1)) 65535 0 "IMU failure" 3 0 1 "IMU") ]
  /\ mode (run task_in_maneuver
             [ (2%Q, EvEntityMonitoringState imu_error);
               (3%Q, EvEntityMonitoringState
                       (mkEntityMonitoringState 0 "" 0 "" "" 0)) ])
     = VS_SERVICE.
Proof. split; reflexivity. Qed.

(** S6: teleoperation loops enabled in ERROR give EXTERNAL. *)
Example scenario_override_in_error :
  mode (step task_in_error
          (2%Q, EvControlLoops (mkControlLoops CL_ENABLE CL_TELEOPERATION 0)))
  = VS_EXTERNAL.
Proof. reflexivity. Qed.

(** ** Replies to requests *)

(** A request with one of the four commands of the catalogue gets exactly
    one reply, with the identifier of the request, of type SUCCESS or
    FAILURE. *)
Lemma known_command_one_reply (t : Task) (now : Q) (cmd : VehicleCommand) :
  vc_type cmd = VC_REQUEST ->
  0 <= vc_command cmd <= 3 ->
  exists r,
    replies (emitted t (now, EvVehicleCommand cmd)) = [r]
    /\ vc_request_id r = vc_request_id cmd
    /\ (vc_type r = VC_SUCCESS \/ vc_type r = VC_FAILURE).
Proof.
  intros Hty Hcmd.
  destruct cmd as [src sent dst dent ty c rid man ct info].
  cbn [vc_type vc_command] in Hty, Hcmd. subst ty.
  assert (Hc : c = 0 \/ c = 1 \/ c = 2 \/ c = 3) by lia.
  open_task t.
  destruct Hc as [-> | [-> | [-> | ->]]]; destruct om, man;
    unfold_sup; split_tests; unfold_sup;
    eexists; (split; [reflexivity |]); cbn; auto.
Qed.

(** C1 (the code departs from the claim).  A request whose command is
    none of the four the handler switches on, here 4, is consumed without
    any reply being published, whatever the state of the supervisor. *)
Theorem C1_unknown_command_no_reply :
  forall (t : Task) (now : Q),
    replies (emitted t (now, EvVehicleCommand (request 4 None))) = [].
Proof.
  intros t now. reflexivity.
Qed.

(** The index read from [c_cmd_desc] is one of the array exactly for the
    four commands of the catalogue. *)
Lemma cmd_desc_in_bounds (command : Z) :
  cmd_desc command <> None <-> 0 <= command <= 3.
Proof.
  unfold cmd_desc. destruct (Z.ltb_spec command 0) as [Hneg | Hpos].
  - split; [congruence | lia].
  - rewrite nth_error_Some. cbn [c_cmd_desc List.length]. lia.
Qed.

(** C10 (the code departs from the claim).  For a request with command 4
    the handler reads [c_cmd_desc] (the result is [Some _]: the read takes
    place) at an index outside the array (the entry read is [None]). *)
Theorem C10_command_index_out_of_bounds :
  forall (t : Task) (now : Q),
    fst (fst (consume_VehicleCommand now (request 4 None) t)) = Some None.
Proof.
  intros t now. reflexivity.
Qed.

(** In EXTERNAL mode, a request to execute a maneuver or to calibrate is
    refused: one reply of type FAILURE, and the task is left as it was. *)
Lemma external_mode_refusals (t : Task) (now : Q) (cmd : VehicleCommand) :
  vc_type cmd = VC_REQUEST ->
  mode t = VS_EXTERNAL ->
  (vc_command cmd = VC_EXEC_MANEUVER \/ vc_command cmd = VC_START_CALIBRATION) ->
  step t (now, EvVehicleCommand cmd) = t
  /\ exists r,
       replies (emitted t (now, EvVehicleCommand cmd)) = [r]
       /\ vc_type r = VC_FAILURE.
Proof.
  intros Hty Hmode Hcmd.
  destruct cmd as [src sent dst dent ty c rid man ct info].
  cbn [vc_type vc_command] in Hty, Hcmd. subst ty.
  open_task t. cbv [mode m_vs op_mode] in Hmode. subst om.
  destruct Hcmd as [-> | ->]; destruct man; unfold_sup;
    (split; [reflexivity | eexists; split; reflexivity]).
Qed.

(** C9 (the code departs from the claim).  A request to stop the
    calibration consumed while the supervisor is not calibrating leaves
    the mode as it is, but the one reply published has type SUCCESS, with
    the text of a refusal. *)
Theorem C9_stop_calibration_refusal_is_success :
  forall (t : Task) (now : Q) (cmd : VehicleCommand),
    vc_type cmd = VC_REQUEST ->
    vc_command cmd = VC_STOP_CALIBRATION ->
    mode t <> VS_CALIBRATION ->
    step t (now, EvVehicleCommand cmd) = t
    /\ exists r,
         replies (emitted t (now, EvVehicleCommand cmd)) = [r]
         /\ vc_type r = VC_SUCCESS
         /\ vc_info r = "cannot stop calibration: vehicle is not calibrating".
Proof.
  intros t now cmd Hty Hcmd Hmode.
  destruct cmd as [src sent dst dent ty c rid man ct info].
  cbn [vc_type vc_command] in Hty, Hcmd. subst ty c.
  open_task t. cbv [mode m_vs op_mode] in Hmode.
  destruct om; try congruence; unfold_sup;
    (split; [reflexivity | eexists; repeat split; reflexivity]).
Qed.

Lemma C9_stop_calibration_in_service :
  step task0 (2%Q, EvVehicleCommand (request VC_STOP_CALIBRATION None)) = task0
  /\ exists r,
       replies (emitted task0
                  (2%Q, EvVehicleCommand (request VC_STOP_CALIBRATION None))) = [r]
       /\ vc_type r = VC_SUCCESS
       /\ vc_info r = "cannot stop calibration: vehicle is not calibrating".
Proof.
  apply (C9_stop_calibration_refusal_is_success task0 2%Q
           (request VC_STOP_CALIBRATION None)).
  - reflexivity.
  - reflexivity.
  - cbv. discriminate.
Defined.

(** ** Leaving ERROR *)

Lemma task_in_error_reachable : reachable task_in_error.
Proof.
  exists [], 1, [(1%Q, EvEntityMonitoringState imu_error)]. reflexivity.
Qed.

(** C2, as stated, fails.  The supervisor put in ERROR by a report of one
    entity in error accepts a request to execute a maneuver: the mode
    becomes MANEUVER while the error count is still 1. *)
Lemma C2_error_left_by_exec_maneuver : ~ error_exit_claim.
Proof.
  intros claim.
  specialize (claim task_in_error
    (2%Q, EvVehicleCommand (request VC_EXEC_MANEUVER (Some loiter_maneuver)))
    task_in_error_reachable eq_refl).
  destruct claim as [[Hmode _] | [Hmode _]].
  - cbv. discriminate.
  - cbv in Hmode. discriminate.
  - cbv in Hmode. discriminate.
Qed.

(** C2, amended.  From a state in ERROR, one handler invocation leaves
    the mode ERROR, or changes it to SERVICE (an EntityMonitoringState
    that brings the error count to zero), to EXTERNAL (a ControlLoops that
    enables non-overridable loops), to MANEUVER (a request to execute a
    maneuver that carries one) or to CALIBRATION (a request to start the
    calibration). *)
Theorem C2_error_exits :
  forall (t : Task) (e : Q * Event),
    mode t = VS_ERROR ->
    mode (step t e) = VS_ERROR
    \/ (mode (step t e) = VS_SERVICE
        /\ error_count (m_vs (step t e)) = 0
        /\ exists msg, snd e = EvEntityMonitoringState msg)
    \/ (mode (step t e) = VS_EXTERNAL
        /\ nonOverridableLoops (step t e) = true
        /\ exists msg, snd e = EvControlLoops msg /\ cl_enable msg = CL_ENABLE)
    \/ (mode (step t e) = VS_MANEUVER
        /\ exists cmd m, snd e = EvVehicleCommand cmd
             /\ vc_type cmd = VC_REQUEST
             /\ vc_command cmd = VC_EXEC_MANEUVER
             /\ vc_maneuver cmd = Some m)
    \/ (mode (step t e) = VS_CALIBRATION
        /\ exists cmd, snd e = EvVehicleCommand cmd
             /\ vc_type cmd = VC_REQUEST
             /\ vc_command cmd = VC_START_CALIBRATION).
Proof.
  intros t [now ev] Hmode.
  open_task t. cbv [mode m_vs op_mode] in Hmode. subst om.
  destruct ev as [ | msg | msg | msg | msg | cmd | ].
  - left. reflexivity.
  - (* ControlLoops *)
    destruct msg as [en mask scope].
    unfold_sup. cbv [cl_enable cl_mask cl_scope_ref].
    repeat (split_tests; unfold_sup); try (left; reflexivity).
    right. right. left.
    cbv [nonOverridableLoops m_vs control_loops] in *.
    repeat split; [assumption |].
    eexists. split; [reflexivity | apply Z.eqb_eq; assumption].
  - (* EntityMonitoringState *)
    destruct msg as [cc cn ecn en le' lt'].
    unfold_sup.
    cbv [ems_ccount ems_ecount ems_cnames ems_enames ems_last_error
         ems_last_error_time].
    repeat (split_tests; unfold_sup);
      first [ left; reflexivity
            | right; left; repeat split;
              [ apply Z.eqb_eq; assumption | eexists; reflexivity ] ].
  - left. destruct msg. unfold_sup.
    repeat (split_tests; unfold_sup); reflexivity.
  - left. destruct msg. unfold_sup.
    repeat (split_tests; unfold_sup); reflexivity.
  - (* VehicleCommand *)
    destruct cmd as [src sent dst dent ty c rid man ct info].
    unfold_sup.
    destruct (Z.eqb_spec ty 0) as [-> | Hty]; [| left; reflexivity].
    destruct (Z.eqb_spec c 0) as [-> | Hc0].
    { destruct man as [m |]; [| left; reflexivity].
      right. right. right. left. split; [reflexivity |].
      exists (mkVehicleCommand src sent dst dent 0 0 rid (Some m) ct info), m.
      repeat split. }
    destruct (Z.eqb_spec c 1) as [-> | Hc1]; [left; reflexivity |].
    destruct (Z.eqb_spec c 2) as [-> | Hc2].
    { right. right. right. right. split; [reflexivity |].
      eexists. repeat split. }
    destruct (Z.eqb_spec c 3) as [-> | Hc3]; left; reflexivity.
  - left. unfold_sup. repeat (split_tests; unfold_sup); reflexivity.
Qed.

Lemma C2_error_exits_witness :
  mode (step task_in_error
          (2%Q, EvVehicleCommand (request VC_EXEC_MANEUVER (Some loiter_maneuver))))
  = VS_MANEUVER.
Proof.
  destruct (C2_error_exits task_in_error
              (2%Q, EvVehicleCommand
                      (request VC_EXEC_MANEUVER (Some loiter_maneuver)))
              eq_refl)
    as [H | [[H _] | [[H _] | [[H _] | [H _]]]]];
    first [exact H | cbv in H; discriminate].
Defined.

(** ** MANEUVER and CALIBRATION *)

Lemma task_in_maneuver_reachable : reachable task_in_maneuver.
Proof.
  exists [], 1,
    [(1%Q, EvVehicleCommand (request VC_EXEC_MANEUVER (Some loiter_maneuver)))].
  reflexivity.
Qed.

(** C3, as stated, fails.  The supervisor in MANEUVER that consumes a
    request to start the calibration is in CALIBRATION right after, with
    no stay in SERVICE or ERROR. *)
Lemma C3_maneuver_to_calibration : ~ no_direct_switch_claim.
Proof.
  intros claim.
  destruct (claim task_in_maneuver
              (2%Q, EvVehicleCommand (request VC_START_CALIBRATION None))
              task_in_maneuver_reachable) as [Hmc _].
  apply Hmc. split; reflexivity.
Qed.

(** C3, amended.  The mode changes from MANEUVER to CALIBRATION in one
    invocation exactly when the input is a request to start the
    calibration, and from CALIBRATION to MANEUVER exactly when it is a
    request to execute a maneuver that carries one; no other input takes
    the supervisor from one of the two modes to the other. *)
Theorem C3_direct_switch_only_by_request :
  forall (t : Task) (e : Q * Event),
    (mode t = VS_MANEUVER ->
       (mode (step t e) = VS_CALIBRATION
        <-> exists cmd, snd e = EvVehicleCommand cmd
              /\ vc_type cmd = VC_REQUEST
              /\ vc_command cmd = VC_START_CALIBRATION))
    /\ (mode t = VS_CALIBRATION ->
       (mode (step t e) = VS_MANEUVER
        <-> exists cmd m, snd e = EvVehicleCommand cmd
              /\ vc_type cmd = VC_REQUEST
              /\ vc_command cmd = VC_EXEC_MANEUVER
              /\ vc_maneuver cmd = Some m)).
Proof.
  intros t [now ev]. open_task t. cbv [mode m_vs op_mode].
  split; intros ->; cbn [snd]; (split; [intros Hstep | intros Hev]).
  - destruct ev as [ | msg | msg | msg | msg | cmd | ].
    6: { destruct cmd as [src sent dst dent ty c rid man ct info].
         revert Hstep. unfold_sup.
         destruct (Z.eqb_spec ty 0) as [-> | Hty]; [| discriminate].
         destruct (Z.eqb_spec c 0) as [-> | Hc0];
           [destruct man; discriminate |].
         destruct (Z.eqb_spec c 1) as [-> | Hc1].
         { split_tests; discriminate. }
         destruct (Z.eqb_spec c 2) as [-> | Hc2].
         { intros _. eexists. repeat split. }
         destruct (Z.eqb_spec c 3) as [-> | Hc3]; discriminate. }
    all: try destruct msg; revert Hstep; unfold_sup; split_tests;
      unfold_sup; split_tests; discriminate.
  - destruct Hev as [cmd [-> [Hty Hcmd]]].
    destruct cmd as [src sent dst dent ty c rid man ct info].
    cbn [vc_type vc_command] in Hty, Hcmd. subst ty c.
    unfold_sup. reflexivity.
  - destruct ev as [ | msg | msg | msg | msg | cmd | ].
    6: { destruct cmd as [src sent dst dent ty c rid man ct info].
         revert Hstep. unfold_sup.
         destruct (Z.eqb_spec ty 0) as [-> | Hty]; [| discriminate].
         destruct (Z.eqb_spec c 0) as [-> | Hc0].
         { destruct man as [m |]; [| discriminate].
           intros _. eexists. exists m. repeat split. }
         destruct (Z.eqb_spec c 1) as [-> | Hc1].
         { split_tests; discriminate. }
         destruct (Z.eqb_spec c 2) as [-> | Hc2]; [discriminate |].
         destruct (Z.eqb_spec c 3) as [-> | Hc3];
           split_tests; discriminate. }
    all: try destruct msg; revert Hstep; unfold_sup; split_tests;
      unfold_sup; split_tests; discriminate.
  - destruct Hev as [cmd [m [-> [Hty [Hcmd Hman]]]]].
    destruct cmd as [src sent dst dent ty c rid man ct info].
    cbn [vc_type vc_command vc_maneuver] in Hty, Hcmd, Hman. subst ty c man.
    unfold_sup. reflexivity.
Qed.

Lemma C3_direct_switch_witness :
  mode (step task_in_maneuver
          (2%Q, EvVehicleCommand (request VC_START_CALIBRATION None)))
  = VS_CALIBRATION.
Proof.
  apply (proj1 (C3_direct_switch_only_by_request task_in_maneuver
                  (2%Q, EvVehicleCommand (request VC_START_CALIBRATION None)))
               eq_refl).
  exists (request VC_START_CALIBRATION None). repeat split.
Defined.

(** ** The control-loop mask *)

Lemma uint32_bits (x : Z) :
  is_uint32 x <-> 0 <= x /\ forall k, 32 <= k -> Z.testbit x k = false.
Proof.
  unfold is_uint32. split.
  - intros [Hlo Hhi]. split; [assumption |]. intros k Hk.
    destruct (Z.eq_dec x 0) as [-> | Hx]; [apply Z.bits_0 |].
    apply Z.bits_above_log2; [assumption |].
    assert (Z.log2 x < 32) by (apply Z.log2_lt_pow2; lia). lia.
  - intros [Hlo Hbits]. split; [assumption |].
    destruct (Z.eq_dec x 0) as [-> | Hx]; [lia |].
    change 4294967296 with (2 ^ 32). apply Z.log2_lt_pow2; [lia |].
    destruct (Z.lt_ge_cases (Z.log2 x) 32) as [Hlt | Hge]; [assumption |].
    assert (Hbit : Z.testbit x (Z.log2 x) = true) by (apply Z.bit_log2; lia).
    rewrite (Hbits _ Hge) in Hbit. discriminate.
Qed.

Lemma uint32_lor (a b : Z) : is_uint32 a -> is_uint32 b -> is_uint32 (Z.lor a b).
Proof.
  rewrite !uint32_bits. intros [Ha Hab] [Hb Hbb]. split.
  - apply Z.lor_nonneg. split; assumption.
  - intros k Hk. rewrite Z.lor_spec, Hab, Hbb by assumption. reflexivity.
Qed.

Lemma uint32_ldiff (a b : Z) : is_uint32 a -> is_uint32 (Z.ldiff a b).
Proof.
  rewrite !uint32_bits. intros [Ha Hab]. split.
  - apply Z.ldiff_nonneg. left. assumption.
  - intros k Hk. rewrite Z.ldiff_spec, Hab by assumption. reflexivity.
Qed.

(** On a 32-bit value, [x & ~m] computed in 32 bits is the set
    difference of the bits. *)
Lemma land_not32 (x m : Z) : is_uint32 x -> Z.land x (not32 m) = Z.ldiff x m.
Proof.
  intros Hx. apply uint32_bits in Hx. destruct Hx as [Hx Hbits].
  apply Z.bits_inj'. intros n Hn.
  unfold not32. change uint32_mask with (Z.ones 32).
  rewrite Z.land_spec, Z.lxor_spec, Z.ldiff_spec.
  rewrite Z.testbit_ones_nonneg by lia.
  destruct (Z.ltb_spec n 32) as [Hlt | Hge].
  - rewrite xorb_true_r. reflexivity.
  - rewrite Hbits by assumption. reflexivity.
Qed.

Lemma entityError_no_errors (t : Task) :
  error_count (m_vs t) = 0 -> entityError t = false.
Proof.
  intros H. unfold entityError. rewrite H. reflexivity.
Qed.

(** One [ControlLoops] consumed outside ERROR with no entity in error:
    the message is ignored when its scope is obsolete, and otherwise its
    mask is added to or removed from the loops. *)
Lemma consume_ControlLoops_mask (t : Task) (now : Q) (m : ControlLoops) :
  mode t <> VS_ERROR ->
  error_count (m_vs t) = 0 ->
  is_uint32 (control_loops (m_vs t)) ->
  is_uint32 (cl_mask m) ->
  let t' := step t (now, EvControlLoops m) in
  mode t' <> VS_ERROR
  /\ error_count (m_vs t') = 0
  /\ is_uint32 (control_loops (m_vs t'))
  /\ (if float_of_uint32 (cl_scope_ref m) <? m_scope_ref t
      then m_scope_ref t' = m_scope_ref t
           /\ control_loops (m_vs t') = control_loops (m_vs t)
      else m_scope_ref t' = float_of_uint32 (cl_scope_ref m)
           /\ control_loops (m_vs t') = apply_loops (control_loops (m_vs t)) m).
Proof.
  intros Hmode Herr Hloops Hmask.
  open_task t. destruct m as [en mask scope].
  cbv [mode m_vs op_mode error_count control_loops cl_mask] in Hmode, Herr, Hloops, Hmask.
  subst ec.
  assert (Hdiff : Z.land cl (not32 mask) = Z.ldiff cl mask)
    by (apply land_not32; assumption).
  assert (Hor : is_uint32 (Z.lor cl mask)) by (apply uint32_lor; assumption).
  assert (Hld : is_uint32 (Z.ldiff cl mask)) by (apply uint32_ldiff; assumption).
  cbv zeta. unfold apply_loops.
  unfold_sup. cbv [cl_enable cl_mask cl_scope_ref].
  rewrite ?Hdiff.
  destruct om; try congruence;
    repeat (split_tests; unfold_sup; rewrite ?Hdiff);
    repeat match goal with
    | H : entityError _ = true |- _ =>
        rewrite entityError_no_errors in H by reflexivity; discriminate
    end;
    repeat split; try discriminate; try assumption; try reflexivity;
    unfold is_uint32 in *; lia.
Qed.

Lemma run_loops_mask (msgs : list (Q * ControlLoops)) :
  forall t : Task,
    mode t <> VS_ERROR ->
    error_count (m_vs t) = 0 ->
    is_uint32 (control_loops (m_vs t)) ->
    Forall (fun m => wf_loops (snd m)) msgs ->
    control_loops (m_vs (run t (loops_events msgs)))
    = fold_left apply_loops (accepted (m_scope_ref t) (map snd msgs))
                (control_loops (m_vs t)).
Proof.
  induction msgs as [| [now m] msgs IH]; intros t Hmode Herr Hloops Hwf.
  - reflexivity.
  - inversion Hwf as [| x l [Hmask Hen] Hrest]; subst.
    destruct (consume_ControlLoops_mask t now m Hmode Herr Hloops Hmask)
      as [Hmode' [Herr' [Hloops' Hstep]]].
    cbn [loops_events map run fold_left fst snd accepted].
    change (fold_left step (map (fun m0 => (fst m0, EvControlLoops (snd m0))) msgs)
              (step t (now, EvControlLoops m)))
      with (run (step t (now, EvControlLoops m)) (loops_events msgs)).
    rewrite (IH _ Hmode' Herr' Hloops' Hrest).
    destruct (float_of_uint32 (cl_scope_ref m) <? m_scope_ref t);
      destruct Hstep as [-> ->]; reflexivity.
Qed.

Ltac bitwise :=
  apply Z.bits_inj'; intros n Hn;
  repeat (rewrite Z.lor_spec || rewrite Z.ldiff_spec || rewrite Z.land_spec
          || rewrite Z.bits_0);
  repeat match goal with
  | |- context [Z.testbit ?x n] => destruct (Z.testbit x n)
  end; reflexivity.

(** Folding the messages from the first to the last gives what the
    specification describes from the point of view of each enabling
    message. *)
Lemma fold_apply_loops_granted (msgs : list ControlLoops) :
  forall acc : Z,
    Forall (fun m => cl_enable m = CL_DISABLE \/ cl_enable m = CL_ENABLE) msgs ->
    fold_left apply_loops msgs acc
    = Z.lor (Z.ldiff acc (disabled_masks msgs)) (granted_loops msgs).
Proof.
  induction msgs as [| m msgs IH]; intros acc Hwf.
  - cbn. rewrite Z.ldiff_0_r, Z.lor_0_r. reflexivity.
  - inversion Hwf as [| x l Hen Hrest]; subst.
    cbn [fold_left disabled_masks granted_loops]. rewrite (IH _ Hrest).
    unfold apply_loops. destruct Hen as [-> | ->]; cbn [Z.eqb Pos.eqb CL_ENABLE CL_DISABLE].
    + bitwise.
    + bitwise.
Qed.

Lemma accepted_wf (msgs : list ControlLoops) (P : ControlLoops -> Prop) :
  forall scope, Forall P msgs -> Forall P (accepted scope msgs).
Proof.
  induction msgs as [| m msgs IH]; intros scope Hall; cbn.
  - constructor.
  - inversion Hall; subst.
    destruct (float_of_uint32 (cl_scope_ref m) <? scope); auto.
Qed.

(** C8, as stated, fails.  Of two enabling messages, the second with an
    older scope reference than the first, the supervisor ignores the
    second: the loops are CL_PATH alone, not the union of both masks. *)
Lemma C8_stale_scope_ignored : ~ loops_union_claim.
Proof.
  intros claim.
  specialize (claim [] 1 stale_scope_messages).
  assert (Hwf : Forall (fun m => is_uint32 (cl_mask (snd m))) stale_scope_messages).
  { repeat constructor; cbv; congruence. }
  specialize (claim Hwf). cbv in claim. discriminate.
Qed.

(** C8, amended.  After the supervisor, started anew, has consumed any
    sequence of ControlLoops messages, the loops it reports are the union
    of the masks of the enabling messages it did not ignore, each minus
    the masks of the disabling messages it did not ignore that arrived
    later; it ignores a message whose scope reference is older than the
    one of the last message it took. *)
Theorem C8_loops_of_accepted_messages :
  forall (ents : list string) (sys : Z) (msgs : list (Q * ControlLoops)),
    Forall (fun m => wf_loops (snd m)) msgs ->
    control_loops (m_vs (run (initial ents sys) (loops_events msgs)))
    = granted_loops (accepted 0 (map snd msgs)).
Proof.
  intros ents sys msgs Hwf.
  rewrite run_loops_mask; try assumption.
  - change (m_scope_ref (initial ents sys)) with 0.
    change (control_loops (m_vs (initial ents sys))) with 0.
    rewrite fold_apply_loops_granted.
    + rewrite Z.ldiff_0_l, Z.lor_0_l. reflexivity.
    + apply accepted_wf. rewrite Forall_map.
      eapply Forall_impl; [| exact Hwf]. intros m [_ H]. exact H.
  - cbv. discriminate.
  - reflexivity.
  - cbv. split; congruence.
Qed.

Lemma C8_loops_witness :
  control_loops (m_vs (run (initial [] 1) (loops_events stale_scope_messages)))
  = CL_PATH.
Proof.
  rewrite (C8_loops_of_accepted_messages [] 1 stale_scope_messages).
  - reflexivity.
  - repeat constructor; cbv; congruence.
Defined.

End SupervisorProofs.

(** * Proofs: sequencing of handler computations

    A sequential relation holds of a whole computation as soon as it
    holds of each of its steps. *)
Module SequencingRules.
Import Sequencing.

Section Rules.
Context {S O : Type} (R : S -> S -> list O -> Prop) {HR : Sequential R}.

Lemma sat_ret {A : Type} (a : A) (s : S) : sat_at R (ret a) s.
Proof. apply seq_refl. Qed.

Lemma sat_get (s : S) : sat_at R get s.
Proof. apply seq_refl. Qed.

Lemma sat_modify (f : S -> S) (s : S) : R s (f s) [] -> sat_at R (modify f) s.
Proof. intros H. exact H. Qed.

Lemma sat_dispatch (m : O) (s : S) : R s s [m] -> sat_at R (dispatch m) s.
Proof. intros H. exact H. Qed.

Lemma sat_bind {A B : Type} (m : M S O A) (f : A -> M S O B) (s : S) :
  sat_at R m s ->
  (forall a, sat_at R (f a) (state_of (m s))) ->
  sat_at R (bind m f) s.
Proof.
  unfold sat_at, bind, state_of, output_of. intros Hm Hf.
  destruct (m s) as [[a s1] o1]. specialize (Hf a). cbn in Hm, Hf.
  destruct (f a s1) as [[b s2] o2]. cbn in Hf |- *.
  eapply seq_trans; eassumption.
Qed.

(** The same with the continuation taken in any state: enough for a
    relation that looks at one step at a time. *)
Lemma sat_bind_any {A B : Type} (m : M S O A) (f : A -> M S O B) (s : S) :
  sat_at R m s ->
  (forall a s', sat_at R (f a) s') ->
  sat_at R (bind m f) s.
Proof.
  intros Hm Hf. apply sat_bind; [exact Hm |]. intros a. apply Hf.
Qed.

Lemma sat_bind_get {B : Type} (k : S -> M S O B) (s : S) :
  sat_at R (k s) s -> sat_at R (bind get k) s.
Proof.
  unfold sat_at, bind, get, state_of, output_of. intros Hk.
  destruct (k s s) as [[b s2] o2]. exact Hk.
Qed.

Lemma sat_when (b : bool) (c : M S O unit) (s : S) :
  (b = true -> sat_at R c s) -> sat_at R (when b c) s.
Proof.
  destruct b; intros H; [apply H; reflexivity | apply seq_refl].
Qed.

End Rules.

(** Walks through a computation, leaving a goal for each step that
    changes the state or dispatches a message. *)
Ltac sat_step :=
  match goal with
  | |- Sequential _ => solve [typeclasses eauto]
  | H : sat_at ?R ?c ?s |- sat_at ?R ?c ?s => exact H
  | |- sat_at _ (ret _) _ => apply sat_ret
  | |- sat_at _ get _ => apply sat_get
  | |- sat_at _ (modify _) _ => apply sat_modify
  | |- sat_at _ (dispatch _) _ => apply sat_dispatch
  | |- sat_at _ (when _ _) _ => apply sat_when; [ | intros ? ]
  | |- sat_at _ (bind get _) _ => apply sat_bind_get
  | |- sat_at _ (bind _ _) _ => apply sat_bind_any; [ | | intros ? ? ]
  | |- sat_at _ (if ?b then _ else _) _ => destruct b eqn:?
  | |- sat_at _ (match ?x with _ => _ end) _ => destruct x eqn:?
  | |- sat_at _ (let _ := _ in _) _ => cbv zeta
  end.

Ltac sat_walk := repeat sat_step.

End SequencingRules.

(** * Proofs: the bottom tracker *)
Module BottomTrackerProofs.
Import IMC Control BottomTracker ControlClaims Sequencing SequencingRules.
Import ControlRelations.

Section Tracker.
Context {SD : Type} {sdo : SlopeDataOps SD} {math : MathLib}.

(** ** No call of [step] comes from the tracker *)

Lemma emits_no_step_sequential : Sequential (@emits_no_step SD).
Proof.
  split; unfold emits_no_step, steps.
  - reflexivity.
  - intros _ _ _ o1 o2 H1 H2. rewrite filter_app, H1, H2. reflexivity.
Qed.

#[local] Existing Instance emits_no_step_sequential.

Ltac no_step := sat_walk; exact eq_refl.

Lemma onDistance_no_step (msg : Distance) (t : Tracker SD) :
  sat_at emits_no_step (onDistance msg) t.
Proof. unfold onDistance. no_step. Qed.

Lemma onDesiredZ_no_step (msg : DesiredZ) (outgoing : bool) (t : Tracker SD) :
  sat_at emits_no_step (onDesiredZ msg outgoing) t.
Proof. unfold onDesiredZ. no_step. Qed.

Lemma onDesiredSpeed_no_step (msg : DesiredSpeed) (t : Tracker SD) :
  sat_at emits_no_step (onDesiredSpeed msg) t.
Proof. unfold onDesiredSpeed. no_step. Qed.

Lemma onEstimatedState_no_step (now : Q) (es : EstimatedState) (t : Tracker SD) :
  sat_at emits_no_step (onEstimatedState now es) t.
Proof.
  unfold onEstimatedState, updateStateMachine, onIdle, onTracking, onDepth,
    onUnsafe, onAvoiding, isAltitudeValid, brake, dispatchSafeDepth,
    dispatchLimitDepth, dispatchSameZ.
  no_step.
Qed.

(** ** AVOIDING is entered with a [Brake] START of the tracker *)

Lemma last_op_from_app (sel : Out -> option BrakeOp) (o1 o2 : list Out) :
  forall init,
    last_op_from sel init (o1 ++ o2)
    = last_op_from sel (last_op_from sel init o1) o2.
Proof.
  induction o1 as [| m o1 IH]; intros init; cbn; [reflexivity | apply IH].
Qed.

Lemma last_op_from_spec (sel : Out -> option BrakeOp) (o : list Out) :
  forall init,
    last_op_from sel init o
    = match last_op_from sel None o with
      | Some op => Some op
      | None => init
      end.
Proof.
  induction o as [| m o IH]; intros init; cbn.
  - reflexivity.
  - destruct (sel m) as [op |]; [| apply IH].
    rewrite (IH (Some op)).
    destruct (last_op_from sel None o); reflexivity.
Qed.

Lemma last_op_from_some (sel : Out -> option BrakeOp) (o : list Out)
  (init : option BrakeOp) (op : BrakeOp) :
  last_op_from sel None o = Some op -> last_op_from sel init o = Some op.
Proof.
  intros H. rewrite last_op_from_spec, H. reflexivity.
Qed.

Lemma last_op_from_none (sel : Out -> option BrakeOp) (o : list Out)
  (init : option BrakeOp) :
  last_op_from sel None o = None -> last_op_from sel init o = init.
Proof.
  intros H. rewrite last_op_from_spec, H. reflexivity.
Qed.

Lemma last_op_from_start_kept (sel : Out -> option BrakeOp) (o : list Out) :
  Forall (fun m => sel m <> Some OP_STOP) o ->
  last_op_from sel (Some OP_START) o = Some OP_START.
Proof.
  induction 1 as [| m o Hm _ IH]; cbn; [reflexivity |].
  destruct (sel m) as [[|] |]; [congruence | exact IH | exact IH].
Qed.

(** The last selected message is a START exactly when a START was
    dispatched at some point and no STOP after it. *)
Lemma last_op_start_iff (sel : Out -> option BrakeOp) (o : list Out) :
  last_op_from sel None o = Some OP_START
  <-> exists pre m post,
        o = pre ++ m :: post
        /\ sel m = Some OP_START
        /\ Forall (fun m' => sel m' <> Some OP_STOP) post.
Proof.
  split.
  - induction o as [| x l IH] using rev_ind; [discriminate |].
    rewrite last_op_from_app. cbn.
    destruct (sel x) as [[|] |] eqn:Hx.
    + discriminate.
    + intros _. exists l, x, []. repeat split; [exact Hx | constructor].
    + intros Hl. destruct (IH Hl) as (pre & m & post & -> & Hm & Hpost).
      exists pre, m, (post ++ [x]). rewrite <- app_assoc. repeat split.
      * exact Hm.
      * apply Forall_app. split; [exact Hpost |].
        constructor; [congruence | constructor].
  - intros (pre & m & post & -> & Hm & Hpost).
    rewrite last_op_from_app. cbn. rewrite Hm.
    apply last_op_from_start_kept. exact Hpost.
Qed.

Lemma avoiding_by_brake_sequential : Sequential (@avoiding_by_brake SD).
Proof.
  split; unfold avoiding_by_brake.
  - intros t H. right. split; [exact H | reflexivity].
  - intros t1 t2 t3 o1 o2 H12 H23 H3.
    unfold last_tracker_brake in *. rewrite last_op_from_app.
    destruct (H23 H3) as [Hstart | [H2 Hnone]].
    + left. apply last_op_from_some. exact Hstart.
    + rewrite (last_op_from_none _ _ _ Hnone).
      destruct (H12 H2) as [Hstart | [H1 Hnone1]].
      * left. exact Hstart.
      * right. split; assumption.
Qed.

#[local] Existing Instance avoiding_by_brake_sequential.












End Tracker.

End BottomTrackerProofs.

(** * Proofs: the path controller *)
Module PathControllerProofs.
Import IMC Control PathController ControlClaims Sequencing SequencingRules.
Import ControlRelations.

Section Controller.
Context {SD : Type} {sdo : BottomTracker.SlopeDataOps SD}.
Context {math : MathLib} {hooks : ControllerHooks}.

#[local] Existing Instance BottomTrackerProofs.emits_no_step_sequential.
#[local] Existing Instance BottomTrackerProofs.avoiding_by_brake_sequential.

Ltac unfold_handlers :=
  unfold handle, consume_Brake, consume_ControlLoops, consume_DesiredPath,
    consume_EstimatedState, consume_Distance, consume_DesiredZ,
    consume_DesiredSpeed, consume_NavigationUncertainty,
    activate, deactivate, onActivation, onDeactivation,
    reportPathControlState, loiter, step,
    monitorAlongTrackError, monitorCrossTrackError,
    enableControlLoops, disableControlLoops, configureControlLoops,
    signalError, updateEntityState, setEntityState.

(** ** The bottom tracker in AVOIDING *)

Lemma controller_avoiding_sequential :
  Sequential (@controller_avoiding_by_brake SD).
Proof.
  split; unfold controller_avoiding_by_brake.
  - intros s. apply seq_refl.
  - intros s1 s2 s3 o1 o2. apply seq_trans.
Qed.

#[local] Existing Instance controller_avoiding_sequential.







(** ** The start point of a track *)

Lemma select_start_rule (now : Q) (dpath : DesiredPath) (s : Controller SD) :
  start_point (select_start now dpath s)
  = if flag_set (dp_flags dpath) FL_START then
      (dp_start_lat dpath, dp_start_lon dpath, dp_start_z dpath)
    else if (m_tracking s || Qle_bool (now - ts_end_time (m_ts s)) 1)
            && (ts_nearby (m_ts s) || ts_loitering (m_ts s))
            && negb (flag_set (dp_flags dpath) FL_DIRECT) then
      (pcs_end_lat (m_pcs s), pcs_end_lon (m_pcs s), pcs_end_z (m_pcs s))
    else estimated_position s.
Proof.
  unfold select_start, start_point, estimated_position, Qlt_bool.
  destruct (flag_set (dp_flags dpath) FL_START); [reflexivity |].
  destruct (m_tracking s), (Qle_bool (now - ts_end_time (m_ts s)) 1),
    (ts_nearby (m_ts s)), (ts_loitering (m_ts s)),
    (flag_set (dp_flags dpath) FL_DIRECT); reflexivity.
Qed.

Lemma keeps_start_point_sequential : Sequential (@keeps_start_point SD).
Proof.
  split; unfold keeps_start_point.
  - reflexivity.
  - intros s1 s2 s3 _ _ H12 H23. rewrite H23. exact H12.
Qed.

#[local] Existing Instance keeps_start_point_sequential.

Lemma with_btrack_keeps_start {A : Type} (c : BottomTracker.Trk A)
  (s : Controller SD) :
  sat_at keeps_start_point (with_btrack c) s.
Proof.
  unfold sat_at, keeps_start_point, with_btrack, state_of.
  destruct (c (m_btrack s)) as [[a t] o]. reflexivity.
Qed.

Lemma state_of_bind_get {B : Type} (k : Controller SD -> Ctl B)
  (s : Controller SD) :
  state_of (bind get k s) = state_of (k s s).
Proof.
  unfold bind, get, state_of. destruct (k s s) as [[b s2] o2]. reflexivity.
Qed.

Lemma state_of_bind_modify {B : Type} (f : Controller SD -> Controller SD)
  (k : unit -> Ctl B) (s : Controller SD) :
  state_of (bind (modify f) k s) = state_of (k tt (f s)).
Proof.
  unfold bind, modify, state_of. destruct (k tt (f s)) as [[b s2] o2].
  reflexivity.
Qed.

Ltac keeps_start_step :=
  match goal with
  | |- keeps_start_point ?s _ _ =>
      generalize s; intros ?; unfold keeps_start_point, start_point, select_end;
      cbn;
      repeat match goal with
      | |- context [if ?b then _ else _] => destruct b
      end;
      reflexivity
  end.

(** C5, amended.  On consuming a DesiredPath while active, the start of
    the track is: the start of the message when FL_START is set;
    otherwise the end of the previous path when that path has not ended
    (it is tracked, or its end time is at most one second old), the
    vehicle is nearby its end or loitering, and FL_DIRECT is not set;
    otherwise the current estimated position. *)
Theorem C5_start_point_rule :
  forall (now : Q) (dpath : DesiredPath) (s : Controller SD),
    m_active s = true ->
    start_point (m_pcs (state_of (consume_DesiredPath now dpath s)))
    = if flag_set (dp_flags dpath) FL_START then
        (dp_start_lat dpath, dp_start_lon dpath, dp_start_z dpath)
      else if (m_tracking s || Qle_bool (now - ts_end_time (m_ts s)) 1)
              && (ts_nearby (m_ts s) || ts_loitering (m_ts s))
              && negb (flag_set (dp_flags dpath) FL_DIRECT) then
        (pcs_end_lat (m_pcs s), pcs_end_lon (m_pcs s), pcs_end_z (m_pcs s))
      else estimated_position s.
Proof.
  intros now dpath s Hact. unfold consume_DesiredPath.
  rewrite state_of_bind_get, Hact. cbn [negb].
  rewrite state_of_bind_modify, state_of_bind_get, state_of_bind_modify.
  match goal with
  | |- start_point (m_pcs (state_of (?c ?s2))) = _ =>
      assert (Hrest : sat_at keeps_start_point c s2)
  end.
  { unfold enableControlLoops, disableControlLoops, configureControlLoops,
      reportPathControlState, updateEntityState, setEntityState.
    repeat first [ apply with_btrack_keeps_start | sat_step ];
      try keeps_start_step. }
  unfold sat_at, keeps_start_point in Hrest. rewrite Hrest.
  cbn [m_pcs set_pcs]. rewrite select_start_rule. reflexivity.
Qed.

(** ** The estimated time of arrival *)

(** Case analysis on a test that contains no other test. *)
Ltac innermost_test :=
  match goal with
  | |- context [if ?b then _ else _] =>
      lazymatch b with
      | context [if _ then _ else _] => fail
      | _ => destruct b eqn:?
      end
  end.

Ltac known_tests :=
  repeat match goal with
  | H : ?c = _ |- context [if ?c then _ else _] => rewrite H
  end.

Ltac unfold_tracking :=
  cbv [updateTrackingState negb andb fst snd cx cy cz
         set_ts_start set_ts_end set_ts_track_bearing set_ts_track_length
         set_ts_track_pos set_ts_track_vel set_ts_los_angle set_ts_range
         set_ts_course set_ts_speed set_ts_course_error set_ts_eta
         set_ts_start_time set_ts_end_time set_ts_now set_ts_delta
         set_ts_cc set_ts_loitering set_ts_nearby set_ts_z_control
         set_ts_loiter
         ts_start ts_end ts_track_bearing ts_track_length ts_track_pos
         ts_track_vel ts_los_angle ts_range ts_course ts_speed
         ts_course_error ts_eta ts_start_time ts_end_time ts_now ts_delta
         ts_cc ts_loitering ts_nearby ts_z_control ts_loiter].

(** C6 (the code departs from the claim).  When the nearby flag is set
    already, the estimated time of arrival is the value of the formula
    minus [c_time_factor], bounded above by 65535 and not bounded below:
    it is negative as soon as the formula gives less than
    [c_time_factor]. *)
Theorem C6_eta_negative_when_already_nearby :
  forall (es : EstimatedState) (ts : TrackingState),
    ts_loitering ts = false ->
    ts_nearby ts = true ->
    let ts' := updateTrackingState es ts in
    let errx := Qabs (ts_track_length ts' - cx (ts_track_pos ts')) in
    let erry := Qabs (cy (ts_track_pos ts')) in
    let s := Qmax 1 (ts_speed ts') in
    let formula :=
      if Qle_bool errx erry && Qlt_bool erry (2 * c_time_factor * s)
      then (errx / s)%Q else (Math_norm errx erry / s)%Q in
    ts_eta ts' = Qmin 65535 (formula - c_time_factor)
    /\ ((formula < c_time_factor)%Q -> (ts_eta ts' < 0)%Q).
Proof.
  intros es ts Hloit Hnear. cbv zeta.
  assert (Heta : ts_eta (updateTrackingState es ts)
                 = Qmin 65535
                     ((if Qle_bool
                            (Qabs (ts_track_length (updateTrackingState es ts)
                                   - cx (ts_track_pos (updateTrackingState es ts))))
                            (Qabs (cy (ts_track_pos (updateTrackingState es ts))))
                          && Qlt_bool
                               (Qabs (cy (ts_track_pos (updateTrackingState es ts))))
                               (2 * c_time_factor
                                * Qmax 1 (ts_speed (updateTrackingState es ts)))
                       then
                         Qabs (ts_track_length (updateTrackingState es ts)
                               - cx (ts_track_pos (updateTrackingState es ts)))
                         / Qmax 1 (ts_speed (updateTrackingState es ts))
                       else
                         Math_norm
                           (Qabs (ts_track_length (updateTrackingState es ts)
                                  - cx (ts_track_pos (updateTrackingState es ts))))
                           (Qabs (cy (ts_track_pos (updateTrackingState es ts))))
                         / Qmax 1 (ts_speed (updateTrackingState es ts)))
                      - c_time_factor)).
  { destruct ts. cbn in Hloit, Hnear. subst.
    unfold_tracking.
    repeat (innermost_test; unfold_tracking; known_tests; unfold_tracking).
    all: reflexivity. }
  split; [exact Heta |].
  intros Hsmall. rewrite Heta.
  eapply Qle_lt_trans; [apply Q.le_min_r |].
  unfold c_time_factor in *. lra.
Qed.

(** ** The reference time-out *)

Lemma error_stops_steps_sequential : Sequential (@error_stops_steps SD).
Proof.
  split; unfold error_stops_steps.
  - intros s H. split; [exact H | reflexivity].
  - intros s1 s2 s3 o1 o2 H12 H23 H1.
    destruct (H12 H1) as [H2 Ho1]. destruct (H23 H2) as [H3 Ho2].
    split; [exact H3 |].
    unfold steps in *. rewrite filter_app, Ho1, Ho2. reflexivity.
Qed.

#[local] Existing Instance error_stops_steps_sequential.

Lemma with_btrack_no_step {A : Type} (c : BottomTracker.Trk A)
  (s : Controller SD) :
  sat_at emits_no_step c (m_btrack s) ->
  sat_at error_stops_steps (with_btrack c) s.
Proof.
  unfold sat_at, error_stops_steps, emits_no_step, with_btrack, state_of,
    output_of.
  destruct (c (m_btrack s)) as [[a t] o]. cbn. intros Ho Herr.
  split; [exact Herr | exact Ho].
Qed.

(** In error, the test that guards the processing of an EstimatedState
    takes the way out. *)
Lemma error_guard {A : Type} (a c : bool) (quit go : Ctl A) (s : Controller SD) :
  sat_at error_stops_steps quit s ->
  sat_at error_stops_steps (if a || m_error s || c then quit else go) s.
Proof.
  unfold sat_at, error_stops_steps. intros Hquit Herr.
  rewrite Herr, orb_true_r. cbn [orb]. apply Hquit. exact Herr.
Qed.

Ltac error_quiet_step :=
  match goal with
  | |- error_stops_steps ?s _ _ =>
      let H := fresh "Herr" in
      generalize s; intros ? H;
      split; [first [exact H | reflexivity] | reflexivity]
  end.

Ltac tracker_no_step :=
  apply with_btrack_no_step;
  first [ apply BottomTrackerProofs.onEstimatedState_no_step
        | apply BottomTrackerProofs.onDistance_no_step
        | apply BottomTrackerProofs.onDesiredZ_no_step
        | apply BottomTrackerProofs.onDesiredSpeed_no_step ].

(** A controller in error stays in error and calls [step] no more,
    whatever it consumes short of a ControlLoops, which can activate it
    again. *)
Lemma handle_in_error (now : Q) (ev : Event) (s : Controller SD) :
  is_activation (now, ev) = false ->
  sat_at error_stops_steps (handle now ev) s.
Proof.
  destruct ev; cbn [is_activation snd]; intros Hev; try discriminate Hev;
    unfold_handlers;
    repeat first [ tracker_no_step | apply error_guard | sat_step ];
    try error_quiet_step.
Qed.





End Controller.

(** ** On example inputs *)

#[local] Existing Instance blind_slope.
#[local] Existing Instance origin_math.
#[local] Existing Instance base_hooks.

(** S4: below the minimum altitude the tracker brakes and is in AVOIDING;
    back above the reference, with a safe slope, it stops braking,
    dispatches the reference again and is in TRACKING. *)
Example scenario_bottom_track_avoidance :
  trace controller0 avoid_then_recover
  = [ CallOnPathActivation;
      OutControlParcel;
      OutBrake SrcBottomTrack OP_START;
      OutControlParcel;
      OutBrake SrcBottomTrack OP_STOP;
      OutDesiredZ SrcBottomTrack (mkDesiredZ 3 Z_ALTITUDE);
      OutControlParcel ]
  /\ tracker_state (run controller0 avoid_then_recover)
     = BottomTracker.SM_TRACKING.
Proof. split; vm_compute; reflexivity. Qed.



(** C5, as stated, fails, whatever the numeric library.  With a path
    being tracked and the vehicle neither nearby nor loitering, a
    DesiredPath without FL_START starts at the estimated position (depth
    0), not at the end of the previous path (depth 5). *)
Lemma C5_start_at_estimate_when_not_nearby :
  ~ (exists math : MathLib, @start_point_claim unit math).
Proof.
  intros (math & claim).
  specialize (claim 3%Q plain_path controller_tracking eq_refl).
  vm_compute in claim. discriminate.
Qed.

Lemma C5_start_point_witness :
  start_point (m_pcs (state_of (consume_DesiredPath 3 plain_path
                                  controller_tracking)))
  = estimated_position controller_tracking.
Proof.
  rewrite (C5_start_point_rule 3%Q plain_path controller_tracking).
  - reflexivity.
  - reflexivity.
Defined.

Lemma C6_eta_witness :
  (ts_eta (updateTrackingState estate0 ts_nearby_end) < 0)%Q.
Proof.
  apply (C6_eta_negative_when_already_nearby estate0 ts_nearby_end).
  - reflexivity.
  - reflexivity.
  - vm_compute. reflexivity.
Defined.


End PathControllerProofs.

(** * Proofs: further properties *)

Module FloatProofs.
Import FloatFacts.

Lemma float_of_uint32_round (z : Z) :
  16777216 <= z -> float_of_uint32 z = round_at (Z.log2 z - 23) z.
Proof.
  intros Hz. unfold float_of_uint32, round_at.
  destruct (Z.ltb_spec z 16777216); [lia | reflexivity].
Qed.

Lemma round_at_bounds (e z : Z) :
  0 <= e -> 0 <= z ->
  (z / 2 ^ e) * 2 ^ e <= round_at e z <= (z / 2 ^ e + 1) * 2 ^ e.
Proof.
  intros He Hz. unfold round_at.
  rewrite !Z.shiftl_mul_pow2, Z.shiftr_div_pow2 by lia.
  assert (HP : 0 < 2 ^ e) by (apply Z.pow_pos_nonneg; lia).
  repeat match goal with
  | |- context [if ?b then _ else _] => destruct b
  end; nia.
Qed.

Lemma round_at_mono (e a b : Z) :
  1 <= e -> 0 <= a <= b -> round_at e a <= round_at e b.
Proof.
  intros He Hab. unfold round_at.
  rewrite !Z.shiftl_mul_pow2, !Z.shiftr_div_pow2 by lia.
  assert (HP : 0 < 2 ^ e) by (apply Z.pow_pos_nonneg; lia).
  assert (Hhalf : 2 ^ e = 2 * 2 ^ (e - 1)).
  { replace e with (1 + (e - 1)) at 1 by lia.
    rewrite Z.pow_add_r by lia. reflexivity. }
  assert (Hq : a / 2 ^ e <= b / 2 ^ e) by (apply Z.div_le_mono; lia).
  assert (Ha := Z.div_mod a (2 ^ e) ltac:(lia)).
  assert (Hb := Z.div_mod b (2 ^ e) ltac:(lia)).
  assert (Hra := Z.mod_pos_bound a (2 ^ e) HP).
  assert (Hrb := Z.mod_pos_bound b (2 ^ e) HP).
  set (P := 2 ^ e) in *. set (h := 2 ^ (e - 1)) in *.
  set (qa := a / P) in *. set (qb := b / P) in *.
  rewrite Z.mul_1_l.
  apply Z.mul_le_mono_nonneg_r; [lia |].
  destruct (Z.eq_dec qa qb) as [Heq | Hne].
  - rewrite <- Heq in *.
    assert (Hr : a - qa * P <= b - qa * P) by lia.
    destruct (Z.ltb_spec (a - qa * P) h), (Z.ltb_spec h (a - qa * P)),
             (Z.ltb_spec (b - qa * P) h), (Z.ltb_spec h (b - qa * P)),
             (Z.even qa); lia.
  - assert (qa + 1 <= qb) by lia.
    destruct (a - qa * P <? h), (h <? a - qa * P), (Z.even qa),
             (b - qb * P <? h), (h <? b - qb * P), (Z.even qb); lia.
Qed.

Lemma log2_large (z : Z) : 16777216 <= z -> 24 <= Z.log2 z.
Proof.
  intros Hz. change 24 with (Z.log2 16777216). apply Z.log2_le_mono. exact Hz.
Qed.

(** Above the range where it is exact, the conversion stays between the
    two powers of two around its argument. *)
Lemma float_of_uint32_binade (z : Z) :
  16777216 <= z ->
  2 ^ Z.log2 z <= float_of_uint32 z <= 2 ^ (Z.log2 z + 1).
Proof.
  intros Hz. rewrite float_of_uint32_round by exact Hz.
  assert (Hl := log2_large z Hz).
  assert (Hspec := Z.log2_spec z ltac:(lia)).
  set (e := Z.log2 z - 23).
  assert (Hb := round_at_bounds e z ltac:(lia) ltac:(lia)).
  assert (HP : 0 < 2 ^ e) by (apply Z.pow_pos_nonneg; lia).
  assert (Hlo : 2 ^ Z.log2 z = 8388608 * 2 ^ e).
  { replace (Z.log2 z) with (23 + e) at 1 by lia.
    rewrite Z.pow_add_r by lia. reflexivity. }
  assert (Hhi : 2 ^ (Z.log2 z + 1) = 16777216 * 2 ^ e).
  { replace (Z.log2 z + 1) with (24 + e) by lia.
    rewrite Z.pow_add_r by lia. reflexivity. }
  assert (Hq1 : 8388608 <= z / 2 ^ e).
  { apply Z.div_le_lower_bound; lia. }
  assert (Hq2 : z / 2 ^ e < 16777216).
  { apply Z.div_lt_upper_bound; lia. }
  rewrite Hlo, Hhi. nia.
Qed.

Lemma float_of_uint32_mono (a b : Z) :
  a <= b -> float_of_uint32 a <= float_of_uint32 b.
Proof.
  intros Hab.
  destruct (Z.lt_ge_cases b 16777216) as [Hb | Hb].
  { unfold float_of_uint32.
    destruct (Z.ltb_spec a 16777216), (Z.ltb_spec b 16777216); lia. }
  destruct (Z.lt_ge_cases a 16777216) as [Ha | Ha].
  { assert (H := float_of_uint32_binade b Hb).
    assert (Hl := log2_large b Hb).
    assert (16777216 <= 2 ^ Z.log2 b).
    { change 16777216 with (2 ^ 24). apply Z.pow_le_mono_r; lia. }
    unfold float_of_uint32 at 1.
    destruct (Z.ltb_spec a 16777216); lia. }
  assert (Hl : Z.log2 a <= Z.log2 b) by (apply Z.log2_le_mono; exact Hab).
  destruct (Z.eq_dec (Z.log2 a) (Z.log2 b)) as [Heq | Hne].
  - rewrite !float_of_uint32_round by assumption. rewrite Heq.
    apply round_at_mono; [| lia].
    assert (H := log2_large b Hb). lia.
  - assert (Ha' := float_of_uint32_binade a Ha).
    assert (Hb' := float_of_uint32_binade b Hb).
    assert (2 ^ (Z.log2 a + 1) <= 2 ^ Z.log2 b).
    { apply Z.pow_le_mono_r; lia. }
    lia.
Qed.

End FloatProofs.

Module SupervisorExtras.
Import IMC Supervisor SupervisorClaims SupervisorProofs SupervisorFacts.

Ltac crunch := repeat (split_tests; unfold_sup).

Ltac inner_test :=
  match goal with
  | |- context [if ?b then _ else _] =>
      lazymatch b with
      | context [if _ then _ else _] => fail
      | _ => destruct b eqn:?
      end
  end.

Ltac inner_crunch := repeat (inner_test; unfold_sup).

Ltac same_mode :=
  let H := fresh in intros H; exfalso; apply H; reflexivity.

Ltac fin_same :=
  repeat split; intros; unfold not; intros;
  first [ reflexivity
        | match goal with
          | H : ?a <> ?a |- _ => exfalso; apply H; reflexivity
          | H : In _ _ |- _ => cbn in H; intuition discriminate
          | H : _ \/ _ |- _ =>
              destruct H as [H | H]; exfalso; apply H; reflexivity
          end ].

Ltac fin_replies :=
  repeat (apply Forall_cons; [cbn; intuition reflexivity |]); apply Forall_nil.


(** X1.  An Abort always leaves the supervisor in SERVICE or in ERROR, with
    "got abort request" as the last error.  Outside ERROR it also clears
    the control loops and the safe-plan flag, disarms the switch timer and
    sends the idle maneuver; coming from a mode other than SERVICE, the
    new mode is ERROR exactly when the error count is not zero: the Abort
    ends the safe plan, and with it the tolerance of entity errors. *)
Theorem abort_leads_to_service_or_error (t : Task) (now : Q) :
  let t' := step t (now, EvAbort) in
  (mode t' = VS_SERVICE \/ mode t' = VS_ERROR)
  /\ last_error (m_vs t') = "got abort request"
  /\ (mode t <> VS_ERROR ->
        control_loops (m_vs t') = 0
        /\ m_in_safe_plan t' = false
        /\ m_switch_time t' = (-1)%Q
        /\ In (OutIdleManeuver 0) (emitted t (now, EvAbort))
        /\ (mode t <> VS_SERVICE ->
              (mode t' = VS_ERROR <-> error_count (m_vs t') <> 0))).
Proof.
  open_task t. cbv zeta. cbv [mode m_vs op_mode].
  destruct om; unfold_sup; cbv [nonOverridableLoops entityError m_vs control_loops
    error_count m_in_safe_plan safe_ents]; cbn [Z.land Z.eqb negb orb andb];
    unfold_sup.
  all: destruct (Z.eqb_spec ec 0) as [-> | Hec]; cbn [negb andb];
    rewrite ?andb_false_r; unfold_sup.
  all: repeat split; try (intros; congruence); auto; try discriminate;
    try (left; reflexivity); try (right; reflexivity);
    try (cbn; tauto).
Qed.


(** Bit 0 is clear once [clear_done] went over the flags. *)
Lemma done_flag_cleared (fl : Z) :
  Z.land (Z.land fl (Z.lnot VFLG_MANEUVER_DONE)) VFLG_MANEUVER_DONE = 0.
Proof.
  rewrite <- Z.land_assoc. change (Z.land (Z.lnot VFLG_MANEUVER_DONE) VFLG_MANEUVER_DONE) with 0.
  apply Z.land_0_r.
Qed.

Lemma step_keeps_no_maneuver (t : Task) (e : Q * Event) :
  (mode t <> VS_MANEUVER -> no_maneuver_reported (m_vs t)) ->
  mode (step t e) <> VS_MANEUVER -> no_maneuver_reported (m_vs (step t e)).
Proof.
  destruct e as [now ev]. open_task t.
  remember (step _ _) as t' eqn:E. revert E.
  cbv [mode m_vs op_mode no_maneuver_reported maneuver_type maneuver_stime
       maneuver_eta flags].
  intros E Hinv. revert E.
  assert (Hclr := done_flag_cleared fl).
  destruct ev as [ | msg | msg | msg | msg | cmd | ].
  6: destruct cmd as [src sent dst dent ty c rid man ct info].
  all: try destruct msg.
  all: destruct om; unfold_sup; crunch; intros -> Hm;
    try (exfalso; apply Hm; reflexivity);
    try (apply Hinv; discriminate);
    try (repeat split; first [reflexivity | exact Hclr]).
Qed.

Lemma step_keeps_timer (t : Task) (e : Q * Event) :
  (m_switch_time t = (-1)%Q \/ timed_mode (mode t)) ->
  m_switch_time (step t e) = (-1)%Q \/ timed_mode (mode (step t e)).
Proof.
  destruct e as [now ev]. open_task t.
  remember (step _ _) as t' eqn:E. revert E.
  cbv [mode m_vs op_mode m_switch_time timed_mode].
  intros E Hinv. revert E.
  destruct ev as [ | msg | msg | msg | msg | cmd | ].
  6: destruct cmd as [src sent dst dent ty c rid man ct info].
  all: try destruct msg.
  all: destruct om; unfold_sup; crunch; intros ->;
    first [ left; reflexivity
          | right; left; reflexivity
          | right; right; reflexivity
          | exact Hinv
          | destruct Hinv as [? | [? | ?]]; (discriminate || (left; assumption)) ].
Qed.

Lemma reachable_invariant (P : Task -> Prop) :
  (forall ents sys, P (initial ents sys)) ->
  (forall t e, P t -> P (step t e)) ->
  forall t, reachable t -> P t.
Proof.
  intros Hinit Hstep t [ents [sys [es ->]]].
  unfold run. generalize (Hinit ents sys). generalize (initial ents sys).
  induction es as [| e es IH]; intros t0 H0; cbn [fold_left].
  - exact H0.
  - apply IH. apply Hstep. exact H0.
Qed.

(** X2.  In every state the supervisor can reach, outside MANEUVER mode the
    vehicle state reports no maneuver: type and ETA are 65535, the start
    time is -1 and the MANEUVER_DONE flag is clear. *)
Theorem no_maneuver_outside_maneuver_mode (t : Task) :
  reachable t -> mode t <> VS_MANEUVER -> no_maneuver_reported (m_vs t).
Proof.
  revert t.
  apply (reachable_invariant
           (fun t => mode t <> VS_MANEUVER -> no_maneuver_reported (m_vs t))).
  - intros ents sys _. cbv. repeat split.
  - intros t e. apply step_keeps_no_maneuver.
Qed.

Lemma no_maneuver_outside_maneuver_mode_witness :
  no_maneuver_reported (m_vs task_in_error).
Proof.
  apply (no_maneuver_outside_maneuver_mode task_in_error).
  - exists [], 1, [(1%Q, EvEntityMonitoringState imu_error)]. reflexivity.
  - vm_compute. discriminate.
Defined.

(** X3.  In every state the supervisor can reach, the switch timer is armed
    only in CALIBRATION or MANEUVER mode. *)
Theorem switch_timer_only_in_timed_modes (t : Task) :
  reachable t -> m_switch_time t <> (-1)%Q -> timed_mode (mode t).
Proof.
  intros Hr Harmed.
  assert (H : m_switch_time t = (-1)%Q \/ timed_mode (mode t)).
  { clear Harmed. revert t Hr.
    apply (reachable_invariant
             (fun t => m_switch_time t = (-1)%Q \/ timed_mode (mode t))).
    - intros ents sys. left. reflexivity.
    - intros t e. apply step_keeps_timer. }
  destruct H as [H | H]; [contradiction | exact H].
Qed.

Lemma switch_timer_only_in_timed_modes_witness :
  timed_mode (mode task_in_calibration).
Proof.
  apply (switch_timer_only_in_timed_modes task_in_calibration).
  - exists [], 1, [(1%Q, EvVehicleCommand (request VC_START_CALIBRATION None))].
    reflexivity.
  - vm_compute. discriminate.
Defined.


(** X4.  Every reply the supervisor dispatches answers the VehicleCommand
    just consumed: it goes back to the sender and its entity, carries the
    command and the request identifier of the request, comes from the
    supervisor's system and is a SUCCESS or a FAILURE.  A VehicleCommand
    that is no request, or whose command is none of the four, leaves the
    supervisor as it was and nothing is dispatched; no other input is
    replied to. *)
Theorem replies_answer_the_request (t : Task) (now : Q) (ev : Event) :
  match ev with
  | EvVehicleCommand cmd =>
      Forall (answers t cmd) (replies (emitted t (now, ev)))
      /\ (vc_type cmd <> VC_REQUEST \/ ~ 0 <= vc_command cmd <= 3 ->
            emitted t (now, ev) = [] /\ step t (now, ev) = t)
  | _ => replies (emitted t (now, ev)) = []
  end.
Proof.
  open_task t.
  destruct ev as [ | msg | msg | msg | msg | cmd | ].
  6: { destruct cmd as [src sent dst dent ty c rid man ct info].
       cbv [answers vc_source vc_destination vc_destination_entity vc_command
            vc_request_id vc_type system_id].
       split.
       - unfold_sup.
         destruct (Z.eqb_spec ty 0) as [-> | Hty]; [| constructor].
         destruct (Z.eqb_spec c 0) as [-> | Hc0].
         { destruct om, man; unfold_sup; crunch;
             fin_replies. }
         destruct (Z.eqb_spec c 1) as [-> | Hc1].
         { destruct om; unfold_sup; crunch; fin_replies. }
         destruct (Z.eqb_spec c 2) as [-> | Hc2].
         { destruct om; unfold_sup; crunch; fin_replies. }
         destruct (Z.eqb_spec c 3) as [-> | Hc3].
         { destruct om; unfold_sup; crunch; fin_replies. }
         constructor.
       - intros Hno. unfold_sup.
         destruct (Z.eqb_spec ty 0) as [-> | Hty]; [| split; reflexivity].
         destruct Hno as [Hno | Hno]; [exfalso; apply Hno; reflexivity |].
         destruct (Z.eqb_spec c 0) as [-> | Hc0]; [lia |].
         destruct (Z.eqb_spec c 1) as [-> | Hc1]; [lia |].
         destruct (Z.eqb_spec c 2) as [-> | Hc2]; [lia |].
         destruct (Z.eqb_spec c 3) as [-> | Hc3]; [lia |].
         split; reflexivity. }
  all: try destruct msg.
  all: destruct om; unfold_sup; crunch; reflexivity.
Qed.

(** X5.  A ManeuverControlState from another system, or outside MANEUVER
    mode, is ignored.  The mode changes only on MCS_ERROR, and then to
    SERVICE or ERROR with the control loops cleared and the idle maneuver
    sent; otherwise the maneuver type and the control loops are left as
    they are.  No StopManeuver is dispatched in any case. *)
Theorem maneuver_state_filtered (t : Task) (now : Q) (msg : ManeuverControlState) :
  let e := (now, EvManeuverControlState msg) in
  (mcs_source msg <> system_id t \/ mode t <> VS_MANEUVER ->
     step t e = t /\ emitted t e = [])
  /\ (mode (step t e) <> mode t ->
        mcs_state msg = MCS_ERROR
        /\ (mode (step t e) = VS_SERVICE \/ mode (step t e) = VS_ERROR)
        /\ control_loops (m_vs (step t e)) = 0
        /\ In (OutIdleManeuver 0) (emitted t e))
  /\ (mode (step t e) = mode t ->
        maneuver_type (m_vs (step t e)) = maneuver_type (m_vs t)
        /\ control_loops (m_vs (step t e)) = control_loops (m_vs t))
  /\ ~ In OutStopManeuver (emitted t e).
Proof.
  open_task t. destruct msg as [src ts st eta info].
  cbv zeta. cbv [mode m_vs op_mode mcs_source mcs_state system_id].
  unfold_sup. cbv [mcs_source mcs_state mcs_eta mcs_info mcs_timestamp].
  destruct (Z.eqb_spec src si) as [-> | Hsrc]; cbn [negb]; [| fin_same].
  destruct om; cbn [negb]; try fin_same.
  destruct (Z.eqb_spec st 0) as [-> | H0]; [crunch; fin_same |].
  destruct (Z.eqb_spec st 1) as [-> | H1]; [fin_same |].
  destruct (Z.eqb_spec st 2) as [-> | H2]; [| fin_same].
  crunch; repeat split; intros; unfold not; intros;
    first [ reflexivity | discriminate | left; reflexivity | right; reflexivity
          | match goal with
            | H : In _ _ |- _ => cbn in H; intuition discriminate
            end
          | cbn; tauto
          | match goal with
            | H : In _ _ |- _ => cbn in H; intuition discriminate
            | H : _ \/ _ |- _ => destruct H as [H | H]; exfalso; apply H; reflexivity
            end ].
Qed.


(** X6.  The periodic task first publishes the vehicle state as it finds
    it.  With the switch timer disarmed it does nothing else.  It changes
    the mode only when, counted from the switch time, the calibration has
    lasted longer than its duration or the maneuver longer than
    [c_man_timeout]; the new mode is SERVICE or ERROR, the timer is
    disarmed, and after a maneuver the control loops are cleared. *)
Theorem task_changes_mode_only_on_timeout (t : Task) (now : Q) :
  let e := (now, EvTask) in
  (exists rest, emitted t e = OutVehicleState (m_vs t) :: rest)
  /\ (Qlt_bool (m_switch_time t) 0 = true -> step t e = t)
  /\ (mode (step t e) <> mode t ->
        (mode (step t e) = VS_SERVICE \/ mode (step t e) = VS_ERROR)
        /\ m_switch_time (step t e) = (-1)%Q
        /\ ((mode t = VS_CALIBRATION
             /\ Qlt_bool (inject_Z (m_calibration_duration t))
                         (now - m_switch_time t) = true)
            \/ (mode t = VS_MANEUVER
                /\ Qlt_bool c_man_timeout (now - m_switch_time t) = true
                /\ control_loops (m_vs (step t e)) = 0))).
Proof.
  open_task t. cbv zeta.
  cbv [mode m_vs op_mode m_switch_time m_calibration_duration].
  split; [| split].
  - unfold_sup. crunch; eexists; reflexivity.
  - intros H. unfold_sup. rewrite H. reflexivity.
  - destruct om; unfold_sup; crunch; intros Hm;
      try (exfalso; apply Hm; reflexivity);
      (split; [(left; reflexivity) || (right; reflexivity) |]);
      (split; [reflexivity |]);
      first [ left; split; [reflexivity | assumption]
            | right; split; [reflexivity | split; [assumption | reflexivity]] ].
Qed.

(** X7.  A maneuver that reports DONE, at a time that is not negative,
    stays the current maneuver, flagged MANEUVER_DONE with ETA 0; a
    periodic task later than [c_man_timeout] after the report sends it a
    StopManeuver and takes the supervisor to SERVICE or ERROR, with the
    control loops cleared and no maneuver reported. *)
Theorem done_maneuver_times_out (t : Task) (now later : Q)
  (msg : ManeuverControlState) :
  mode t = VS_MANEUVER ->
  mcs_source msg = system_id t ->
  mcs_state msg = MCS_DONE ->
  (0 <= now)%Q ->
  (now + c_man_timeout < later)%Q ->
  let t1 := step t (now, EvManeuverControlState msg) in
  let t2 := step t1 (later, EvTask) in
  mode t1 = VS_MANEUVER
  /\ Z.land (flags (m_vs t1)) VFLG_MANEUVER_DONE = VFLG_MANEUVER_DONE
  /\ maneuver_eta (m_vs t1) = 0
  /\ (mode t2 = VS_SERVICE \/ mode t2 = VS_ERROR)
  /\ control_loops (m_vs t2) = 0
  /\ no_maneuver_reported (m_vs t2)
  /\ In OutStopManeuver (emitted t1 (later, EvTask)).
Proof.
  open_task t. destruct msg as [src ts st eta info].
  cbv [mode m_vs op_mode mcs_source mcs_state system_id].
  intros -> -> -> Hnow Hlater. cbv zeta.
  assert (H0 : Qlt_bool now 0 = false).
  { unfold Qlt_bool. apply negb_false_iff. apply Qle_bool_iff. exact Hnow. }
  assert (H1 : Qlt_bool c_man_timeout (later - now) = true).
  { unfold Qlt_bool. apply negb_true_iff.
    destruct (Qle_bool (later - now) c_man_timeout) eqn:E; [| reflexivity].
    apply Qle_bool_iff in E. unfold c_man_timeout in *. lra. }
  assert (Hclr := done_flag_cleared (Z.lor fl VFLG_MANEUVER_DONE)).
  assert (Hset : Z.land (Z.lor fl VFLG_MANEUVER_DONE) VFLG_MANEUVER_DONE
                 = VFLG_MANEUVER_DONE).
  { apply Z.bits_inj'; intros n Hn. rewrite Z.land_spec, Z.lor_spec.
    destruct (Z.testbit fl n), (Z.testbit VFLG_MANEUVER_DONE n); reflexivity. }
  unfold no_maneuver_reported.
  unfold_sup. cbv [mcs_source mcs_state mcs_eta mcs_info mcs_timestamp].
  rewrite Z.eqb_refl. cbn [negb]. unfold_sup.
  rewrite H0, H1. unfold_sup.
  inner_crunch; repeat split; auto; cbn; tauto.
Qed.

Lemma done_maneuver_times_out_witness :
  mode (step (step task_in_maneuver (2%Q, EvManeuverControlState done_message))
             (4%Q, EvTask)) = VS_SERVICE.
Proof.
  destruct (done_maneuver_times_out task_in_maneuver 2%Q 4%Q done_message)
    as [_ [_ [_ [H _]]]];
    [ reflexivity | reflexivity | reflexivity
    | vm_compute; discriminate | reflexivity | ].
  destruct H as [H | H]; [exact H | vm_compute in H; discriminate].
Defined.


(** X8.  MANEUVER mode is entered only by a request to execute a maneuver
    that carries one (then the maneuver reported), CALIBRATION only by a
    request to start the calibration, and EXTERNAL only by a ControlLoops
    that enables loops while none was enabled, from SERVICE or ERROR. *)
Theorem mode_entered_only_by_its_event (t : Task) (e : Q * Event) :
  mode (step t e) <> mode t ->
  match mode (step t e) with
  | VS_MANEUVER =>
      exists cmd m, snd e = EvVehicleCommand cmd
        /\ vc_type cmd = VC_REQUEST
        /\ vc_command cmd = VC_EXEC_MANEUVER
        /\ vc_maneuver cmd = Some m
        /\ maneuver_type (m_vs (step t e)) = msg_id m
  | VS_CALIBRATION => is_request VC_START_CALIBRATION (snd e)
  | VS_EXTERNAL =>
      is_loops_enable (snd e)
      /\ (mode t = VS_SERVICE \/ mode t = VS_ERROR)
      /\ control_loops (m_vs t) = 0
  | VS_SERVICE | VS_ERROR => True
  end.
Proof.
  destruct e as [now ev]. open_task t.
  cbv [mode m_vs op_mode is_request is_loops_enable control_loops]. cbn [snd].
  destruct ev as [ | msg | msg | msg | msg | cmd | ].
  6: { destruct cmd as [src sent dst dent ty c rid man ct info].
       unfold_sup.
       destruct (Z.eqb_spec ty 0) as [-> | Hty]; [| same_mode].
       destruct (Z.eqb_spec c 0) as [-> | Hc0].
       { destruct man as [m |]; destruct om; unfold_sup; inner_crunch;
           try same_mode; intros _; exists (mkVehicleCommand src sent dst dent 0 0 rid (Some m) ct info), m;
           repeat split. }
       destruct (Z.eqb_spec c 1) as [-> | Hc1].
       { destruct om; unfold_sup; inner_crunch; try same_mode; exact (fun _ => I). }
       destruct (Z.eqb_spec c 2) as [-> | Hc2].
       { destruct om; unfold_sup; inner_crunch; try same_mode; intros _;
           eexists; repeat split. }
       destruct (Z.eqb_spec c 3) as [-> | Hc3].
       { destruct om; unfold_sup; inner_crunch; try same_mode; exact (fun _ => I). }
       same_mode. }
  2: { destruct msg as [en mask scope].
       cbv [cl_enable cl_mask cl_scope_ref].
       destruct om; unfold_sup; cbv [cl_enable cl_mask cl_scope_ref];
         inner_crunch; try same_mode; try exact (fun _ => I); intros _;
         (split; [eexists; split; [reflexivity | apply Z.eqb_eq; assumption] |]);
         (split; [(left; reflexivity) || (right; reflexivity) |]);
         match goal with
         | H : (_ && _)%bool = true |- _ =>
             apply andb_true_iff in H; destruct H as [H _];
             apply Z.eqb_eq in H; exact H
         end. }
  all: try destruct msg.
  all: destruct om; unfold_sup; inner_crunch; try same_mode; exact (fun _ => I).
Qed.

Lemma mode_entered_only_by_its_event_witness :
  is_request VC_START_CALIBRATION
    (EvVehicleCommand (request VC_START_CALIBRATION None)).
Proof.
  apply (mode_entered_only_by_its_event task0
           (1%Q, EvVehicleCommand (request VC_START_CALIBRATION None))).
  vm_compute. discriminate.
Defined.

(** X9.  During the calibration, and during a maneuver or external control
    with teleoperation or non-overridable loops, an
    EntityMonitoringState changes neither the mode nor the control loops
    nor the safe-plan flag and dispatches nothing, whatever it reports;
    the error count is the sum of the two counts modulo 256. *)
Theorem entity_errors_do_not_interrupt (t : Task) (now : Q)
  (msg : EntityMonitoringState) :
  error_exempt t = true ->
  let e := (now, EvEntityMonitoringState msg) in
  mode (step t e) = mode t
  /\ emitted t e = []
  /\ control_loops (m_vs (step t e)) = control_loops (m_vs t)
  /\ m_in_safe_plan (step t e) = m_in_safe_plan t
  /\ error_count (m_vs (step t e))
     = uint8_wrap (ems_ccount msg + ems_ecount msg).
Proof.
  open_task t. destruct msg as [cc cn ecn en le' lt'].
  cbv [error_exempt]. cbv zeta.
  cbv [mode calibrationMode externalMode maneuverMode modeIs m_vs op_mode
       nonOverridableLoops teleoperationOn maneuverIs control_loops
       maneuver_type OperationMode_eqb].
  intros Hex.
  unfold_sup.
  cbv [ems_ccount ems_ecount ems_cnames ems_enames ems_last_error
       ems_last_error_time nonOverridableLoops teleoperationOn maneuverIs
       m_vs control_loops maneuver_type].
  destruct om; cbn [orb andb] in Hex; try discriminate Hex;
    unfold_sup;
    repeat match goal with
    | |- context [negb (?a =? 0) && Qlt_bool ?x ?y] =>
        destruct (negb (a =? 0) && Qlt_bool x y); unfold_sup
    | |- context [if negb (?a =? 0) then _ else _] =>
        destruct (a =? 0); cbn [negb]; unfold_sup
    end;
    rewrite ?andb_false_r;
    try (repeat split; reflexivity);
    apply orb_true_iff in Hex;
    match goal with
    | |- context [entityError ?x] => destruct (entityError x)
    end; cbn [andb];
    try (repeat split; reflexivity);
    destruct Hex as [Hex | Hex]; rewrite Hex; cbn [negb andb];
    rewrite ?andb_false_r; repeat split; reflexivity.
Qed.


Lemma entity_errors_do_not_interrupt_witness :
  mode (step task_in_calibration (2%Q, EvEntityMonitoringState imu_error))
  = VS_CALIBRATION.
Proof.
  apply (entity_errors_do_not_interrupt task_in_calibration 2%Q imu_error).
  reflexivity.
Defined.

(** X10.  Outside ERROR, the calibration, and a maneuver or external control
    with teleoperation or non-overridable loops, an
    EntityMonitoringState with an error count that is not zero, and no
    safe plan in execution or no safe entities configured, takes the
    supervisor to ERROR: the control loops and the safe-plan flag are
    cleared, no maneuver is reported, the idle maneuver is sent, and a
    maneuver in execution is sent a StopManeuver. *)
Theorem entity_error_stops_the_vehicle (t : Task) (now : Q)
  (msg : EntityMonitoringState) :
  mode t <> VS_ERROR ->
  error_exempt t = false ->
  uint8_wrap (ems_ccount msg + ems_ecount msg) <> 0 ->
  safe_ents t = [] \/ m_in_safe_plan t = false ->
  let e := (now, EvEntityMonitoringState msg) in
  mode (step t e) = VS_ERROR
  /\ control_loops (m_vs (step t e)) = 0
  /\ m_in_safe_plan (step t e) = false
  /\ no_maneuver_reported (m_vs (step t e))
  /\ In (OutIdleManeuver 0) (emitted t e)
  /\ (mode t = VS_MANEUVER -> In OutStopManeuver (emitted t e)).
Proof.
  open_task t. destruct msg as [cc cn ecn en le' lt'].
  cbv [error_exempt]. cbv zeta.
  cbv [mode calibrationMode externalMode maneuverMode modeIs m_vs op_mode
       nonOverridableLoops teleoperationOn maneuverIs control_loops
       maneuver_type OperationMode_eqb safe_ents m_in_safe_plan
       ems_ccount ems_ecount].
  intros Hmode Hex Hcount Hsafe.
  assert (Hclr := done_flag_cleared fl).
  apply Z.eqb_neq in Hcount.
  assert (Herr : forall v1 v2 v3 v4 v5 v6 v7 v8 sw' cd' sr' x,
            entityError (mkTask sw' sp cd'
              (mkVehicleState v1 v2 v3 v4 v5 v6 v7 v8 (uint8_wrap (cc + ecn)) x)
              sr' se si) = true).
  { intros. cbv [entityError m_vs error_count safe_ents m_in_safe_plan].
    rewrite Hcount. cbn [negb].
    destruct Hsafe as [-> | ->]; [reflexivity |].
    rewrite andb_false_r. reflexivity. }
  unfold no_maneuver_reported.
  unfold_sup.
  cbv [ems_ccount ems_ecount ems_cnames ems_enames ems_last_error
       ems_last_error_time nonOverridableLoops teleoperationOn maneuverIs
       m_vs control_loops maneuver_type].
  rewrite Hcount. cbn [negb andb].
  destruct om; cbn [orb andb] in Hex; try discriminate Hex;
    try (exfalso; apply Hmode; reflexivity);
    unfold_sup;
    repeat match goal with
    | |- context [if Qlt_bool ?x ?y then _ else _] =>
        destruct (Qlt_bool x y); unfold_sup
    | |- context [if negb (?a =? 0) then _ else _] =>
        destruct (a =? 0); cbn [negb]; unfold_sup
    end;
    rewrite ?Herr;
    try (apply orb_false_iff in Hex; destruct Hex as [Ha Hb];
         rewrite Ha, Hb);
    cbn [negb andb]; unfold_sup;
    repeat split; auto; try discriminate; cbn; tauto.
Qed.

Lemma entity_error_stops_the_vehicle_witness :
  mode (step task_in_maneuver (2%Q, EvEntityMonitoringState imu_error))
  = VS_ERROR.
Proof.
  apply (entity_error_stops_the_vehicle task_in_maneuver 2%Q imu_error).
  - vm_compute. discriminate.
  - reflexivity.
  - vm_compute. discriminate.
  - left. reflexivity.
Defined.


(** No message is dropped when the scope references never decrease. *)
Lemma accepted_rising (msgs : list ControlLoops) :
  forall last : Z,
    rising_scope last msgs ->
    accepted (float_of_uint32 last) msgs = msgs.
Proof.
  induction msgs as [| m msgs IH]; intros last Hr.
  - reflexivity.
  - destruct Hr as [Hle Hrest]. cbn [accepted].
    assert (H := FloatProofs.float_of_uint32_mono _ _ Hle).
    destruct (Z.ltb_spec (float_of_uint32 (cl_scope_ref m)) (float_of_uint32 last));
      [lia |].
    rewrite (IH _ Hrest). reflexivity.
Qed.

(** X11.  When the scope references of well-formed ControlLoops messages
    (a 32-bit mask, enable 0 or 1) never decrease, the supervisor started
    anew ignores none of them: the loops it reports are the union of the
    masks enabled, each minus the masks disabled after it. *)
Theorem loops_with_rising_scope_all_taken :
  forall (ents : list string) (sys : Z) (msgs : list (Q * ControlLoops)),
    Forall (fun m => wf_loops (snd m)) msgs ->
    rising_scope 0 (map snd msgs) ->
    control_loops (m_vs (run (initial ents sys) (loops_events msgs)))
    = granted_loops (map snd msgs).
Proof.
  intros ents sys msgs Hwf Hr.
  rewrite run_loops_mask; try assumption.
  - change (m_scope_ref (initial ents sys)) with (float_of_uint32 0).
    change (control_loops (m_vs (initial ents sys))) with 0.
    rewrite (accepted_rising _ _ Hr).
    rewrite fold_apply_loops_granted.
    + rewrite Z.ldiff_0_l, Z.lor_0_l. reflexivity.
    + rewrite Forall_map.
      eapply Forall_impl; [| exact Hwf]. intros m [_ H]. exact H.
  - cbv. discriminate.
  - reflexivity.
  - cbv. split; congruence.
Qed.

Lemma loops_with_rising_scope_all_taken_witness :
  control_loops (m_vs (run (initial [] 1) (loops_events rising_messages)))
  = Z.lor CL_PATH CL_SPEED.
Proof.
  rewrite (loops_with_rising_scope_all_taken [] 1 rising_messages).
  - reflexivity.
  - repeat constructor; cbv; congruence.
  - cbv. repeat split; congruence.
Defined.

End SupervisorExtras.

Module BottomTrackerExtras.
Import IMC Control BottomTracker ControlClaims TrackerFacts.

Ltac unfold_trk :=
  cbv [perform activate deactivate reset onDistance onDesiredZ onDesiredSpeed
       onEstimatedState updateStateMachine onIdle onTracking onDepth onUnsafe
       onAvoiding isAltitudeValid brake dispatchSafeDepth dispatchLimitDepth
       dispatchSameZ
       bind ret get modify dispatch when state_of output_of
       upd_sdata set_active set_mstate set_got_data set_z_ref set_forced
       set_dspeed set_last_run set_valid_alt set_estate set_sdata set_args
       m_active m_mstate m_got_data m_z_ref m_forced m_dspeed m_last_run
       m_valid_alt m_estate m_sdata m_args
       MachineState_eqb ZUnits_eqb negb andb orb fst snd app].

Ltac trk_test :=
  match goal with
  | |- context [if ?b then _ else _] =>
      lazymatch b with
      | context [if _ then _ else _] => fail
      | context [match _ with _ => _ end] => fail
      | _ => destruct b eqn:?
      end
  | |- context [match ?x with Z_NONE => _ | _ => _ end] =>
      lazymatch x with
      | context [if _ then _ else _] => fail
      | _ => destruct x eqn:?
      end
  | |- context [match ?x with FC_NONE => _ | _ => _ end] =>
      lazymatch x with
      | context [if _ then _ else _] => fail
      | _ => destruct x eqn:?
      end
  end.

Ltac trk_crunch := repeat (trk_test; unfold_trk).

Ltac open_tracker t :=
  destruct t as [act ms gd zr fc dsp lr va est sd ar].

Section Extras.
Context {SD : Type} {sdo : SlopeDataOps SD} {math : MathLib}.

(** A tracker that is not active leaves everything as it is and lets
    the references of the owner through. *)
Lemma inactive_tracker_is_transparent (t : Tracker SD) :
  m_active t = false ->
  (forall now msg, onEstimatedState now msg t = (None, t, []))
  /\ (forall msg, onDesiredSpeed msg t = (tt, t, []))
  /\ (forall msg outgoing,
        onDesiredZ msg outgoing t
        = (tt, t, if outgoing then [OutDesiredZ SrcTask msg] else [])).
Proof.
  open_tracker t. cbn [m_active]. intros ->.
  repeat split; intros; unfold_trk; try reflexivity.
  destruct outgoing; reflexivity.
Qed.

(** What one run of the state machine does, read off the five state
    functions at once. *)
Lemma updateStateMachine_facts (t : Tracker SD) :
  let r := updateStateMachine t in
  allowed (m_mstate t) (m_mstate (state_of r)) = true
  /\ brake_ops (output_of r)
     = brakes_of_transition (m_mstate t) (m_mstate (state_of r))
  /\ Forall (own_message t) (output_of r)
  /\ (forall what, fst (fst r) = Some what ->
        m_mstate t = SM_AVOIDING
        /\ m_mstate (state_of r) = SM_AVOIDING
        /\ output_of r = []
        /\ what = "[BottomTrack.Avoiding] >> unable to avoid obstacle")
  /\ (m_active (state_of r) = m_active t
      /\ m_last_run (state_of r) = m_last_run t
      /\ m_estate (state_of r) = m_estate t
      /\ m_z_ref (state_of r) = m_z_ref t
      /\ m_dspeed (state_of r) = m_dspeed t
      /\ m_args (state_of r) = m_args t)
  /\ ((m_forced t = FC_DEPTH <-> m_mstate t = SM_DEPTH) ->
      (m_forced (state_of r) = FC_DEPTH <-> m_mstate (state_of r) = SM_DEPTH))
  /\ (m_got_data t = false ->
      dz_units (m_z_ref t) = Z_NONE \/ Qle_bool (m_dspeed t) 0 = true ->
      r = (None, t, [])).
Proof.
  open_tracker t. cbv zeta.
  unfold own_message. cbn [m_z_ref m_args].
  assert (Hmax : forall x : Q, (0 <= Qmax 0 x)%Q) by (intros; apply Q.le_max_l).
  remember (updateStateMachine (mkTracker act ms gd zr fc dsp lr va est sd ar))
    as r eqn:E.
  revert E.
  destruct ms; unfold_trk; trk_crunch; intros ->; unfold_trk.
  all: split; [reflexivity |].
  all: split; [reflexivity |].
  all: split;
    [ repeat (apply Forall_cons;
              [first [ exact I | reflexivity
                     | split; [reflexivity |];
                       first [ left; reflexivity
                             | right; split; [reflexivity |];
                               first [ left; reflexivity | right; apply Hmax ] ] ]
              |]);
      apply Forall_nil |].
  all: split;
    [ cbn [fst]; intros what Hwhat;
      first [ discriminate Hwhat
            | inversion Hwhat; repeat split; reflexivity ] |].
  all: split; [repeat split; reflexivity |].
  all: split;
    [ intros Hinv;
      first [ exact Hinv
            | split; intros Hx;
              first [ discriminate Hx | reflexivity
                    | apply Hinv in Hx; discriminate Hx ] ] |].
  all: intros Hgd Href;
    first [ reflexivity | discriminate Hgd
          | destruct Href as [Href | Href]; discriminate Href ].
Qed.


(** [onEstimatedState] around one run of the state machine. *)
Lemma onEstimatedState_run (now : Q) (msg : EstimatedState) (t : Tracker SD) :
  onEstimatedState now msg t
  = if negb (m_active t) then (None, t, [])
    else if Qlt_bool (control_period (m_args t)) (now - m_last_run t) then
      match updateStateMachine (set_estate msg t) with
      | (Some what, t1, o1) => (Some what, t1, o1)
      | (None, t1, o1) => (None, set_last_run now t1, o1 ++ [OutControlParcel])
      end
    else (None, set_estate msg t, []).
Proof.
  unfold onEstimatedState. cbv [bind get modify ret dispatch].
  destruct (negb (m_active t)); [reflexivity |].
  change (m_args (set_estate msg t)) with (m_args t).
  destruct (Qlt_bool (control_period (m_args t)) (now - m_last_run t));
    [| reflexivity].
  destruct (updateStateMachine (set_estate msg t)) as [[[what |] t1] o1];
    cbn [app]; rewrite ?app_nil_r; reflexivity.
Qed.

Lemma brake_ops_app (o1 o2 : list Out) :
  brake_ops (o1 ++ o2) = brake_ops o1 ++ brake_ops o2.
Proof. apply flat_map_app. Qed.

Lemma allowed_refl (a : MachineState) : allowed a a = true.
Proof. destruct a; reflexivity. Qed.

Lemma no_brake_no_transition (a : MachineState) : brakes_of_transition a a = [].
Proof. destruct a; reflexivity. Qed.

(** X12.  On an EstimatedState the state machine stays where it is or moves
    along its transitions only (IDLE to TRACKING; DEPTH to TRACKING, IDLE
    or AVOIDING; UNSAFE to TRACKING or AVOIDING; AVOIDING to TRACKING;
    from TRACKING anywhere), and the [Brake] messages dispatched are one
    START exactly on entering AVOIDING, one STOP exactly on leaving it,
    and none otherwise. *)
Theorem transitions_and_their_brakes (now : Q) (msg : EstimatedState)
  (t : Tracker SD) :
  let t' := state_of (onEstimatedState now msg t) in
  let out := output_of (onEstimatedState now msg t) in
  allowed (m_mstate t) (m_mstate t') = true
  /\ brake_ops out = brakes_of_transition (m_mstate t) (m_mstate t').
Proof.
  cbv zeta. rewrite onEstimatedState_run.
  destruct (negb (m_active t)).
  { cbn. rewrite allowed_refl, no_brake_no_transition. split; reflexivity. }
  destruct (Qlt_bool _ _).
  2: { cbn [state_of output_of fst snd].
       change (m_mstate (set_estate msg t)) with (m_mstate t).
       rewrite allowed_refl, no_brake_no_transition. split; reflexivity. }
  destruct (updateStateMachine_facts (set_estate msg t)) as [Ha [Hb _]].
  change (m_mstate (set_estate msg t)) with (m_mstate t) in Ha, Hb.
  destruct (updateStateMachine (set_estate msg t)) as [[[what |] t1] o1];
    cbn [state_of output_of fst snd] in *.
  - split; assumption.
  - change (m_mstate (set_last_run now t1)) with (m_mstate t1).
    rewrite brake_ops_app. cbn. rewrite app_nil_r. split; assumption.
Qed.

(** X13.  Whatever the tracker dispatches while it consumes an
    EstimatedState is the control parcel, a [Brake] or a reference; the
    last two carry its own entity, and the reference is the stored one,
    the depth limit as a depth, or a depth that is not negative. *)
Theorem tracker_dispatches_own_messages (now : Q) (msg : EstimatedState)
  (t : Tracker SD) :
  Forall (own_message t) (output_of (onEstimatedState now msg t)).
Proof.
  rewrite onEstimatedState_run.
  destruct (negb (m_active t)); [constructor |].
  destruct (Qlt_bool _ _); [| constructor].
  destruct (updateStateMachine_facts (set_estate msg t)) as [_ [_ [Hc _]]].
  assert (Hsame : forall m, own_message (set_estate msg t) m -> own_message t m).
  { intros m. destruct t. exact (fun H => H). }
  destruct (updateStateMachine (set_estate msg t)) as [[[what |] t1] o1];
    cbn [state_of output_of fst snd] in *.
  - eapply Forall_impl; [exact Hsame | exact Hc].
  - apply Forall_app. split.
    + eapply Forall_impl; [exact Hsame | exact Hc].
    + repeat constructor.
Qed.

(** X14.  An exception leaves [onEstimatedState] only in AVOIDING, as
    "unable to avoid obstacle": the state stays AVOIDING, the
    EstimatedState is stored, nothing is dispatched, and [m_last_run] is
    not written, so that the next EstimatedState runs the machine
    again. *)
Theorem exception_only_when_avoiding (now : Q) (msg : EstimatedState)
  (t : Tracker SD) (what : string) :
  fst (fst (onEstimatedState now msg t)) = Some what ->
  m_mstate t = SM_AVOIDING
  /\ m_mstate (state_of (onEstimatedState now msg t)) = SM_AVOIDING
  /\ m_last_run (state_of (onEstimatedState now msg t)) = m_last_run t
  /\ m_estate (state_of (onEstimatedState now msg t)) = msg
  /\ output_of (onEstimatedState now msg t) = []
  /\ what = "[BottomTrack.Avoiding] >> unable to avoid obstacle".
Proof.
  rewrite onEstimatedState_run.
  destruct (negb (m_active t)); [discriminate |].
  destruct (Qlt_bool _ _); [| discriminate].
  destruct (updateStateMachine_facts (set_estate msg t))
    as [_ [_ [_ [Hd [[_ [Hlr [Hes _]]] _]]]]].
  destruct (updateStateMachine (set_estate msg t)) as [[[what' |] t1] o1];
    cbn [state_of output_of fst snd] in *; [| discriminate].
  intros H. destruct (Hd what H) as [H1 [H2 [H3 H4]]].
  repeat split; assumption.
Qed.

(** The state machine runs at most once per control period: an
    EstimatedState that comes earlier is stored and nothing else. *)
Lemma machine_runs_once_per_period (now : Q) (msg : EstimatedState)
  (t : Tracker SD) :
  m_active t = true ->
  (now - m_last_run t <= control_period (m_args t))%Q ->
  onEstimatedState now msg t = (None, set_estate msg t, []).
Proof.
  intros Hact Hearly. rewrite onEstimatedState_run, Hact. cbn [negb].
  unfold Qlt_bool. apply Qle_bool_iff in Hearly. rewrite Hearly. reflexivity.
Qed.


(** ** Invariants over the calls of the owner *)

Lemma performed_invariant (P : Tracker SD -> Prop) (ok : TrackerCall -> Prop) :
  (forall t c, ok c -> P t -> P (state_of (perform c t))) ->
  forall cs t, Forall ok cs -> P t -> P (performed t cs).
Proof.
  intros Hstep cs. induction cs as [| c cs IH]; intros t Hok Ht.
  - exact Ht.
  - inversion Hok; subst. cbn [performed fold_left]. apply IH; [assumption |].
    apply Hstep; assumption.
Qed.

Lemma perform_keeps_forced (c : TrackerCall) (t : Tracker SD) :
  (m_forced t = FC_DEPTH <-> m_mstate t = SM_DEPTH) ->
  (m_forced (state_of (perform c t)) = FC_DEPTH
   <-> m_mstate (state_of (perform c t)) = SM_DEPTH).
Proof.
  intros Hinv. destruct c as [now | | msg | msg outgoing | msg | now msg].
  - cbn. split; discriminate.
  - exact Hinv.
  - exact Hinv.
  - open_tracker t. cbn [m_forced m_mstate] in Hinv.
    destruct ms; unfold_trk; trk_crunch; exact Hinv.
  - open_tracker t. cbn [m_forced m_mstate] in Hinv.
    unfold_trk. trk_crunch; exact Hinv.
  - cbv [perform bind ret state_of fst snd].
    rewrite onEstimatedState_run.
    destruct (negb (m_active t)); [exact Hinv |].
    destruct (Qlt_bool _ _); [| exact Hinv].
    destruct (updateStateMachine_facts (set_estate msg t))
      as [_ [_ [_ [_ [_ [Hf _]]]]]].
    specialize (Hf Hinv).
    destruct (updateStateMachine (set_estate msg t)) as [[[what |] t1] o1];
      exact Hf.
Qed.

(** X15.  [m_forced] is FC_DEPTH exactly in the state DEPTH, whatever the
    owner calls after the construction. *)
Theorem forced_depth_only_in_depth_state (args : Arguments) (sd : SD)
  (es : EstimatedState) (now : Q) (cs : list TrackerCall) :
  let t := performed (constructed args sd es now) cs in
  m_forced t = FC_DEPTH <-> m_mstate t = SM_DEPTH.
Proof.
  cbv zeta.
  apply (performed_invariant
           (fun t => m_forced t = FC_DEPTH <-> m_mstate t = SM_DEPTH)
           (fun _ => True)).
  - intros t c _. apply perform_keeps_forced.
  - clear. induction cs; constructor; auto.
  - cbn. split; discriminate.
Qed.

(** X16.  A reference of the owner that is on its way out goes on to the
    bus exactly when the tracker is not active or is in IDLE or TRACKING;
    in DEPTH, UNSAFE and AVOIDING the tracker holds it back.  An active
    tracker stores it in every state. *)
Theorem reference_passes_in_idle_and_tracking (args : Arguments) (sd : SD)
  (es : EstimatedState) (now : Q) (cs : list TrackerCall) (msg : DesiredZ) :
  let t := performed (constructed args sd es now) cs in
  let r := onDesiredZ msg true t in
  output_of r
  = (if negb (m_active t) || lets_references_pass (m_mstate t)
     then [OutDesiredZ SrcTask msg] else [])
  /\ state_of r = (if m_active t then set_z_ref msg t else t).
Proof.
  cbv zeta.
  assert (Hinv : m_forced (performed (constructed args sd es now) cs) = FC_DEPTH
                 <-> m_mstate (performed (constructed args sd es now) cs)
                     = SM_DEPTH).
  { apply (performed_invariant
             (fun t => m_forced t = FC_DEPTH <-> m_mstate t = SM_DEPTH)
             (fun _ => True)).
    - intros t c _. apply perform_keeps_forced.
    - clear. induction cs; constructor; auto.
    - cbn. split; discriminate. }
  destruct (performed (constructed args sd es now) cs)
    as [act ms gd zr fc dsp lr va est sd' ar].
  cbn [m_forced m_mstate m_active] in *.
  destruct act, ms, fc; unfold_trk; cbn;
    try (split; reflexivity);
    exfalso;
    first [ assert (H : SM_IDLE = SM_DEPTH) by (apply Hinv; reflexivity);
            discriminate H
          | assert (H : SM_TRACKING = SM_DEPTH) by (apply Hinv; reflexivity);
            discriminate H
          | assert (H : FC_NONE = FC_DEPTH) by (apply Hinv; reflexivity);
            discriminate H ].
Qed.

Lemma perform_keeps_waiting (c : TrackerCall) (t : Tracker SD) :
  no_speed c ->
  (m_got_data t = false /\ Qle_bool (m_dspeed t) 0 = true
   /\ m_mstate t = SM_IDLE) ->
  (m_got_data (state_of (perform c t)) = false
   /\ Qle_bool (m_dspeed (state_of (perform c t))) 0 = true
   /\ m_mstate (state_of (perform c t)) = SM_IDLE)
  /\ brake_ops (output_of (perform c t)) = [].
Proof.
  intros Hc [Hgd [Hsp Hms]].
  destruct c as [now | | msg | msg outgoing | msg | now msg].
  - cbn. repeat split.
  - cbn. repeat split; assumption.
  - cbn. repeat split; assumption.
  - open_tracker t. cbn [m_got_data m_dspeed m_mstate] in *. subst ms.
    unfold_trk. trk_crunch; repeat split; assumption.
  - open_tracker t. cbn [m_got_data m_dspeed m_mstate no_speed] in *.
    apply Qle_bool_iff in Hc.
    unfold_trk. trk_crunch; repeat split; assumption.
  - cbv [perform bind ret state_of output_of fst snd].
    rewrite onEstimatedState_run.
    destruct (negb (m_active t)); [repeat split; assumption |].
    destruct (Qlt_bool _ _); [| repeat split; assumption].
    destruct (updateStateMachine_facts (set_estate msg t))
      as [_ [_ [_ [_ [_ [_ Hw]]]]]].
    rewrite (Hw Hgd (or_intror Hsp)).
    repeat split; assumption.
Qed.


(** X17.  Until the owner hands it a positive speed reference, the tracker
    stays in IDLE without having taken data, whatever else it is called
    with. *)
Theorem idle_until_speed_reference (args : Arguments) (sd : SD)
  (es : EstimatedState) (now : Q) (cs : list TrackerCall) :
  Forall no_speed cs ->
  m_mstate (performed (constructed args sd es now) cs) = SM_IDLE
  /\ m_got_data (performed (constructed args sd es now) cs) = false.
Proof.
  intros Hcs.
  assert (H : m_got_data (performed (constructed args sd es now) cs) = false
              /\ Qle_bool (m_dspeed (performed (constructed args sd es now) cs)) 0
                 = true
              /\ m_mstate (performed (constructed args sd es now) cs) = SM_IDLE).
  { apply (performed_invariant
             (fun t => m_got_data t = false /\ Qle_bool (m_dspeed t) 0 = true
                       /\ m_mstate t = SM_IDLE) no_speed).
    - intros t c Hc Ht. apply (perform_keeps_waiting c t Hc Ht).
    - exact Hcs.
    - cbn. repeat split. }
  destruct H as [H1 [_ H3]]. split; assumption.
Qed.

End Extras.

#[local] Existing Instance blind_slope.
#[local] Existing Instance origin_math.

Lemma exception_only_when_avoiding_witness :
  m_mstate (performed (constructed btrack_args tt estate0 0) calls_into_avoiding)
  = SM_AVOIDING.
Proof.
  apply (exception_only_when_avoiding 6%Q estate_surface
           (performed (constructed btrack_args tt estate0 0) calls_into_avoiding)
           "[BottomTrack.Avoiding] >> unable to avoid obstacle").
  vm_compute. reflexivity.
Defined.

Lemma idle_until_speed_reference_witness :
  m_mstate (performed (constructed btrack_args tt estate0 0) calls_without_speed)
  = SM_IDLE.
Proof.
  apply (idle_until_speed_reference btrack_args tt estate0 0 calls_without_speed).
  repeat constructor.
Defined.

End BottomTrackerExtras.

(** * Proofs: rules for what a computation ends in and emits *)
Module OutcomeRules.
Import Sequencing SequencingRules Outcomes.

Section Rules.
Context {S O : Type}.

Lemma keeps_sequential (Q : S -> Prop) : Sequential (@keeps S O Q).
Proof.
  split; unfold keeps.
  - intros s H. exact H.
  - intros s1 s2 s3 o1 o2 H12 H23 H1. apply H23, H12, H1.
Qed.

Lemma keeps_ends {A : Type} (Q : S -> Prop) (c : M S O A) (s : S) :
  sat_at (keeps Q) c s -> Q s -> ends_in Q c s.
Proof. intros H. exact H. Qed.

Lemma ends_bind_any {A B : Type} (Q : S -> Prop) (m : M S O A)
  (f : A -> M S O B) (s : S) :
  (forall a s1, ends_in Q (f a) s1) -> ends_in Q (bind m f) s.
Proof.
  unfold ends_in, bind, state_of. intros Hf.
  destruct (m s) as [[a s1] o1]. specialize (Hf a s1).
  destruct (f a s1) as [[b s2] o2]. exact Hf.
Qed.

Lemma ends_bind_keep {A B : Type} (Q : S -> Prop) (m : M S O A)
  (f : A -> M S O B) (s : S) :
  ends_in Q m s ->
  (forall a s1, Q s1 -> ends_in Q (f a) s1) ->
  ends_in Q (bind m f) s.
Proof.
  unfold ends_in, bind, state_of. intros Hm Hf.
  destruct (m s) as [[a s1] o1]. specialize (Hf a s1 Hm).
  destruct (f a s1) as [[b s2] o2]. exact Hf.
Qed.

Lemma ends_bind_get {B : Type} (Q : S -> Prop) (k : S -> M S O B) (s : S) :
  ends_in Q (k s) s -> ends_in Q (bind get k) s.
Proof.
  unfold ends_in, bind, get, state_of. intros Hk.
  destruct (k s s) as [[b s2] o2]. exact Hk.
Qed.

Context {K : Type} (kind : O -> list K).

Lemma emits_ret {A : Type} (a : A) (s : S) : emits kind (ret a) s [].
Proof. reflexivity. Qed.

Lemma emits_get (s : S) : emits kind get s [].
Proof. reflexivity. Qed.

Lemma emits_modify (f : S -> S) (s : S) : emits kind (modify f) s [].
Proof. reflexivity. Qed.

Lemma emits_dispatch (m : O) (s : S) (l : list K) :
  kind m = l -> emits kind (dispatch m) s l.
Proof. intros <-. unfold emits. cbn. apply app_nil_r. Qed.

Lemma emits_bind {A B : Type} (m : M S O A) (f : A -> M S O B) (s : S)
  (l l1 l2 : list K) :
  emits kind m s l1 ->
  (forall a s1, emits kind (f a) s1 l2) ->
  l = l1 ++ l2 ->
  emits kind (bind m f) s l.
Proof.
  unfold emits, bind, output_of. intros Hm Hf ->.
  destruct (m s) as [[a s1] o1]. specialize (Hf a s1).
  destruct (f a s1) as [[b s2] o2]. cbn in *.
  rewrite flat_map_app, Hm, Hf. reflexivity.
Qed.

Lemma emits_bind_get {B : Type} (k : S -> M S O B) (s : S) (l : list K) :
  emits kind (k s) s l -> emits kind (bind get k) s l.
Proof.
  unfold emits, bind, get, output_of. intros Hk.
  destruct (k s s) as [[b s2] o2]. exact Hk.
Qed.

Lemma emits_when (b : bool) (c : M S O unit) (s : S) :
  emits kind c s [] -> emits kind (when b c) s [].
Proof. destruct b; intros H; [exact H | reflexivity]. Qed.

End Rules.

Ltac emits_step :=
  match goal with
  | |- emits _ (ret _) _ _ => apply emits_ret
  | |- emits _ get _ _ => apply emits_get
  | |- emits _ (modify _) _ _ => apply emits_modify
  | |- emits _ (dispatch _) _ _ => apply emits_dispatch; cbn; reflexivity
  | |- emits _ (when _ _) _ _ => apply emits_when
  | |- emits _ (bind get _) _ _ => apply emits_bind_get
  | |- emits _ (bind _ _) _ _ =>
      eapply emits_bind; [ | intros ? ? | ]
  | |- emits _ (if ?b then _ else _) _ _ => destruct b
  | |- emits _ (match ?x with _ => _ end) _ _ => destruct x
  | |- emits _ (let _ := _ in _) _ _ => cbv zeta
  end.

End OutcomeRules.

Module PathControllerExtras.
Import IMC Control PathController ControlClaims Sequencing SequencingRules.
Import ControllerFacts Outcomes OutcomeRules.

Ltac ts_unfold :=
  lazy beta iota zeta delta [updateTrackingState negb andb fst snd cx cy cz
         set_ts_start set_ts_end set_ts_track_bearing set_ts_track_length
         set_ts_track_pos set_ts_track_vel set_ts_los_angle set_ts_range
         set_ts_course set_ts_speed set_ts_course_error set_ts_eta
         set_ts_start_time set_ts_end_time set_ts_now set_ts_delta
         set_ts_cc set_ts_loitering set_ts_nearby set_ts_z_control
         set_ts_loiter
         ts_start ts_end ts_track_bearing ts_track_length ts_track_pos
         ts_track_vel ts_los_angle ts_range ts_course ts_speed
         ts_course_error ts_eta ts_start_time ts_end_time ts_now ts_delta
         ts_cc ts_loitering ts_nearby ts_z_control ts_loiter].

(** The values of the numeric library play no part in the tests. *)
Ltac forget_geometry :=
  repeat match goal with
  | |- context [getTrackPosition ?a ?b] =>
      generalize (getTrackPosition a b); intro
  | |- context [getBearingAndRange ?a ?b] =>
      generalize (getBearingAndRange a b); intro
  | |- context [Angles_normalizeRadian ?a] =>
      generalize (Angles_normalizeRadian a); intro
  | |- context [Math_norm ?a ?b] =>
      generalize (Math_norm a b); intro
  | |- context [std_atan2 ?a ?b] =>
      generalize (std_atan2 a b); intro
  end.

Ltac inner_if :=
  match goal with
  | |- context [if ?b then _ else _] =>
      lazymatch b with
      | context [if _ then _ else _] => fail
      | _ => destruct b eqn:?
      end
  end.

Ltac recall_tests :=
  repeat match goal with
  | H : ?c = _ |- context [if ?c then _ else _] => rewrite H
  end.

Ltac ctl_unfold :=
  cbv [consume_Brake consume_ControlLoops consume_Distance consume_DesiredZ
       consume_DesiredSpeed consume_NavigationUncertainty
       activate deactivate onActivation onDeactivation
       monitorAlongTrackError monitorCrossTrackError
       enableControlLoops disableControlLoops
       signalError updateEntityState setEntityState
       bind get ret when modify dispatch with_btrack state_of output_of
       upd_ts upd_pcs upd_atm upd_ctm
       set_active set_running_monitors set_error set_setup set_braking
       set_aloops set_tracking set_estate set_ts set_pcs set_zref set_speed
       set_last_pcs_report set_atm set_ctm set_cperiod set_speriod
       set_btd_enabled set_btrack set_entity_state set_entity_desc
       m_active m_running_monitors m_error m_setup m_braking m_aloops
       m_tracking m_estate m_ts m_pcs m_zref m_speed m_last_pcs_report
       m_atm m_ctm m_cperiod m_speriod m_btd_enabled m_btrack
       m_entity_state m_entity_desc
       set_atm_diverging set_atm_time set_atm_last_err set_atm_last_course_err
       atm_enabled atm_period atm_min_speed atm_min_yaw atm_diverging atm_time
       atm_last_err atm_last_course_err
       set_ctm_nav_uncertainty set_ctm_diverging
       set_ctm_divergence_started
       ctm_enabled ctm_distance_limit ctm_time_limit ctm_nav_unc_factor
       ctm_nav_uncertainty ctm_diverging ctm_divergence_started
       negb andb orb Bool.eqb fst snd app].

Ltac open_controller s :=
  destruct s as [act rm err setup br al trk est ts pcs zr sp lr atm ctm cp spd
                 btd bt ens end_].

Ltac open_btrack bt :=
  destruct bt as [tact tms tgd tzr tfc tdsp tlr tva test tsd tar].

Ltac ctl_crunch := repeat (inner_if; ctl_unfold).

Section Extras.
Context {SD : Type} {sdo : BottomTracker.SlopeDataOps SD}.
Context {math : MathLib} {hooks : ControllerHooks}.

(** X18.  [updateTrackingState] leaves the loitering flag alone and never
    gives an ETA above 65535.  In loiter the ETA is 0 and the nearby flag
    is clear.  Out of loiter the nearby flag, once set, stays set with
    its end time; while it is clear, the update either sets it, with ETA
    0 and the end time at the current time, or leaves it clear with a
    positive ETA and the end time as it was. *)
Theorem eta_and_nearby_after_update (es : EstimatedState) (ts : TrackingState) :
  let ts' := updateTrackingState es ts in
  ts_loitering ts' = ts_loitering ts
  /\ (ts_eta ts' <= 65535)%Q
  /\ (ts_loitering ts = true -> ts_eta ts' = 0%Q /\ ts_nearby ts' = false)
  /\ (ts_loitering ts = false -> ts_nearby ts = true ->
        ts_nearby ts' = true /\ ts_end_time ts' = ts_end_time ts)
  /\ (ts_loitering ts = false -> ts_nearby ts = false ->
        if ts_nearby ts'
        then ts_eta ts' = 0%Q /\ ts_end_time ts' = ts_now ts
        else (0 < ts_eta ts')%Q /\ ts_end_time ts' = ts_end_time ts).
Proof.
  destruct ts as [st en tb tl tp tv la rg co sp ce eta stt ent nw dl cc lo nb zc lt].
  cbv zeta. cbn [ts_loitering ts_nearby ts_end_time ts_now].
  destruct cc, lo, nb; ts_unfold; forget_geometry;
    repeat (inner_if; ts_unfold; recall_tests; ts_unfold).
  all: split; [reflexivity |].
  all: split; [first [apply Q.le_min_l | discriminate] |].
  all: split; [intros H; first [discriminate H | split; reflexivity] |].
  all: split; [intros H1 H2; first [discriminate H1 | discriminate H2
                                   | split; reflexivity] |].
  all: intros H1 H2; first [discriminate H1 | discriminate H2 | idtac].
  all: split; try reflexivity.
  all: match goal with
       | H : Qle_bool ?x 0 = false |- (0 < ?x)%Q =>
           apply Qnot_le_lt; intros Hle; apply Qle_bool_iff in Hle;
           rewrite Hle in H; discriminate H
       end.
Qed.


(** ** The requested control loops *)

Ltac by_bits H :=
  apply Z.bits_inj'; intros n Hn;
  apply (f_equal (fun z => Z.testbit z n)) in H; revert H;
  repeat (rewrite Z.lor_spec || rewrite Z.ldiff_spec || rewrite Z.land_spec);
  destruct (Z.testbit _ n), (Z.testbit _ n); cbn; congruence.

Lemma covered_iff_union (a mask : Z) :
  Z.land mask a = mask <-> Z.lor a mask = a.
Proof. split; intros H; by_bits H. Qed.

Lemma disjoint_iff_difference (a mask : Z) :
  Z.ldiff mask a = mask <-> Z.ldiff a mask = a.
Proof. split; intros H; by_bits H. Qed.

Lemma eqb_iff (a b c d : Z) : (a = b <-> c = d) -> (a =? b) = (c =? d).
Proof.
  intros H. destruct (Z.eqb_spec a b), (Z.eqb_spec c d); tauto.
Qed.

Lemma configureControlLoops_result (enable mask : Z) (s : Controller SD) :
  is_uint32 mask ->
  is_uint32 (m_aloops s) ->
  let loops := if enable =? 0 then Z.ldiff (m_aloops s) mask
               else Z.lor (m_aloops s) mask in
  configureControlLoops enable mask s
  = (tt, set_aloops loops s,
     if loops =? m_aloops s then [] else [OutControlLoops enable mask]).
Proof.
  intros Hmask Hloops. cbv zeta.
  destruct s as [act rm err setup br al trk est ts pcs zr sp lr atm ctm cp spd
                 btd bt ens end_].
  cbn [m_aloops] in *.
  assert (Hd1 := SupervisorProofs.land_not32 al mask Hloops).
  assert (Hd2 := SupervisorProofs.land_not32 mask al Hmask).
  assert (He1 := eqb_iff _ _ _ _ (covered_iff_union al mask)).
  assert (He2 := eqb_iff _ _ _ _ (disjoint_iff_difference al mask)).
  unfold configureControlLoops.
  cbv [bind get ret modify dispatch set_aloops m_aloops m_active
       m_running_monitors m_error m_setup m_braking m_tracking m_estate m_ts
       m_pcs m_zref m_speed m_last_pcs_report m_atm m_ctm m_cperiod m_speriod
       m_btd_enabled m_btrack m_entity_state m_entity_desc app].
  rewrite Hd1, Hd2, He1, He2.
  destruct (enable =? 0); cbn [negb].
  - destruct (Z.eqb_spec (Z.ldiff al mask) al) as [Heq | Hne];
      [rewrite Heq |]; reflexivity.
  - destruct (Z.eqb_spec (Z.lor al mask) al) as [Heq | Hne];
      [rewrite Heq |]; reflexivity.
Qed.

(** X19.  For 32-bit masks, [configureControlLoops] adds the mask to, or
    removes it from, the loops the controller has requested, and
    dispatches a ControlLoops exactly when that changes them; asked the
    same again, it is silent. *)
Theorem loops_message_iff_mask_changes (enable mask : Z) (s : Controller SD) :
  is_uint32 mask ->
  is_uint32 (m_aloops s) ->
  let r := configureControlLoops enable mask s in
  m_aloops (state_of r)
  = (if enable =? 0 then Z.ldiff (m_aloops s) mask
     else Z.lor (m_aloops s) mask)
  /\ is_uint32 (m_aloops (state_of r))
  /\ output_of r
     = (if m_aloops (state_of r) =? m_aloops s then []
        else [OutControlLoops enable mask])
  /\ output_of (configureControlLoops enable mask (state_of r)) = [].
Proof.
  intros Hmask Hloops. cbv zeta.
  rewrite (configureControlLoops_result enable mask s Hmask Hloops).
  cbn [state_of output_of fst snd].
  set (loops := if enable =? 0 then Z.ldiff (m_aloops s) mask
                else Z.lor (m_aloops s) mask).
  change (m_aloops (set_aloops loops s)) with loops.
  assert (Hu : is_uint32 loops).
  { subst loops. destruct (enable =? 0).
    - apply SupervisorProofs.uint32_ldiff. exact Hloops.
    - apply SupervisorProofs.uint32_lor; assumption. }
  split; [reflexivity |]. split; [exact Hu |]. split; [reflexivity |].
  rewrite (configureControlLoops_result enable mask (set_aloops loops s) Hmask Hu).
  cbn [output_of snd].
  change (m_aloops (set_aloops loops s)) with loops.
  assert (Hidem : (if enable =? 0 then Z.ldiff loops mask else Z.lor loops mask)
                  = loops).
  { subst loops. destruct (enable =? 0); apply Z.bits_inj'; intros n Hn;
      repeat (rewrite Z.lor_spec || rewrite Z.ldiff_spec);
      destruct (Z.testbit (m_aloops s) n), (Z.testbit mask n); reflexivity. }
  rewrite Hidem, Z.eqb_refl. reflexivity.
Qed.


(** ** The monitors *)

(** X20.  The along-track monitor dispatches nothing, and does nothing
    before its next check is due; at a check it moves the next one a
    period further and records the position and course error.  It
    signals an error only when the vehicle was already marked as
    diverging at the check before and still is; a vehicle not marked
    leaves the error flag as it was. *)
Theorem along_track_error_needs_two_failures (s : Controller SD) :
  let r := monitorAlongTrackError s in
  output_of r = []
  /\ (Qlt_bool (ts_now (m_ts s)) (atm_time (m_atm s)) = true -> state_of r = s)
  /\ (Qlt_bool (ts_now (m_ts s)) (atm_time (m_atm s)) = false ->
        atm_time (m_atm (state_of r))
        = (atm_time (m_atm s) + atm_period (m_atm s))%Q
        /\ atm_last_err (m_atm (state_of r)) = cx (ts_track_pos (m_ts s))
        /\ atm_last_course_err (m_atm (state_of r))
           = Qabs (ts_course_error (m_ts s)))
  /\ (atm_diverging (m_atm s) = false -> m_error (state_of r) = m_error s)
  /\ (m_error (state_of r) = true ->
        m_error s = true
        \/ (atm_diverging (m_atm s) = true
            /\ atm_diverging (m_atm (state_of r)) = true)).
Proof.
  open_controller s. destruct atm as [en pe msp my dv tm le lce].
  cbv zeta. cbn [m_ts m_atm atm_time atm_period atm_diverging m_error].
  remember (monitorAlongTrackError _) as r eqn:E. revert E.
  ctl_unfold. destruct dv; ctl_crunch; intros ->; ctl_unfold.
  all: repeat split; intros; try reflexivity; try discriminate; auto.
  all: try (right; split; reflexivity).
Qed.

(** X21.  The cross-track monitor signals an error only when the vehicle
    has been beyond the distance limit (widened by the navigation
    uncertainty) since at least the time limit; the first time beyond
    the limit only starts the clock, and back within the limit the
    vehicle is no longer diverging. *)
Theorem cross_track_error_after_time_limit (s : Controller SD) :
  let r := monitorCrossTrackError s in
  let d := Qabs (cy (ts_track_pos (m_ts s))) in
  let limit := (ctm_distance_limit (m_ctm s) + ctm_nav_uncertainty (m_ctm s))%Q in
  output_of r = []
  /\ (m_error (state_of r) = true ->
        m_error s = true
        \/ (ctm_diverging (m_ctm s) = true
            /\ (limit <= d)%Q
            /\ (ctm_time_limit (m_ctm s)
                <= ts_now (m_ts s) - ctm_divergence_started (m_ctm s))%Q))
  /\ (~ (limit <= d)%Q ->
        ctm_diverging (m_ctm (state_of r)) = false
        /\ m_error (state_of r) = m_error s)
  /\ (ctm_diverging (m_ctm s) = false -> (limit <= d)%Q ->
        ctm_diverging (m_ctm (state_of r)) = true
        /\ ctm_divergence_started (m_ctm (state_of r)) = ts_now (m_ts s)
        /\ m_error (state_of r) = m_error s).
Proof.
  open_controller s. destruct ctm as [en dl tl nf nu dv ds].
  cbv zeta.
  cbn [m_ts m_ctm ctm_distance_limit ctm_nav_uncertainty ctm_diverging
       ctm_time_limit ctm_divergence_started m_error].
  remember (monitorCrossTrackError _) as r eqn:E. revert E.
  ctl_unfold. destruct dv; ctl_crunch; intros ->; ctl_unfold.
  all: repeat match goal with
       | H : Qle_bool _ _ = true |- _ => apply Qle_bool_iff in H
       | H : Qle_bool ?a ?b = false |- _ =>
           assert (~ (a <= b)%Q)
             by (intros Hle; apply Qle_bool_iff in Hle; congruence);
           clear H
       end.
  all: repeat split; intros; try reflexivity; try discriminate; auto;
    try contradiction.
  all: try (right; repeat split; assumption).
Qed.


(** ** Activation *)

Ltac trk_unfold :=
  cbv [BottomTracker.activate BottomTracker.deactivate BottomTracker.reset
       BottomTracker.onDistance
       bind get ret when modify dispatch state_of output_of
       BottomTracker.upd_sdata BottomTracker.set_active
       BottomTracker.set_mstate BottomTracker.set_got_data
       BottomTracker.set_z_ref BottomTracker.set_forced
       BottomTracker.set_dspeed BottomTracker.set_last_run
       BottomTracker.set_sdata
       BottomTracker.m_active BottomTracker.m_mstate BottomTracker.m_got_data
       BottomTracker.m_z_ref BottomTracker.m_forced BottomTracker.m_dspeed
       BottomTracker.m_last_run BottomTracker.m_valid_alt
       BottomTracker.m_estate BottomTracker.m_sdata BottomTracker.m_args
       fst snd app].

(** What [consume] of a ControlLoops does, by case on the activation
    before and after. *)
Lemma consume_ControlLoops_facts (now : Q) (enable mask : Z)
  (s : Controller SD) :
  let r := consume_ControlLoops now enable mask s in
  let s' := state_of r in
  let loops := if enable =? 0 then Z.land (m_aloops s) (not32 mask)
               else Z.lor (m_aloops s) mask in
  m_active s'
  = (if Z.land mask CL_PATH =? 0 then m_active s else enable =? CL_ENABLE)
  /\ (m_active s' = m_active s -> s' = set_aloops loops s /\ output_of r = [])
  /\ (m_active s = false -> m_active s' = true ->
        m_error s' = false /\ m_tracking s' = false /\ m_braking s' = false
        /\ m_aloops s' = loops
        /\ In CallOnPathActivation (output_of r)
        /\ (m_btd_enabled s = true ->
              BottomTracker.m_active (m_btrack s') = true
              /\ BottomTracker.m_mstate (m_btrack s') = BottomTracker.SM_IDLE
              /\ BottomTracker.m_got_data (m_btrack s') = false
              /\ dz_units (BottomTracker.m_z_ref (m_btrack s')) = Z_NONE))
  /\ (m_active s = true -> m_active s' = false ->
        m_error s' = false
        /\ ts_end_time (m_ts s') = now
        /\ (m_aloops s' = loops
            \/ m_aloops s' = Z.land loops (not32 CL_ALTITUDE)
            \/ m_aloops s' = Z.land loops (not32 CL_DEPTH))
        /\ In CallOnPathDeactivation (output_of r)
        /\ (m_btd_enabled s = true ->
              m_braking s' = false
              /\ BottomTracker.m_active (m_btrack s') = false
              /\ brake_ops_of_task (output_of r)
                 = if m_braking s then [OP_STOP] else [])).
Proof.
  open_controller s. open_btrack bt. cbv zeta.
  cbn [m_active m_aloops m_btd_enabled m_braking].
  remember (consume_ControlLoops _ _ _ _) as r eqn:E. revert E.
  ctl_unfold. unfold configureControlLoops. ctl_unfold. trk_unfold.
  destruct act; ctl_crunch; trk_unfold; ctl_crunch; intros ->;
    ctl_unfold; trk_unfold.
  all: repeat split; intros; try reflexivity; try discriminate;
    try congruence; try (cbn; tauto); auto.
Qed.

(** X22.  A ControlLoops message switches the controller on or off only
    when its mask has CL_PATH; when the activation stays as it was, the
    message only updates the loops taken as requested.  Switched on, the
    controller starts anew: [onPathActivation] is called, there is no
    error, no path tracked, no braking, and a bottom tracker is active
    in IDLE without data or reference.  Switched off, with
    [onPathDeactivation] called, it leaves no error behind, the track
    ends now, and a bottom tracker is switched off without braking: a
    [Brake] STOP is dispatched exactly when it was braking. *)
Theorem control_loops_switch_activation (now : Q) (enable mask : Z)
  (s : Controller SD) :
  let r := consume_ControlLoops now enable mask s in
  let s' := state_of r in
  m_active s'
  = (if Z.land mask CL_PATH =? 0 then m_active s else enable =? CL_ENABLE)
  /\ (m_active s' = m_active s ->
        s' = set_aloops (if enable =? 0 then Z.land (m_aloops s) (not32 mask)
                         else Z.lor (m_aloops s) mask) s
        /\ output_of r = [])
  /\ (m_active s = false -> m_active s' = true ->
        m_error s' = false /\ m_tracking s' = false /\ m_braking s' = false
        /\ In CallOnPathActivation (output_of r)
        /\ (m_btd_enabled s = true ->
              BottomTracker.m_active (m_btrack s') = true
              /\ BottomTracker.m_mstate (m_btrack s') = BottomTracker.SM_IDLE
              /\ BottomTracker.m_got_data (m_btrack s') = false
              /\ dz_units (BottomTracker.m_z_ref (m_btrack s')) = Z_NONE))
  /\ (m_active s = true -> m_active s' = false ->
        m_error s' = false
        /\ ts_end_time (m_ts s') = now
        /\ In CallOnPathDeactivation (output_of r)
        /\ (m_btd_enabled s = true ->
              m_braking s' = false
              /\ BottomTracker.m_active (m_btrack s') = false
              /\ brake_ops_of_task (output_of r)
                 = if m_braking s then [OP_STOP] else [])).
Proof.
  cbv zeta.
  destruct (consume_ControlLoops_facts now enable mask s)
    as [H1 [H2 [H3 H4]]].
  split; [exact H1 |]. split; [exact H2 |]. split.
  - intros Ha Hb. destruct (H3 Ha Hb) as [E1 [E2 [E3 [_ [E5 E6]]]]].
    repeat split; try assumption; apply E6; assumption.
  - intros Ha Hb. destruct (H4 Ha Hb) as [E1 [E2 [_ [E4 E5]]]].
    repeat split; try assumption; apply E5; assumption.
Qed.

(** ** Errors *)

(** X23.  Without a bottom tracker a Distance is ignored.  With one, an
    exception of the slope data puts the controller in error (outside
    setup, with the entity in ERROR and the text of the exception) and
    ends its braking, with a [Brake] STOP exactly when it was braking;
    with no exception only the slope data changes. *)
Theorem distance_exception_raises_error (dist : Distance) (s : Controller SD) :
  let r := consume_Distance dist s in
  let res := BottomTracker.sd_onDistance dist
               (BottomTracker.m_estate (m_btrack s))
               (BottomTracker.m_sdata (m_btrack s)) in
  (m_btd_enabled s = false -> r = (tt, s, []))
  /\ (m_btd_enabled s = true -> snd res = None ->
        state_of r
        = set_btrack (BottomTracker.set_sdata (fst res) (m_btrack s)) s
        /\ output_of r = [])
  /\ (m_btd_enabled s = true -> forall what, snd res = Some what ->
        m_error (state_of r) = true
        /\ m_braking (state_of r) = false
        /\ output_of r = (if m_braking s then [OutBrake SrcTask OP_STOP] else [])
        /\ (m_setup s = false ->
              m_entity_state (state_of r) = ESTA_ERROR
              /\ m_entity_desc (state_of r) = what)).
Proof.
  open_controller s. open_btrack bt. cbv zeta.
  cbn [m_btd_enabled m_btrack m_braking m_setup BottomTracker.m_estate
       BottomTracker.m_sdata].
  remember (consume_Distance _ _) as r eqn:E. revert E.
  ctl_unfold. trk_unfold.
  destruct btd; [| intros ->; repeat split; intros; discriminate].
  destruct (BottomTracker.sd_onDistance dist test tsd) as [sd' [what |]];
    cbn [fst snd]; ctl_unfold; ctl_crunch; intros ->; ctl_unfold.
  all: split; [intros H; discriminate H |].
  all: split; [intros _ H; first [discriminate H | split; reflexivity] |].
  all: intros _ what' H; first [discriminate H | inversion H; subst];
    repeat split; intros; try reflexivity; discriminate.
Qed.

(** X24.  Once in error, the controller leaves the error only when a
    ControlLoops with CL_PATH switches it on or off. *)
Theorem error_cleared_only_by_switch (s : Controller SD) (now : Q) (ev : Event) :
  m_error s = true ->
  m_error (step_event s (now, ev)) = false ->
  exists enable mask,
    ev = EvControlLoops enable mask
    /\ Z.land mask CL_PATH <> 0
    /\ m_active (step_event s (now, ev)) <> m_active s.
Proof.
  intros Herr Hclear.
  destruct ev as [op | enable mask | dpath | es | dist | zref | dspeed | nu].
  2: { exists enable, mask. split; [reflexivity |].
       revert Hclear. unfold step_event. cbn [fst snd handle].
       open_controller s. open_btrack bt. cbn [m_error m_active] in *. subst err.
       ctl_unfold. unfold configureControlLoops. ctl_unfold. trk_unfold.
       destruct act; ctl_crunch; trk_unfold; ctl_crunch; intros H;
         try discriminate H;
         (split; [apply Z.eqb_neq; assumption | discriminate]). }
  all: exfalso;
    match goal with
    | H : m_error (step_event _ (_, ?e)) = false |- _ =>
        destruct (PathControllerProofs.handle_in_error now e s eq_refl Herr)
          as [Hkept _]
    end;
    unfold step_event in Hclear; cbn [fst snd] in Hclear;
    rewrite Hkept in Hclear; discriminate Hclear.
Qed.

(** ** A controller that is not active *)

Ltac ctl_lazy :=
  lazy beta iota zeta delta
      [handle consume_Brake consume_ControlLoops consume_Distance
       consume_DesiredZ consume_DesiredSpeed consume_NavigationUncertainty
       consume_DesiredPath consume_EstimatedState
       signalError updateEntityState setEntityState
       BottomTracker.onEstimatedState BottomTracker.onDesiredZ
       BottomTracker.onDesiredSpeed BottomTracker.onDistance
       bind get ret when modify dispatch with_btrack state_of output_of
       upd_ts upd_pcs upd_atm upd_ctm
       set_active set_running_monitors set_error set_setup set_braking
       set_aloops set_tracking set_estate set_ts set_pcs set_zref set_speed
       set_last_pcs_report set_atm set_ctm set_cperiod set_speriod
       set_btd_enabled set_btrack set_entity_state set_entity_desc
       m_active m_running_monitors m_error m_setup m_braking m_aloops
       m_tracking m_estate m_ts m_pcs m_zref m_speed m_last_pcs_report
       m_atm m_ctm m_cperiod m_speriod m_btd_enabled m_btrack
       m_entity_state m_entity_desc
       set_ctm_nav_uncertainty
       BottomTracker.set_sdata BottomTracker.m_active BottomTracker.m_mstate
       BottomTracker.m_got_data BottomTracker.m_z_ref BottomTracker.m_forced
       BottomTracker.m_dspeed BottomTracker.m_last_run
       BottomTracker.m_valid_alt BottomTracker.m_estate
       BottomTracker.m_sdata BottomTracker.m_args
       dormant is_brake_release
       negb andb orb Bool.eqb fst snd app].

Lemma handle_dormant (now : Q) (ev : Event) (s : Controller SD) :
  switches_on (now, ev) = false ->
  dormant s ->
  dormant (state_of (handle now ev s))
  /\ Forall is_brake_release (output_of (handle now ev s)).
Proof.
  intros Hev [Hact Htrk].
  open_controller s. open_btrack bt.
  cbn [m_active m_btrack BottomTracker.m_active] in Hact, Htrk. subst.
  destruct ev as [op | enable mask | dpath | es | dist | zref | dspeed | nu];
    cbn [switches_on snd] in Hev.
  5: { ctl_lazy.
       destruct btd; ctl_lazy; [| split; [split; reflexivity | constructor]].
       destruct (BottomTracker.sd_onDistance dist test tsd)
         as [sd' [what |]]; ctl_lazy; destruct br; ctl_lazy;
         repeat (inner_if; ctl_lazy);
         (split; [split; reflexivity | repeat constructor]). }
  2: { ctl_lazy. destruct (Z.land mask CL_PATH =? 0); cbn [negb andb] in Hev;
         ctl_lazy; [split; [split; reflexivity | constructor] |].
       rewrite Hev. ctl_lazy. split; [split; reflexivity | constructor]. }
  all: ctl_lazy; repeat (inner_if; ctl_lazy);
    (split; [split; reflexivity | constructor]).
Qed.

(** X25.  While neither the controller nor its bottom tracker is active,
    they stay so whatever the controller consumes short of a
    ControlLoops that switches path control on, and the controller
    dispatches nothing (no reference, no ControlLoops, no
    PathControlState, no call of a hook) but the [Brake] STOP that goes
    with an exception of the slope data. *)
Theorem dormant_controller_is_quiet (es : list (Q * Event)) :
  forall s : Controller SD,
    dormant s ->
    forallb (fun e => negb (switches_on e)) es = true ->
    dormant (run s es) /\ Forall is_brake_release (trace s es).
Proof.
  induction es as [| [now ev] es IH]; intros s Hs Hes.
  - split; [exact Hs | constructor].
  - cbn [forallb] in Hes. apply andb_true_iff in Hes. destruct Hes as [He Hes].
    apply negb_true_iff in He.
    destruct (handle_dormant now ev s He Hs) as [Hs' Ho].
    destruct (IH (step_event s (now, ev)) Hs' Hes) as [Hrun Htrace].
    cbn [run trace fold_left]. split; [exact Hrun |].
    apply Forall_app. split; [exact Ho | exact Htrace].
Qed.


(** ** A new track *)

Lemma updateTrackingState_keeps_loitering (es : EstimatedState)
  (ts : TrackingState) :
  ts_loitering (updateTrackingState es ts) = ts_loitering ts.
Proof.
  destruct ts as [st en tb tl tp tv la rg co sp ce eta stt ent nw dl cc lo nb zc lt].
  destruct cc, lo, nb; ts_unfold; forget_geometry;
    repeat (inner_if; ts_unfold); reflexivity.
Qed.

Lemma setup_loiter_not_loitering (dpath : DesiredPath) (es : EstimatedState)
  (ts : TrackingState) :
  ts_loitering (setup_loiter dpath es ts) = false.
Proof.
  destruct ts as [st en tb tl tp tv la rg co sp ce eta stt ent nw dl cc lo nb zc lt].
  unfold setup_loiter. ts_unfold.
  repeat (inner_if; ts_unfold); reflexivity.
Qed.

#[local] Existing Instance keeps_sequential.

Lemma with_btrack_keeps {A : Type} (Q : Controller SD -> Prop)
  (c : BottomTracker.Trk A) (s : Controller SD) :
  (forall t s0, Q s0 -> Q (set_btrack t s0)) ->
  sat_at (keeps Q) (with_btrack c) s.
Proof.
  unfold sat_at, keeps, with_btrack, state_of. intros HQ.
  destruct (c (m_btrack s)) as [[a t] o]. apply HQ.
Qed.

Lemma with_btrack_announces_nothing (zref : DesiredZ) (s : Controller SD) :
  emits announcement (with_btrack (BottomTracker.onDesiredZ zref true)) s [].
Proof.
  unfold emits, with_btrack, BottomTracker.onDesiredZ.
  cbv [bind get modify when dispatch ret output_of snd].
  destruct (BottomTracker.m_active (m_btrack s)); [| reflexivity].
  match goal with
  | |- context [if ?b then _ else _] => destruct b
  end; reflexivity.
Qed.

Lemma updateTrackingState_keeps_now (es : EstimatedState) (ts : TrackingState) :
  ts_now (updateTrackingState es ts) = ts_now ts.
Proof.
  destruct ts as [st en tb tl tp tv la rg co sp ce eta stt ent nw dl cc lo nb zc lt].
  destruct cc, lo, nb; ts_unfold; forget_geometry;
    repeat (inner_if; ts_unfold); reflexivity.
Qed.

Lemma setup_loiter_keeps_now (dpath : DesiredPath) (es : EstimatedState)
  (ts : TrackingState) :
  ts_now (setup_loiter dpath es ts) = ts_now ts.
Proof.
  destruct ts as [st en tb tl tp tv la rg co sp ce eta stt ent nw dl cc lo nb zc lt].
  unfold setup_loiter. ts_unfold.
  repeat (inner_if; ts_unfold); reflexivity.
Qed.

Ltac unfold_path :=
  unfold consume_DesiredPath, reportPathControlState, enableControlLoops,
    disableControlLoops, configureControlLoops, updateEntityState,
    setEntityState.

(** A step that leaves the property alone. *)
Ltac keep_leaf :=
  match goal with
  | |- keeps _ ?s _ _ =>
      let H := fresh "Hkept" in
      generalize s; intros ? H;
      lazymatch goal with
      | |- context [updateTrackingState] =>
          cbv beta iota delta [upd_ts set_ts m_ts];
          rewrite ?updateTrackingState_keeps_loitering,
                  ?updateTrackingState_keeps_now; exact H
      | |- context [setup_loiter] =>
          cbv beta iota delta [upd_ts set_ts m_ts];
          rewrite ?setup_loiter_keeps_now; exact H
      | _ => exact H
      end
  end.

Ltac keep_walk :=
  repeat first
    [ apply with_btrack_keeps; intros ? ? Hset; exact Hset
    | sat_step ];
  try keep_leaf.

(** Walks to the step that establishes the property, then checks that
    the rest keeps it. *)
Ltac ends_walk establish :=
  repeat match goal with
  | |- ends_in _ (bind get _) _ => apply ends_bind_get
  | |- ends_in _ (bind (modify _) _) _ =>
      first [ apply ends_bind_keep;
              [ solve [establish]
              | intros ? ? ?;
                solve [apply keeps_ends; [keep_walk | assumption]] ]
            | apply ends_bind_any; intros ? ? ]
  | |- ends_in _ (bind _ _) _ => apply ends_bind_any; intros ? ?
  | |- ends_in _ (if ?b then _ else _) _ => destruct b
  | |- ends_in _ (match ?x with _ => _ end) _ => destruct x
  | |- ends_in _ (let _ := _ in _) _ => cbv zeta
  end.

(** X26.  A DesiredPath consumed while active always starts a track: the
    path is tracked, not in loiter, timed from now, with the speed of
    the message as the speed reference; among what is dispatched, the
    speed reference, one PathControlState and the call of
    [onPathStartup] follow in this order.  An error is left as it is. *)
Theorem desired_path_starts_a_track (now : Q) (dpath : DesiredPath)
  (s : Controller SD) :
  m_active s = true ->
  let r := consume_DesiredPath now dpath s in
  let s' := state_of r in
  m_tracking s' = true
  /\ ts_loitering (m_ts s') = false
  /\ ts_now (m_ts s') = now
  /\ m_speed s' = mkDesiredSpeed (dp_speed dpath) (dp_speed_units dpath)
  /\ m_error s' = m_error s
  /\ m_active s' = true
  /\ flat_map announcement (output_of r) = [AnnSpeed; AnnState; AnnStartup].
Proof.
  intros Hact. cbv zeta.
  split; [| split; [| split; [| split; [| split; [| split]]]]].
  - change (ends_in (fun s0 => m_tracking s0 = true)
              (consume_DesiredPath now dpath) s).
    unfold consume_DesiredPath. apply ends_bind_get. rewrite Hact. cbn [negb].
    unfold_path. cbn [negb andb]. ends_walk ltac:(exact eq_refl).
  - change (ends_in (fun s0 => ts_loitering (m_ts s0) = false)
              (consume_DesiredPath now dpath) s).
    unfold consume_DesiredPath. apply ends_bind_get. rewrite Hact. cbn [negb].
    unfold_path. cbn [negb andb].
    ends_walk ltac:(idtac; match goal with
                    | |- ends_in _ (modify (upd_ts (setup_loiter _ _))) _ =>
                        apply setup_loiter_not_loitering
                    end).
  - change (ends_in (fun s0 => ts_now (m_ts s0) = now)
              (consume_DesiredPath now dpath) s).
    unfold consume_DesiredPath. apply ends_bind_get. rewrite Hact. cbn [negb].
    unfold_path. cbn [negb andb]. ends_walk ltac:(exact eq_refl).
  - change (ends_in (fun s0 => m_speed s0
                               = mkDesiredSpeed (dp_speed dpath)
                                                (dp_speed_units dpath))
              (consume_DesiredPath now dpath) s).
    unfold consume_DesiredPath. apply ends_bind_get. rewrite Hact. cbn [negb].
    unfold_path. cbn [negb andb]. ends_walk ltac:(exact eq_refl).
  - change (ends_in (fun s0 => m_error s0 = m_error s)
              (consume_DesiredPath now dpath) s).
    apply keeps_ends; [| reflexivity].
    unfold_path. keep_walk.
  - change (ends_in (fun s0 => m_active s0 = true)
              (consume_DesiredPath now dpath) s).
    apply keeps_ends; [| exact Hact].
    unfold_path. keep_walk.
  - change (emits announcement (consume_DesiredPath now dpath) s
              [AnnSpeed; AnnState; AnnStartup]).
    unfold consume_DesiredPath. apply emits_bind_get. rewrite Hact. cbn [negb].
    unfold_path. cbn [negb andb].
    repeat first
      [ match goal with
        | |- emits _ (with_btrack _) _ _ => apply with_btrack_announces_nothing
        end
      | emits_step ].
    all: reflexivity.
Qed.

End Extras.

(** ** On example inputs *)

#[local] Existing Instance blind_slope.
#[local] Existing Instance origin_math.
#[local] Existing Instance base_hooks.

Lemma loops_message_iff_mask_changes_witness :
  m_aloops (state_of (configureControlLoops CL_ENABLE CL_SPEED controller0))
  = CL_SPEED.
Proof.
  apply (loops_message_iff_mask_changes CL_ENABLE CL_SPEED controller0);
    cbv; split; congruence.
Defined.

Lemma error_cleared_only_by_switch_witness :
  exists enable mask,
    EvControlLoops CL_DISABLE CL_PATH = EvControlLoops enable mask
    /\ Z.land mask CL_PATH <> 0
    /\ m_active (step_event controller_in_error
                   (2%Q, EvControlLoops CL_DISABLE CL_PATH))
       <> m_active controller_in_error.
Proof.
  apply (error_cleared_only_by_switch controller_in_error 2%Q
           (EvControlLoops CL_DISABLE CL_PATH)); reflexivity.
Defined.

Lemma dormant_controller_is_quiet_witness :
  dormant (run controller0 events_while_dormant)
  /\ Forall is_brake_release (trace controller0 events_while_dormant).
Proof.
  apply (dormant_controller_is_quiet events_while_dormant controller0).
  - split; reflexivity.
  - reflexivity.
Defined.

Lemma desired_path_starts_a_track_witness :
  m_tracking (state_of (consume_DesiredPath 3 plain_path controller_tracking))
  = true.
Proof.
  destruct (desired_path_starts_a_track 3%Q plain_path controller_tracking
              eq_refl) as [H _].
  exact H.
Defined.

End PathControllerExtras.

Module ManeuversProofs.
Import IMC Control Maneuvers ControlClaims.

Ltac man_unfold :=
  cbv [setControl updateLoops signalError signalCompletion signalProgress
       activate deactivate consume_StopManeuver consume_Loiter startManeuver
       consume_PathControlState in_base
       bind get ret when modify dispatch state_of output_of
       set_is_active set_mcs set_amask set_base set_path set_end_time
       set_duration
       is_active m_mcs_state m_mcs_eta m_mcs_info s_amask
       base m_path m_end_time m_duration
       negb andb orb fst snd app].

(** What [setControl] returns, leaves and dispatches. *)
Lemma setControl_result (mask : Z) (m : Maneuver) :
  setControl mask m
  = (tt,
     (if mask =? s_amask m then m else set_amask mask m),
     (if mask =? s_amask m then []
      else OutControlLoops CL_DISABLE CL_ALL
           :: (if mask =? 0 then [] else [OutControlLoops CL_ENABLE mask]))).
Proof.
  destruct m as [act st eta info am].
  assert (Hclear : Z.land am (not32 CL_ALL) = 0).
  { change (not32 CL_ALL) with 0. apply Z.land_0_r. }
  man_unfold. cbn [Z.eqb CL_DISABLE CL_ENABLE Pos.eqb].
  destruct (Z.eqb_spec mask am) as [-> | Hne]; man_unfold; [reflexivity |].
  rewrite Hclear.
  destruct (Z.eqb_spec mask 0) as [-> | Hnz]; man_unfold; [reflexivity |].
  rewrite Z.lor_0_l. reflexivity.
Qed.

(** X27.  [setControl] leaves [s_amask] at the mask asked for; it
    dispatches nothing when the mask is the one already set, and else a
    disabling of every loop, followed by an enabling of the mask unless
    the mask is empty; asked the same again, it is silent. *)
Theorem setControl_reaches_mask (mask : Z) (m : Maneuver) :
  let r := setControl mask m in
  s_amask (state_of r) = mask
  /\ output_of r
     = (if mask =? s_amask m then []
        else OutControlLoops CL_DISABLE CL_ALL
             :: (if mask =? 0 then [] else [OutControlLoops CL_ENABLE mask]))
  /\ output_of (setControl mask (state_of r)) = [].
Proof.
  cbv zeta. rewrite !setControl_result. cbn [state_of output_of fst snd].
  assert (Hs : s_amask (if mask =? s_amask m then m else set_amask mask m)
               = mask).
  { destruct (Z.eqb_spec mask (s_amask m)) as [Heq | _];
      [symmetry; exact Heq | reflexivity]. }
  rewrite Hs, Z.eqb_refl. repeat split.
Qed.


(** ** The Loiter maneuver *)

(** X29.  While the vehicle is on its way to the loiter, the time an
    active Loiter task with a duration reports as left is the
    controller's ETA plus the duration, reduced modulo 65536: it is less
    than the ETA it was given as soon as the sum does not fit 16 bits. *)
Theorem loiter_progress_wraps (now : Q) (flags eta : Z) (t : LoiterTask)
  {math : MathLib} :
  is_active (base t) = true ->
  Z.land flags PFL_LOITERING = 0 ->
  0 < m_duration t <= 65535 ->
  0 <= eta <= 65535 ->
  let reported := (eta + m_duration t) mod 65536 in
  output_of (consume_PathControlState now flags eta t)
  = [OutManeuverControlState MCS_EXECUTING (Some reported) ""]
  /\ (eta + m_duration t < 65536 -> reported = eta + m_duration t)
  /\ (65536 <= eta + m_duration t -> reported < eta).
Proof.
  intros Hact Hflags Hdur Heta. cbv zeta.
  destruct t as [[act st e info am] path et dur].
  cbn [base is_active m_duration] in *. subst act.
  man_unfold. rewrite Hflags. cbn [Z.eqb negb].
  destruct (Z.ltb_spec 0 dur); [| lia]. man_unfold.
  split; [reflexivity |]. split; intros H1.
  - apply Z.mod_small. lia.
  - replace (eta + dur) with ((eta + dur - 65536) + 1 * 65536) by lia.
    rewrite Z.mod_add by lia. rewrite Z.mod_small by lia. lia.
Qed.

Lemma loiter_progress_wraps_witness :
  output_of (@consume_PathControlState origin_math 3 0 65535 loiter_task_active)
  = [OutManeuverControlState MCS_EXECUTING (Some 9) ""].
Proof.
  apply (@loiter_progress_wraps 3%Q 0 65535 loiter_task_active origin_math);
    cbv; try reflexivity; split; congruence.
Defined.

(** X30.  A Loiter is started with the control loops set to path control,
    whatever its radius.  With a negative radius the task then reports
    the error "invalid loiter radius" and is not active, and no
    DesiredPath is dispatched; else it dispatches one DesiredPath, to the
    position of the Loiter with its radius and speed and no flag but the
    counter-clockwise one, takes the duration, and is active. *)
Theorem loiter_start_outcome (maneuver : Loiter) (t : LoiterTask)
  {math : MathLib} :
  let r := startManeuver maneuver t in
  let t' := state_of r in
  s_amask (base t') = CL_PATH
  /\ (if Qlt_bool (lm_radius maneuver) 0 then
        is_active (base t') = false
        /\ paths (output_of r) = []
        /\ last (output_of r) (OutControlLoops 0 0)
           = OutManeuverControlState MCS_ERROR (Some 0) "invalid loiter radius"
      else
        is_active (base t') = true
        /\ paths (output_of r) = [m_path t']
        /\ m_path t' = loiter_path maneuver (m_path t)
        /\ (dp_flags (m_path t') = 0 \/ dp_flags (m_path t') = FL_CCLOCKW)
        /\ m_duration t' = lm_duration maneuver
        /\ m_end_time t' = (- (1))%Q).
Proof.
  destruct t as [[act st e info am] path et dur]. cbv zeta.
  remember (startManeuver maneuver _) as r eqn:E. revert E.
  man_unfold.
  assert (Hclear : Z.land am (not32 CL_ALL) = 0).
  { change (not32 CL_ALL) with 0. apply Z.land_0_r. }
  destruct (Z.eqb_spec CL_PATH am) as [<- | Hne];
    cbn [Z.eqb CL_DISABLE CL_ENABLE CL_PATH Pos.eqb MCS_EXECUTING MCS_ERROR
         negb];
    man_unfold; rewrite ?Hclear; cbn [Z.lor Z.eqb Pos.eqb negb]; man_unfold;
    destruct (Qlt_bool (lm_radius maneuver) 0); man_unfold;
    cbn [Z.eqb Pos.eqb MCS_EXECUTING MCS_ERROR]; man_unfold;
    intros ->; cbn [state_of output_of fst snd base s_amask is_active m_path
                    m_duration m_end_time paths flat_map app last];
    repeat split;
    unfold loiter_path; cbn [dp_flags];
    destruct (lm_direction maneuver); auto.
Qed.


(** ** With the path controller *)

Section WithController.
Context {SD : Type} {sdo : BottomTracker.SlopeDataOps SD}.
Context {math : MathLib} {hooks : PathController.ControllerHooks}.

(** X28.  The ControlLoops messages by which a maneuver changes its loops
    to a mask with CL_PATH switch the path controller on, whatever its
    state before: it ends active, without error, tracking no path and
    not braking, and with the mask as the loops it takes as requested. *)
Theorem setControl_switches_path_control_on (mask : Z) (m : Maneuver)
  (now : Q) (s : PathController.Controller SD) :
  mask <> s_amask m ->
  Z.land mask CL_PATH <> 0 ->
  let s' := PathController.run s
              (loops_for_controller now (output_of (setControl mask m))) in
  PathController.m_active s' = true
  /\ PathController.m_error s' = false
  /\ PathController.m_tracking s' = false
  /\ PathController.m_braking s' = false
  /\ PathController.m_aloops s' = mask.
Proof.
  intros Hne Hpath. cbv zeta.
  rewrite setControl_result. cbn [output_of snd].
  destruct (Z.eqb_spec mask (s_amask m)) as [Heq | _]; [contradiction |].
  destruct (Z.eqb_spec mask 0) as [-> | Hnz];
    [exfalso; apply Hpath; reflexivity |].
  apply Z.eqb_neq in Hpath.
  cbn [loops_for_controller flat_map app PathController.run fold_left].
  unfold PathController.step_event. cbn [fst snd PathController.handle].
  cbv [bind ret state_of fst snd].
  set (r1 := PathController.consume_ControlLoops now CL_DISABLE CL_ALL s).
  destruct (PathControllerExtras.consume_ControlLoops_facts
              now CL_DISABLE CL_ALL s) as [Hoff [Hsame [_ Hdown]]].
  fold r1 in Hoff, Hsame, Hdown.
  change (Z.land CL_ALL CL_PATH =? 0) with false in Hoff.
  change (CL_DISABLE =? CL_ENABLE) with false in Hoff.
  change (CL_DISABLE =? 0) with true in Hsame, Hdown.
  cbv iota in Hoff, Hsame, Hdown.
  assert (Hclear : Z.land (PathController.m_aloops s) (not32 CL_ALL) = 0).
  { change (not32 CL_ALL) with 0. apply Z.land_0_r. }
  rewrite Hclear in Hsame, Hdown.
  assert (Hloops : PathController.m_aloops (state_of r1) = 0).
  { destruct (PathController.m_active s) eqn:Hact.
    - destruct (Hdown eq_refl Hoff) as [_ [_ [[H | [H | H]] _]]];
        rewrite H; reflexivity.
    - destruct (Hsame Hoff) as [H _]. rewrite H. reflexivity. }
  destruct r1 as [[u s1] o1]. cbn [state_of fst snd] in *.
  destruct (PathControllerExtras.consume_ControlLoops_facts
              now CL_ENABLE mask s1) as [Hon [_ [Hup _]]].
  rewrite Hpath in Hon. change (CL_ENABLE =? CL_ENABLE) with true in Hon.
  change (CL_ENABLE =? 0) with false in Hup. cbv iota in Hup.
  destruct (Hup Hoff Hon) as [E1 [E2 [E3 [E4 _]]]].
  destruct (PathController.consume_ControlLoops now CL_ENABLE mask s1)
    as [[u2 s2] o2]. cbn [state_of fst snd] in *.
  rewrite Hloops, Z.lor_0_l in E4.
  repeat split; assumption.
Qed.

End WithController.

#[local] Existing Instance blind_slope.
#[local] Existing Instance origin_math.
#[local] Existing Instance base_hooks.

Lemma setControl_switches_path_control_on_witness :
  PathController.m_active
    (PathController.run controller0
       (loops_for_controller 1 (output_of (setControl CL_PATH maneuver0))))
  = true.
Proof.
  assert (H2 : CL_PATH <> s_amask maneuver0) by (cbv; discriminate).
  assert (H3 : Z.land CL_PATH CL_PATH <> 0) by (cbv; discriminate).
  destruct (setControl_switches_path_control_on CL_PATH maneuver0 1%Q
              controller0 H2 H3) as [H _].
  exact H.
Defined.

End ManeuversProofs.
